(** * SimpleMonitor: the monitor state machine, its scheduling gate,
      recovery hooks, option resolver and state-transfer codec

    A shallow embedding of [simplemonitor/Monitors/monitor.py] and
    [simplemonitor/util/__init__.py].  Python integers are [Z], floats are
    IEEE doubles ([spec_float]), strings are [string]s of ASCII characters
    (where a character beyond ASCII would change what the code does, a
    statement asks for [Py.isascii]), attributes
    that may hold [None] are [option]s, the [config_options] dictionary is a
    [gmap], and the methods of [Monitor] are computations in a small
    state-and-exception monad over the monitor object and the outside world
    (clock, host name, child processes, log). *)

From Stdlib Require Import ZArith List Ascii Bool Lia DecimalString SpecFloat.
From Stdlib Require String.
From stdpp Require Import gmap strings.
Import ListNotations.
Local Open Scope Z_scope.
Set Warnings "-register-all".

(** ** Python built-ins used by the sources *)

Module Py.

(** [str(n)] for an [int]. *)
Definition str_of_int (n : Z) : string :=
  NilZero.string_of_int (Z.to_int n).

(** ["{:02}".format(n)] for an [int]: sign-aware zero padding to a width
    of at least two characters. *)
Definition format_02 (n : Z) : string :=
  if n <? 0 then str_of_int n
  else if n <? 10 then "0" +:+ str_of_int n
  else str_of_int n.

(** [divmod(a, b)]: floor division and the matching remainder. *)
Definition divmod (a b : Z) : Z * Z := (a / b, a mod b).

(** [c.isspace()] on the ASCII range. *)
Definition is_space (c : ascii) : bool :=
  let n := Z.of_nat (nat_of_ascii c) in
  ((9 <=? n) && (n <=? 13)) || ((28 <=? n) && (n <=? 32)).

Fixpoint lstrip (s : string) : string :=
  match s with
  | String c s' => if is_space c then lstrip s' else s
  | EmptyString => EmptyString
  end.

Fixpoint rstrip (s : string) : string :=
  match s with
  | EmptyString => EmptyString
  | String c s' =>
      match rstrip s' with
      | EmptyString => if is_space c then EmptyString else String c EmptyString
      | r => String c r
      end
  end.

(** [s.strip()]. *)
Definition strip (s : string) : string := rstrip (lstrip s).


(** The blanks that [int()] and [float()] skip around a number: those of
    the C library's [isspace], which the separators 28 to 31 are not. *)
Definition is_space_c (c : ascii) : bool :=
  let n := Z.of_nat (nat_of_ascii c) in
  ((9 <=? n) && (n <=? 13)) || (n =? 32).

Fixpoint lstrip_c (s : string) : string :=
  match s with
  | String c s' => if is_space_c c then lstrip_c s' else s
  | EmptyString => EmptyString
  end.

Fixpoint rstrip_c (s : string) : string :=
  match s with
  | EmptyString => EmptyString
  | String c s' =>
      match rstrip_c s' with
      | EmptyString => if is_space_c c then EmptyString else String c EmptyString
      | r => String c r
      end
  end.

Definition strip_c (s : string) : string := rstrip_c (lstrip_c s).

Definition lower_char (c : ascii) : ascii :=
  let n := nat_of_ascii c in
  if ((65 <=? n) && (n <=? 90))%nat then ascii_of_nat (n + 32) else c.

(** [s.lower()] on the ASCII range. *)
Fixpoint lower (s : string) : string :=
  match s with
  | EmptyString => EmptyString
  | String c s' => String (lower_char c) (lower s')
  end.

(** [s.split(sep)] for a one-character separator: empty pieces are kept,
    and the empty string splits into one empty piece. *)
Fixpoint split (sep : ascii) (s : string) : list string :=
  match s with
  | EmptyString => [EmptyString]
  | String c s' =>
      if Ascii.eqb c sep then EmptyString :: split sep s'
      else match split sep s' with
           | piece :: rest => String c piece :: rest
           | [] => [String c EmptyString]
           end
  end.

Definition digit_of (c : ascii) : option Z :=
  let n := Z.of_nat (nat_of_ascii c) in
  if (48 <=? n) && (n <=? 57) then Some (n - 48) else None.

(** The [(["_"] digit)*] that continues a digit part: its digits and what
    follows them. *)
Fixpoint digitpart_tail (s : string) : list Z * string :=
  match s with
  | String c s' =>
      match digit_of c with
      | Some d => let '(ds, rest) := digitpart_tail s' in (d :: ds, rest)
      | None =>
          if Ascii.eqb c "_" then
            match s' with
            | String c' s'' =>
                match digit_of c' with
                | Some d => let '(ds, rest) := digitpart_tail s'' in (d :: ds, rest)
                | None => ([], s)
                end
            | EmptyString => ([], s)
            end
          else ([], s)
      end
  | EmptyString => ([], s)
  end.

(** [digitpart ::= digit (["_"] digit)*] at the head of [s]. *)
Definition digitpart (s : string) : option (list Z * string) :=
  match s with
  | String c s' =>
      match digit_of c with
      | Some d => let '(ds, rest) := digitpart_tail s' in Some (d :: ds, rest)
      | None => None
      end
  | EmptyString => None
  end.

Definition number_of_digits (ds : list Z) : Z :=
  fold_left (fun acc d => 10 * acc + d) ds 0.

(** An optional sign at the head of [s]; [true] for a minus. *)
Definition take_sign (s : string) : bool * string :=
  match s with
  | String "-" s' => (true, s')
  | String "+" s' => (false, s')
  | _ => (false, s)
  end.

(** [sys.get_int_max_str_digits()]: the most digits an [int] may have
    where it is read from or written as a decimal string, as CPython ships
    it from 3.11 on. *)
Definition max_str_digits : Z := 4300.

(** [int(s)] for a [str], base ten; [None] stands for [ValueError], which
    is also what a number of more than [max_str_digits] digits raises. *)
Definition int_of_str (s : string) : option Z :=
  let '(neg, body) := take_sign (strip_c s) in
  match digitpart body with
  | Some (ds, EmptyString) =>
      if max_str_digits <? Z.of_nat (length ds) then None
      else let n := number_of_digits ds in Some (if neg then - n else n)
  | _ => None
  end.

(** Whether [str(n)] and [repr(n)] raise [ValueError]: [n] has more than
    [max_str_digits] digits. *)
Definition exceeds_max_str_digits (n : Z) : bool :=
  10 ^ max_str_digits <=? Z.abs n.

(** Python floats are binary64. *)
Definition prec : Z := 53.
Definition emax : Z := 1024.

(** The double nearest to [m * 10^e], ties to even, for [0 <= m]. *)
Definition float_of_decimal (neg : bool) (m e : Z) : spec_float :=
  if m =? 0 then S754_zero neg
  else if 0 <=? e then
    binary_normalize prec emax (if neg then - (m * 10 ^ e) else m * 10 ^ e) 0 neg
  else
    let '(q, e', l) := SFdiv_core_binary prec emax m 0 (10 ^ (- e)) 0 in
    binary_round_aux prec emax neg q e' l.

(** [exponent ::= ("e" | "E") [sign] digitpart], optional. *)
Definition exponent_part (s : string) : option (Z * string) :=
  match s with
  | String c s' =>
      if Ascii.eqb (lower_char c) "e" then
        let '(neg, body) := take_sign s' in
        match digitpart body with
        | Some (ds, rest) =>
            let n := number_of_digits ds in Some (if neg then - n else n, rest)
        | None => None
        end
      else Some (0, s)
  | EmptyString => Some (0, s)
  end.

(** [floatnumber ::= ([digitpart] "." digitpart | digitpart ["."]) [exponent]]. *)
Definition floatnumber (neg : bool) (s : string) : option spec_float :=
  let '(int_ds, rest) :=
    match digitpart s with Some r => r | None => ([], s) end in
  let '(frac_ds, rest) :=
    match rest with
    | String "." rest' =>
        match digitpart rest' with
        | Some r => r
        | None => ([], rest')
        end
    | _ => ([], rest)
    end in
  match int_ds, frac_ds with
  | [], [] => None
  | _, _ =>
      match exponent_part rest with
      | Some (ex, EmptyString) =>
          Some (float_of_decimal neg (number_of_digits (int_ds ++ frac_ds))
                                 (ex - Z.of_nat (length frac_ds)))
      | _ => None
      end
  end.

(** [float(s)] for a [str]; [None] stands for [ValueError]. *)
Definition float_of_str (s : string) : option spec_float :=
  let '(neg, body) := take_sign (strip_c s) in
  let word := lower body in
  if String.eqb word "inf" || String.eqb word "infinity" then Some (S754_infinity neg)
  else if String.eqb word "nan" then Some S754_nan
  else floatnumber neg body.

(** Numbers: [int] (and [bool], an [int]) or [float]. *)
Inductive Num :=
| NInt (n : Z)
| NFloat (x : spec_float).

(** An [int] against a [float], compared exactly as Python does. *)
Definition compare_int_float (n : Z) (x : spec_float) : option comparison :=
  match x with
  | S754_nan => None
  | S754_infinity s => Some (if s then Gt else Lt)
  | S754_zero _ => Some (n ?= 0)
  | S754_finite s m e =>
      let v := if s then Z.neg m else Z.pos m in
      Some (if 0 <=? e then n ?= v * 2 ^ e else n * 2 ^ (- e) ?= v)
  end.

Definition num_compare (a b : Num) : option comparison :=
  match a, b with
  | NInt x, NInt y => Some (x ?= y)
  | NFloat x, NFloat y => SFcompare x y
  | NInt x, NFloat y => compare_int_float x y
  | NFloat x, NInt y => option_map CompOpp (compare_int_float y x)
  end.

(** [a < b], [a > b] and [a == b] on numbers. *)
Definition num_lt (a b : Num) : bool :=
  match num_compare a b with Some Lt => true | _ => false end.
Definition num_gt (a b : Num) : bool :=
  match num_compare a b with Some Gt => true | _ => false end.
Definition num_eq (a b : Num) : bool :=
  match num_compare a b with Some Eq => true | _ => false end.

End Py.

(** ** Exceptions and results *)

Inductive ExcClass :=
| ValueError | TypeError | KeyError | AttributeError
| MonitorConfigurationError | AlerterConfigurationError
| LoggerConfigurationError | SimpleMonitorConfigurationError.

(** What a [get_config_option] error reports about the option [key]; the
    text of the message is the source's format string filled with these. *)
Inductive ConfigProblem :=
| IsMissing                           (* "... is missing and is required" *)
| CannotBeEmpty                       (* "... cannot be empty" *)
| NeedsToBe (required_type : string)  (* "... needs to be an {1}" *)
| NeedsToBeIntList                    (* "... needs to be a list of int[int,...]" *)
| BelowMinimum (minimum : Py.Num)     (* "... needs to be >= {1}" *)
| AboveMaximum (maximum : Py.Num)     (* "... needs to be <= {1}" *)
| NotAllowed.                         (* "... needs to be one of {1}" *)

Inductive ExcArgs :=
| Text (message : string)
| ConfigOption (key : string) (problem : ConfigProblem).

Record Exception := Raise { exc_class : ExcClass; exc_args : ExcArgs }.

(** A call either returns or raises. *)
Inductive Result (A : Type) :=
| Ok (a : A)
| Err (e : Exception).
Arguments Ok {A} a.
Arguments Err {A} e.

#[global] Instance Result_ret : MRet Result := fun _ a => Ok a.
#[global] Instance Result_bind : MBind Result :=
  fun _ _ f r => match r with Ok a => f a | Err e => Err e end.
#[global] Instance Result_fmap : FMap Result :=
  fun _ _ f r => match r with Ok a => Ok (f a) | Err e => Err e end.

(** [[f(x) for x in l]] where [f] may raise. *)
Fixpoint Result_map {A B} (f : A -> Result B) (l : list A) : Result (list B) :=
  match l with
  | [] => Ok []
  | x :: l' => y ← f x; ys ← Result_map f l'; mret (y :: ys)
  end.

(** ** [class MonitorState(Enum)] *)

Inductive MonitorState :=
| UNKNOWN   (* state not known yet *)
| SKIPPED   (* monitor was skipped *)
| OK        (* monitor is ok *)
| FAILED.   (* monitor has failed *)

Definition MonitorState_value (s : MonitorState) : Z :=
  match s with UNKNOWN => 0 | SKIPPED => 1 | OK => 2 | FAILED => 3 end.

(** [s.name]. *)
Definition MonitorState_name (s : MonitorState) : string :=
  match s with
  | UNKNOWN => "UNKNOWN" | SKIPPED => "SKIPPED" | OK => "OK" | FAILED => "FAILED"
  end.

(** [MonitorState[name]]: the member of that name, or [KeyError]. *)
Definition MonitorState_getitem (name : string) : Result MonitorState :=
  if String.eqb name "UNKNOWN" then Ok UNKNOWN
  else if String.eqb name "SKIPPED" then Ok SKIPPED
  else if String.eqb name "OK" then Ok OK
  else if String.eqb name "FAILED" then Ok FAILED
  else Err (Raise KeyError (Text name)).

Definition MonitorState_eqb (a b : MonitorState) : bool :=
  MonitorState_value a =? MonitorState_value b.

#[global] Instance MonitorState_eq_dec : EqDecision MonitorState.
Proof. solve_decision. Defined.

(** ** [datetime.datetime] and [datetime.timedelta] *)

(** A naive [datetime], as [datetime.utcnow()] gives. *)
Record datetime := Datetime {
  year : Z;
  month : Z;
  day : Z;
  hour : Z;
  minute : Z;
  second : Z;
  microsecond : Z
}.

Definition _is_leap (y : Z) : bool :=
  (y mod 4 =? 0) && (negb (y mod 100 =? 0) || (y mod 400 =? 0)).

Definition _days_in_month (y m : Z) : Z :=
  if (m =? 2) && _is_leap y then 29
  else nth (Z.to_nat m) [-1; 31; 28; 31; 30; 31; 30; 31; 31; 30; 31; 30; 31] (-1).

Definition _days_before_month (y m : Z) : Z :=
  nth (Z.to_nat m) [-1; 0; 31; 59; 90; 120; 151; 181; 212; 243; 273; 304; 334] (-1)
  + (if (m >? 2) && _is_leap y then 1 else 0).

Definition _days_before_year (y : Z) : Z :=
  let y := y - 1 in y * 365 + y / 4 - y / 100 + y / 400.

(** The values the [datetime] constructor accepts. *)
Definition datetime_valid (d : datetime) : bool :=
  (1 <=? year d) && (year d <=? 9999)
  && (1 <=? month d) && (month d <=? 12)
  && (1 <=? day d) && (day d <=? _days_in_month (year d) (month d))
  && (0 <=? hour d) && (hour d <=? 23)
  && (0 <=? minute d) && (minute d <=? 59)
  && (0 <=? second d) && (second d <=? 59)
  && (0 <=? microsecond d) && (microsecond d <=? 999999).

(** [d.toordinal()]. *)
Definition toordinal (d : datetime) : Z :=
  _days_before_year (year d) + _days_before_month (year d) (month d) + day d.

(** A normalised [timedelta]: [0 <= seconds < 86400] and
    [0 <= microseconds < 1000000]; [days] carries the sign. *)
Record timedelta := Timedelta {
  td_days : Z;
  td_seconds : Z;
  td_microseconds : Z
}.

(** [timedelta(days, seconds, microseconds)] on integers: the constructor
    carries microseconds into seconds and seconds into days. *)
Definition mk_timedelta (d s us : Z) : timedelta :=
  let '(carry_s, us') := Py.divmod us 1000000 in
  let '(carry_d, s') := Py.divmod (s + carry_s) 86400 in
  Timedelta (d + carry_d) s' us'.

(** [a - b] on two naive datetimes. *)
Definition datetime_sub (a b : datetime) : timedelta :=
  let secs1 := second a + minute a * 60 + hour a * 3600 in
  let secs2 := second b + minute b * 60 + hour b * 3600 in
  mk_timedelta (toordinal a - toordinal b) (secs1 - secs2)
               (microsecond a - microsecond b).

(** [d.replace(microsecond=0)]. *)
Definition replace_microsecond (us : Z) (d : datetime) : datetime :=
  Datetime (year d) (month d) (day d) (hour d) (minute d) (second d) us.

(** *** Formatting and parsing *)

Definition digit_char (d : Z) : ascii := ascii_of_nat (48 + Z.to_nat d).

(** The [width] low decimal digits of [n], most significant first: the
    zero-padded rendering of [0 <= n < 10 ^ width]. *)
Fixpoint zfill (width : nat) (n : Z) : string :=
  match width with
  | O => EmptyString
  | S w => String (digit_char (n / 10 ^ Z.of_nat w mod 10)) (zfill w n)
  end.

(** [FORMAT = "%Y-%m-%d %H:%M:%S.%f"]; [d.strftime(FORMAT)].  Python
    writes [%f] itself, the microseconds zero-padded to width 6, and leaves
    the rest to the C library's [strftime]: [%m %d %H %M %S] are
    zero-padded decimals of width 2, and [%Y] is the year as a decimal
    number, which glibc does not pad, so that a year below 1000 comes with
    fewer than four digits. *)
Definition strftime_FORMAT (d : datetime) : string :=
  Py.str_of_int (year d) +:+ "-" +:+ zfill 2 (month d) +:+ "-" +:+ zfill 2 (day d)
  +:+ " " +:+ zfill 2 (hour d) +:+ ":" +:+ zfill 2 (minute d) +:+ ":"
  +:+ zfill 2 (second d) +:+ "." +:+ zfill 6 (microsecond d).

(** [d.isoformat(" ", "microseconds")]: every field zero-padded, the year
    to width 4. *)
Definition isoformat_microseconds (d : datetime) : string :=
  zfill 4 (year d) +:+ "-" +:+ zfill 2 (month d) +:+ "-" +:+ zfill 2 (day d)
  +:+ " " +:+ zfill 2 (hour d) +:+ ":" +:+ zfill 2 (minute d) +:+ ":"
  +:+ zfill 2 (second d) +:+ "." +:+ zfill 6 (microsecond d).

(** [d.isoformat(" ")] for a datetime whose microsecond is zero. *)
Definition isoformat_seconds (d : datetime) : string :=
  zfill 4 (year d) +:+ "-" +:+ zfill 2 (month d) +:+ "-" +:+ zfill 2 (day d)
  +:+ " " +:+ zfill 2 (hour d) +:+ ":" +:+ zfill 2 (minute d) +:+ ":"
  +:+ zfill 2 (second d).

(** Parsers over the head of a string: the value read and the rest. *)
Definition Parser (A : Type) : Type := string -> option (A * string).

Definition read_digit : Parser Z :=
  fun s => match s with
           | String c rest => d ← Py.digit_of c; Some (d, rest)
           | EmptyString => None
           end.

(** Exactly [n] digits, as [\d{n}] in a [strptime] directive. *)
Fixpoint read_digits (n : nat) (acc : Z) : Parser Z :=
  fun s => match n with
           | O => Some (acc, s)
           | S n' => '(d, rest) ← read_digit s; read_digits n' (10 * acc + d) rest
           end.

(** Between one and [n] digits, greedily; also how many were read. *)
Fixpoint read_upto (n : nat) (acc : Z) (count : nat) : Parser (Z * nat) :=
  fun s => match n with
           | O => Some ((acc, count), s)
           | S n' => match read_digit s with
                     | Some (d, rest) => read_upto n' (10 * acc + d) (S count) rest
                     | None => Some ((acc, count), s)
                     end
           end.

Definition read_char (c : ascii) : Parser unit :=
  fun s => match s with
           | String c' rest => if Ascii.eqb c c' then Some (tt, rest) else None
           | EmptyString => None
           end.

(** [\s+]: what [strptime] makes of a blank in the format. *)
Definition read_spaces : Parser unit :=
  fun s => match s with
           | String c rest => if Py.is_space c then Some (tt, Py.lstrip rest) else None
           | EmptyString => None
           end.

(** A numeric directive of [strptime]: its two-digit alternatives cover
    [lo2 .. hi2] written with two digits, and are tried before the
    one-digit alternative, which covers [lo1 .. 9].  The literal that
    follows every such directive in [FORMAT] is no digit, so the first
    alternative that matches is the one the whole match uses. *)
Definition read_field (lo2 hi2 lo1 : Z) : Parser Z :=
  fun s =>
    match read_digits 2 0 s with
    | Some (v, rest) =>
        if (lo2 <=? v) && (v <=? hi2) then Some (v, rest)
        else '(d, rest1) ← read_digit s;
             if lo1 <=? d then Some (d, rest1) else None
    | None =>
        '(d, rest1) ← read_digit s;
        if lo1 <=? d then Some (d, rest1) else None
    end.

(** [%d] has one more alternative: a blank and a digit [1-9]. *)
Definition read_day : Parser Z :=
  fun s =>
    match read_field 1 31 1 s with
    | Some r => Some r
    | None => _ ← read_char " " s;
              match s with
              | String _ rest => '(d, rest1) ← read_digit rest;
                                 if 1 <=? d then Some (d, rest1) else None
              | EmptyString => None
              end
    end.

(** [datetime.strptime(s, FORMAT)]: the directives [%Y] ([\d\d\d\d]),
    [%m] ([1[0-2]|0[1-9]|[1-9]]), [%d], [%H] ([2[0-3]|[0-1]\d|\d]),
    [%M] ([[0-5]\d|\d]), [%S] ([6[0-1]|[0-5]\d|\d]) and [%f] ([[0-9]{1,6}],
    padded with zeros on the right), with the literals between them; the
    whole string must be consumed and the fields must make a datetime,
    else [ValueError]. *)
Definition strptime_FORMAT (s : string) : Result datetime :=
  let parsed : option datetime :=
    '(yy, s) ← read_digits 4 0 s;
    '(_, s) ← read_char "-" s;
    '(mo, s) ← read_field 1 12 1 s;
    '(_, s) ← read_char "-" s;
    '(dd, s) ← read_day s;
    '(_, s) ← read_spaces s;
    '(hh, s) ← read_field 0 23 0 s;
    '(_, s) ← read_char ":" s;
    '(mi, s) ← read_field 0 59 0 s;
    '(_, s) ← read_char ":" s;
    '(ss, s) ← read_field 0 61 0 s;
    '(_, s) ← read_char "." s;
    '(f, n, s) ← read_upto 6 0 0 s;
    match n, s with
    | S _, EmptyString => Some (Datetime yy mo dd hh mi ss (f * 10 ^ Z.of_nat (6 - n)))
    | _, _ => None
    end in
  match parsed with
  | Some d => if datetime_valid d then Ok d
              else Err (Raise ValueError (Text "out of range"))
  | None => Err (Raise ValueError (Text "does not match format"))
  end.

(** [pattern.match(s)] for a pattern that is a sequence of [\d] and literal
    characters: a match at the start of [s], whatever follows.  On ASCII
    text [\d] is one of the digits 0 to 9; beyond ASCII it takes other
    decimal digits too, so a statement that rests on a match failing asks
    for [Py.isascii]. *)
Inductive PatternItem := Digit | Literal (c : ascii).

Fixpoint re_match (pattern : list PatternItem) (s : string) : bool :=
  match pattern with
  | [] => true
  | item :: pattern' =>
      match s with
      | EmptyString => false
      | String c rest =>
          match item with
          | Digit => match Py.digit_of c with Some _ => re_match pattern' rest | None => false end
          | Literal c' => if Ascii.eqb c c' then re_match pattern' rest else false
          end
      end
  end.

(** ** [class UpDownTime] *)

Record UpDownTime := MkUpDownTime {
  days : Z;
  hours : Z;
  minutes : Z;
  seconds : Z
}.

(** [UpDownTime()] with every argument at its default. *)
Definition UpDownTime_default : UpDownTime := MkUpDownTime 0 0 0 0.

(** [UpDownTime.__str__]:
    ["{}+{:02}:{:02}:{:02}".format(days, hours, minutes, int(seconds))]. *)
Definition UpDownTime_str (u : UpDownTime) : string :=
  Py.str_of_int (days u) +:+ "+" +:+ Py.format_02 (hours u) +:+ ":"
    +:+ Py.format_02 (minutes u) +:+ ":" +:+ Py.format_02 (seconds u).

(** [UpDownTime.__eq__] against another [UpDownTime]. *)
Definition UpDownTime_eqb (a b : UpDownTime) : bool :=
  (days a =? days b) && (hours a =? hours b)
  && (minutes a =? minutes b) && (seconds a =? seconds b).

(** [UpDownTime.from_timedelta]. *)
Definition from_timedelta (td : option timedelta) : UpDownTime :=
  match td with
  | None => UpDownTime_default
  | Some td =>
      let downtime_seconds := td_seconds td in
      let '(hours, minutes) := (0, 0) in
      let '(hours, downtime_seconds) :=
        if downtime_seconds >? 3600
        then Py.divmod downtime_seconds 3600
        else (hours, downtime_seconds) in
      let '(minutes, downtime_seconds) :=
        if downtime_seconds >? 60
        then Py.divmod downtime_seconds 60
        else (minutes, downtime_seconds) in
      MkUpDownTime (td_days td) hours minutes downtime_seconds
  end.

(** The decomposition the format asks for, in the specification's words:
    each unit takes the remainder after dividing out the larger one. *)
Definition decomposed (td : timedelta) : UpDownTime :=
  MkUpDownTime (td_days td)
               (td_seconds td / 3600)
               (td_seconds td mod 3600 / 60)
               (td_seconds td mod 3600 mod 60).

(** ** [get_config_option] *)

(** The values an option, a default or an allowed value can be. *)
Inductive Value :=
| VNone
| VBool (b : bool)
| VInt (n : Z)
| VFloat (x : spec_float)
| VStr (s : string)
| VList (l : list Value).

Definition Value_of_num (n : Py.Num) : Value :=
  match n with Py.NInt z => VInt z | Py.NFloat x => VFloat x end.

(** The number a value is, if it is one ([bool] is an [int]). *)
Definition Value_num (v : Value) : option Py.Num :=
  match v with
  | VBool b => Some (Py.NInt (if b then 1 else 0))
  | VInt n => Some (Py.NInt n)
  | VFloat x => Some (Py.NFloat x)
  | _ => None
  end.

(** [v is None]. *)
Definition Value_is_None (v : Value) : bool :=
  match v with VNone => true | _ => false end.

(** [a == b]. *)
Fixpoint Value_eqb (a b : Value) : bool :=
  match a, b with
  | VNone, VNone => true
  | VStr s, VStr t => String.eqb s t
  | VList l, VList l' =>
      (fix all_eqb (l l' : list Value) : bool :=
         match l, l' with
         | [], [] => true
         | x :: l, y :: l' => Value_eqb x y && all_eqb l l'
         | _, _ => false
         end) l l'
  | _, _ =>
      match Value_num a, Value_num b with
      | Some x, Some y => Py.num_eq x y
      | _, _ => false
      end
  end.

(** [x in l]. *)
Definition Value_in (x : Value) (l : list Value) : bool :=
  existsb (Value_eqb x) l.

(** [x in l] for strings. *)
Definition str_in (x : string) (l : list string) : bool :=
  existsb (String.eqb x) l.

(** The keyword arguments of [get_config_option]. *)
Record Kwargs := {
  kw_exception : ExcClass;
  kw_default : Value;
  kw_required : bool;
  kw_required_type : string;
  kw_allowed_values : option (list Value);
  kw_allow_empty : bool;
  kw_minimum : option Py.Num;
  kw_maximum : option Py.Num
}.

(** What [kwargs.get] gives for each keyword that is not passed. *)
Definition no_kwargs : Kwargs := {|
  kw_exception := ValueError;
  kw_default := VNone;
  kw_required := false;
  kw_required_type := "str";
  kw_allowed_values := None;
  kw_allow_empty := true;
  kw_minimum := None;
  kw_maximum := None
|}.

Definition config_error {A} (exception : ExcClass) (key : string)
    (problem : ConfigProblem) : Result A :=
  Err (Raise exception (ConfigOption key problem)).

(** The body of [if isinstance(value, str) and required_type:], for the
    string [s] that [value] is on entry.  At most one of the tests on
    [required_type] holds, so where the source reads [value] again in a
    later test it still is [s]. *)
Definition convert_str (exception : ExcClass) (key : string) (kwargs : Kwargs)
    (s : string) : Result Value :=
  let required_type := kw_required_type kwargs in
  _ ← (if String.eqb required_type "str" && String.eqb s "" && negb (kw_allow_empty kwargs)
       then config_error exception key CannotBeEmpty
       else Ok tt);
  value ← (if str_in required_type ["int"; "float"] then
             value ← (if String.eqb required_type "int" then
                        match Py.int_of_str s with
                        | Some n => Ok (Py.NInt n)
                        | None => config_error exception key (NeedsToBe required_type)
                        end
                      else
                        match Py.float_of_str s with
                        | Some x => Ok (Py.NFloat x)
                        | None => config_error exception key (NeedsToBe required_type)
                        end);
             _ ← match kw_minimum kwargs with
                 | Some minimum =>
                     if Py.num_lt value minimum
                     then config_error exception key (BelowMinimum minimum)
                     else Ok tt
                 | None => Ok tt
                 end;
             _ ← match kw_maximum kwargs with
                 | Some maximum =>
                     if Py.num_gt value maximum
                     then config_error exception key (AboveMaximum maximum)
                     else Ok tt
                 | None => Ok tt
                 end;
             Ok (Value_of_num value)
           else Ok (VStr s));
  value ← (if String.eqb required_type "[int]" then
             match Result_map
                     (fun x => match Py.int_of_str x with
                               | Some n => Ok (VInt n)
                               | None => Err (Raise ValueError (Text x))
                               end)
                     (Py.split "," s) with
             | Ok l => Ok (VList l)
             | Err _ => config_error exception key NeedsToBeIntList
             end
           else Ok value);
  value ← (if String.eqb required_type "bool" then
             Ok (VBool (str_in (Py.lower s) ["1"; "true"; "yes"]))
           else Ok value);
  value ← (if String.eqb required_type "[str]" then
             Ok (VList (map (fun x => VStr (Py.strip x)) (Py.split "," s)))
           else Ok value);
  Ok value.

(** [get_config_option(config_options, key, **kwargs)]: a value out of a
    dict, with possible default, required type and requiredness.  The
    argument is a dict, so the [isinstance(config_options, dict)] guard
    passes. *)
Definition get_config_option (config_options : gmap string Value) (key : string)
    (kwargs : Kwargs) : Result Value :=
  let exception := kw_exception kwargs in
  let value := default (kw_default kwargs) (config_options !! key) in
  _ ← (if kw_required kwargs && Value_is_None value
       then config_error exception key IsMissing
       else Ok tt);
  let required_type := kw_required_type kwargs in
  let allowed_values := kw_allowed_values kwargs in
  value ← match value with
          | VStr s =>
              if negb (String.eqb required_type "")
              then convert_str exception key kwargs s
              else Ok value
          | _ => Ok value
          end;
  _ ← match value, allowed_values with
      | VList l, Some ((_ :: _) as allowed) =>
          if negb (forallb (fun x => Value_in x allowed) l)
          then config_error exception key NotAllowed
          else Ok tt
      | _, Some allowed =>
          if negb (Value_in value allowed)
          then config_error exception key NotAllowed
          else Ok tt
      | _, None => Ok tt
      end;
  Ok value.

(** [format_datetime]: an [isoformat()]-like datetime without the
    microseconds, or the empty string for [None]. *)
Definition format_datetime (the_datetime : option datetime) : string :=
  match the_datetime with
  | None => ""
  | Some d => isoformat_seconds (replace_microsecond 0 d)
  end.

(** *** When [get_config_option] raises, in the specification's words *)

(** The value an option resolves to before any conversion: the entry of
    the dict, or the default when the key is absent. *)
Definition resolved (config_options : gmap string Value) (key : string)
    (kwargs : Kwargs) : Value :=
  default (kw_default kwargs) (config_options !! key).

(** "Required and missing": the option is required and the dict has no
    such key. *)
Definition required_and_missing (config_options : gmap string Value) (key : string)
    (kwargs : Kwargs) : bool :=
  kw_required kwargs && bool_decide (config_options !! key = None).

(** Required, and neither the dict nor the default gives a value. *)
Definition required_without_value (config_options : gmap string Value) (key : string)
    (kwargs : Kwargs) : bool :=
  kw_required kwargs && Value_is_None (resolved config_options key kwargs).

(** An empty string where a non-empty [str] is asked for. *)
Definition refused_empty (kwargs : Kwargs) (value : Value) : bool :=
  match value with
  | VStr s =>
      String.eqb (kw_required_type kwargs) "str" && String.eqb s ""
      && negb (kw_allow_empty kwargs)
  | _ => false
  end.

(** The string value "fails to parse as the required type": as an [int],
    as a [float], or, piece by piece, as a list of [int]. *)
Definition fails_to_parse (kwargs : Kwargs) (value : Value) : bool :=
  match value with
  | VStr s =>
      (String.eqb (kw_required_type kwargs) "int"
       && bool_decide (Py.int_of_str s = None))
      || (String.eqb (kw_required_type kwargs) "float"
          && bool_decide (Py.float_of_str s = None))
      || (String.eqb (kw_required_type kwargs) "[int]"
          && existsb (fun piece => bool_decide (Py.int_of_str piece = None))
                     (Py.split "," s))
  | _ => false
  end.

(** The number a string value parses to under a numeric required type. *)
Definition parsed_number (kwargs : Kwargs) (value : Value) : option Py.Num :=
  match value with
  | VStr s =>
      if String.eqb (kw_required_type kwargs) "int" then Py.NInt <$> Py.int_of_str s
      else if String.eqb (kw_required_type kwargs) "float" then Py.NFloat <$> Py.float_of_str s
      else None
  | _ => None
  end.

(** "A parsed numeric value is below the given minimum", "above the given
    maximum". *)
Definition below_minimum (kwargs : Kwargs) (value : Value) : bool :=
  match parsed_number kwargs value, kw_minimum kwargs with
  | Some n, Some minimum => Py.num_lt n minimum
  | _, _ => false
  end.

Definition above_maximum (kwargs : Kwargs) (value : Value) : bool :=
  match parsed_number kwargs value, kw_maximum kwargs with
  | Some n, Some maximum => Py.num_gt n maximum
  | _, _ => false
  end.

(** The "possibly type-converted" value: a string under a required type is
    converted to that type, anything else is returned as it is. *)
Definition converted (kwargs : Kwargs) (value : Value) : Value :=
  match value with
  | VStr s =>
      let required_type := kw_required_type kwargs in
      if String.eqb required_type "int" then
        match Py.int_of_str s with Some n => VInt n | None => value end
      else if String.eqb required_type "float" then
        match Py.float_of_str s with Some x => VFloat x | None => value end
      else if String.eqb required_type "[int]" then
        VList (map VInt (omap Py.int_of_str (Py.split "," s)))
      else if String.eqb required_type "bool" then
        VBool (str_in (Py.lower s) ["1"; "true"; "yes"])
      else if String.eqb required_type "[str]" then
        VList (map (fun x => VStr (Py.strip x)) (Py.split "," s))
      else value
  | _ => value
  end.

(** "The value is not among [allowed_values]": the value itself, or, for a
    list checked against a non-empty list of allowed values, one of its
    elements. *)
Definition not_among_allowed (kwargs : Kwargs) (value : Value) : bool :=
  match kw_allowed_values kwargs with
  | None => false
  | Some allowed =>
      match value, allowed with
      | VList l, _ :: _ => existsb (fun x => negb (Value_in x allowed)) l
      | _, _ => negb (Value_in value allowed)
      end
  end.

(** The specification's wording: an error in exactly these cases. *)
Definition raises_as_worded (config_options : gmap string Value) (key : string)
    (kwargs : Kwargs) : bool :=
  let value := resolved config_options key kwargs in
  required_and_missing config_options key kwargs
  || fails_to_parse kwargs value
  || below_minimum kwargs value || above_maximum kwargs value
  || not_among_allowed kwargs (converted kwargs value).

(** The cases in which the code raises. *)
Definition raises_as_coded (config_options : gmap string Value) (key : string)
    (kwargs : Kwargs) : bool :=
  let value := resolved config_options key kwargs in
  required_without_value config_options key kwargs
  || refused_empty kwargs value
  || fails_to_parse kwargs value
  || below_minimum kwargs value || above_maximum kwargs value
  || not_among_allowed kwargs (converted kwargs value).

Definition is_Err {A} (r : Result A) : bool :=
  match r with Ok _ => false | Err _ => true end.

(** ** The state-transfer codec: [JSONEncoder] and [JSONDecoder] *)

(** The objects handed to [json_dumps] and returned by [json_loads]. *)
Inductive PyObj :=
| ONone
| OBool (b : bool)
| OInt (n : Z)
| OFloat (x : spec_float)
| OStr (s : string)
| OList (l : list PyObj)
| ODict (items : list (string * PyObj))   (* in insertion order *)
| ODatetime (d : datetime)
| ORegex (pattern : string)               (* a compiled regular expression *)
| OMonitorState (s : MonitorState)
| OOther (repr : string).                 (* an object of any other class *)

(** The JSON document between the two: what the encoder writes as ASCII
    text and the decoder reads back. *)
Inductive JSON :=
| JNull
| JBool (b : bool)
| JInt (n : Z)
| JFloat (x : spec_float)
| JStr (s : string)
| JArray (l : list JSON)
| JObject (members : list (string * JSON)).

Definition DATETIME_MAGIC_TOKEN : string := "__simplemonitor_datetime".
Definition MONITORSTATE_MAGIC_TOKEN : string := "__simplemonitor_monitorstate".

(** [json.JSONEncoder.default]: the base class serialises nothing more. *)
Definition super_default (obj : PyObj) : Result PyObj :=
  Err (Raise TypeError (Text "Object is not JSON serializable")).

(** [JSONEncoder.default]. *)
Definition JSONEncoder_default (obj : PyObj) : Result PyObj :=
  match obj with
  | ODatetime d => Ok (ODict [(DATETIME_MAGIC_TOKEN, OStr (strftime_FORMAT d))])
  | ORegex _ => Ok (OStr "<removed compiled regexp object>")
  | OMonitorState s => Ok (ODict [(MONITORSTATE_MAGIC_TOKEN, OStr (MonitorState_name s))])
  | _ => super_default obj
  end.

(** The encoder of the [json] library on the types it serialises itself;
    [default] is what it calls on an object of any other type.  An [int]
    is written with [int.__repr__], which raises [ValueError] on more
    digits than [Py.max_str_digits]. *)
Fixpoint iterencode (default : PyObj -> Result JSON) (o : PyObj) : Result JSON :=
  match o with
  | ONone => Ok JNull
  | OBool b => Ok (JBool b)
  | OInt n =>
      if Py.exceeds_max_str_digits n
      then Err (Raise ValueError
                      (Text "Exceeds the limit (4300 digits) for integer string conversion"))
      else Ok (JInt n)
  | OFloat x => Ok (JFloat x)
  | OStr s => Ok (JStr s)
  | OList l =>
      JArray <$>
        (fix items (l : list PyObj) : Result (list JSON) :=
           match l with
           | [] => Ok []
           | x :: l' => y ← iterencode default x; ys ← items l'; Ok (y :: ys)
           end) l
  | ODict d =>
      JObject <$>
        (fix members (d : list (string * PyObj)) : Result (list (string * JSON)) :=
           match d with
           | [] => Ok []
           | (k, x) :: d' => y ← iterencode default x; ys ← members d'; Ok ((k, y) :: ys)
           end) d
  | _ => default o
  end.

(** The library's encoder when no [default] is overridden. *)
Definition encode_native (o : PyObj) : Result JSON :=
  iterencode (fun o' => Err (Raise TypeError (Text "Object is not JSON serializable"))) o.

(** [JSONEncoder().encode]: an object the library does not serialise goes
    through [JSONEncoder.default], and what that returns is encoded in its
    place.  It returns strings and dicts of strings only, which are encoded
    without a further call of [default]. *)
Definition JSONEncoder_encode (data : PyObj) : Result JSON :=
  iterencode (fun o => JSONEncoder_default o ≫= encode_native) data.

(** [dict(pairs)]: a later pair of the same key replaces the value of the
    earlier one, in its place. *)
Fixpoint dict_set (k : string) (v : PyObj) (d : list (string * PyObj))
    : list (string * PyObj) :=
  match d with
  | [] => [(k, v)]
  | (k', v') :: d' =>
      if String.eqb k k' then (k, v) :: d' else (k', v') :: dict_set k v d'
  end.

Definition dict_of_pairs (pairs : list (string * PyObj)) : PyObj :=
  ODict (fold_left (fun d '(k, v) => dict_set k v d) pairs []).

(** [_datetime_re = re.compile(r"\d{4}-\d{2}-\d{2} \d{2}:\d{2}:\d{2}\.\d{6}")]. *)
Definition _datetime_re : list PatternItem :=
  [Digit; Digit; Digit; Digit; Literal "-"; Digit; Digit; Literal "-"; Digit; Digit;
   Literal " "; Digit; Digit; Literal ":"; Digit; Digit; Literal ":"; Digit; Digit;
   Literal "."; Digit; Digit; Digit; Digit; Digit; Digit].

Definition is_str (o : PyObj) : bool :=
  match o with OStr _ => true | _ => false end.

Definition str_value (o : PyObj) : string :=
  match o with OStr s => s | _ => "" end.

(** [JSONDecoder.object_pairs_hook], given the [object_pairs_hook] the
    decoder was constructed with, if any. *)
Definition object_pairs_hook
    (_original_object_pairs_hook : option (list (string * PyObj) -> Result PyObj))
    (obj : list (string * PyObj)) : Result PyObj :=
  let first := hd ("", ONone) obj in
  if (length obj =? 1)%nat
     && String.eqb (fst first) DATETIME_MAGIC_TOKEN
     && is_str (snd first)
     && re_match _datetime_re (str_value (snd first))
  then ODatetime <$> strptime_FORMAT (str_value (snd first))
  else if (length obj =? 1)%nat
          && String.eqb (fst first) MONITORSTATE_MAGIC_TOKEN
          && is_str (snd first)
  then OMonitorState <$> MonitorState_getitem (str_value (snd first))
  else match _original_object_pairs_hook with
       | Some hook => hook obj
       | None => Ok (dict_of_pairs obj)
       end.

(** The decoder of the [json] library: every JSON object is handed to
    [hook] as the list of its decoded pairs, innermost first. *)
Fixpoint decode (hook : list (string * PyObj) -> Result PyObj) (j : JSON)
    : Result PyObj :=
  match j with
  | JNull => Ok ONone
  | JBool b => Ok (OBool b)
  | JInt n => Ok (OInt n)
  | JFloat x => Ok (OFloat x)
  | JStr s => Ok (OStr s)
  | JArray l =>
      OList <$>
        (fix items (l : list JSON) : Result (list PyObj) :=
           match l with
           | [] => Ok []
           | x :: l' => y ← decode hook x; ys ← items l'; Ok (y :: ys)
           end) l
  | JObject ms =>
      (fix members (ms : list (string * JSON)) : Result (list (string * PyObj)) :=
         match ms with
         | [] => Ok []
         | (k, x) :: ms' => y ← decode hook x; ys ← members ms'; Ok ((k, y) :: ys)
         end) ms ≫= hook
  end.

(** [JSONDecoder().decode]: no [object_pairs_hook] is passed in. *)
Definition JSONDecoder_decode (j : JSON) : Result PyObj :=
  decode (object_pairs_hook None) j.

(** [json_dumps] and [json_loads].  The ASCII text in between is the
    library's rendering of the JSON document, which its parser reads back
    as the same document; the two are composed on the document. *)
Definition json_dumps (data : PyObj) : Result JSON := JSONEncoder_encode data.

Definition json_loads (document : JSON) : Result PyObj := JSONDecoder_decode document.




(** ** The world around a monitor *)

(** What [subprocess.Popen(argv)] followed by [p.wait()] comes to. *)
Inductive ChildResult :=
| Returned (returncode : Z)          (* the child ran and exited *)
| PopenFailed (error : string).      (* an exception, with its text *)

Record LogRecord := Logged {
  log_logger : string;
  log_level : string;
  log_message : string
}.

(** The clock is read by [datetime.utcnow()] and by [int(time.time())];
    [utcnow_at w n] and [time_at w n] are what the [n]-th reading gives. *)
Record World := {
  utcnow_at : nat -> datetime;
  time_at : nat -> Z;
  clock_reads : nat;
  gethostname : string;
  child : list string -> ChildResult;
  log : list LogRecord
}.

Definition tick (w : World) : World :=
  {| utcnow_at := utcnow_at w; time_at := time_at w;
     clock_reads := S (clock_reads w); gethostname := gethostname w;
     child := child w; log := log w |}.

Definition write_log (r : LogRecord) (w : World) : World :=
  {| utcnow_at := utcnow_at w; time_at := time_at w;
     clock_reads := clock_reads w; gethostname := gethostname w;
     child := child w; log := log w ++ [r] |}.

(** [short_hostname()]: [(socket.gethostname() + ".").split(".")[0]]. *)
Definition short_hostname (w : World) : string :=
  hd "" (Py.split "." (gethostname w +:+ ".")).

(** ** [class Monitor] *)

Record Monitor := {
  name : string;   (* the monitor's name *)
  _config_options : gmap string string;
  _deps : list string;
  monitor_logger : string;   (* the name of its logger *)
  _dependencies : list string;
  _urgent : bool;
  _notify : bool;
  group : string;
  _tolerance : Z;
  remote_alerting : bool;
  _recover_command : option string;
  _recovered_command : option string;
  recover_info : string;
  recovered_info : string;
  _minimum_gap : Z;
  failure_doc : option string;
  running_on : string;
  _state : MonitorState;
  _force_run : bool;   (* set to ensure we re-run ASAP after a HUP *)
  _first_load : option datetime;
  _last_run : option Z;   (* [None]: the attribute is not set yet *)
  last_result : string;
  error_count : Z;
  _failed_at : option datetime;
  success_count : Z;
  tests_run : Z;
  last_error_count : Z;
  last_run_duration : Z;
  skip_dep : option string;
  failures : Z;
  last_failure : option datetime;
  uptime_start : option datetime;
  last_update : option datetime;   (* the time we last received data into this monitor *)
  unavailable_seconds : Z
}.

(** Assignment to one attribute: [self.attr = v]. *)
Definition set__deps (v : list string) (m : Monitor) : Monitor :=
  {| name := name m; _config_options := _config_options m; _deps := v;
     monitor_logger := monitor_logger m; _dependencies := _dependencies m;
     _urgent := _urgent m; _notify := _notify m; group := group m;
     _tolerance := _tolerance m; remote_alerting := remote_alerting m;
     _recover_command := _recover_command m;
     _recovered_command := _recovered_command m;
     recover_info := recover_info m; recovered_info := recovered_info m;
     _minimum_gap := _minimum_gap m; failure_doc := failure_doc m;
     running_on := running_on m; _state := _state m;
     _force_run := _force_run m; _first_load := _first_load m;
     _last_run := _last_run m; last_result := last_result m;
     error_count := error_count m; _failed_at := _failed_at m;
     success_count := success_count m; tests_run := tests_run m;
     last_error_count := last_error_count m;
     last_run_duration := last_run_duration m; skip_dep := skip_dep m;
     failures := failures m; last_failure := last_failure m;
     uptime_start := uptime_start m; last_update := last_update m;
     unavailable_seconds := unavailable_seconds m |}.

Definition set__dependencies (v : list string) (m : Monitor) : Monitor :=
  {| name := name m; _config_options := _config_options m; _deps := _deps m;
     monitor_logger := monitor_logger m; _dependencies := v;
     _urgent := _urgent m; _notify := _notify m; group := group m;
     _tolerance := _tolerance m; remote_alerting := remote_alerting m;
     _recover_command := _recover_command m;
     _recovered_command := _recovered_command m;
     recover_info := recover_info m; recovered_info := recovered_info m;
     _minimum_gap := _minimum_gap m; failure_doc := failure_doc m;
     running_on := running_on m; _state := _state m;
     _force_run := _force_run m; _first_load := _first_load m;
     _last_run := _last_run m; last_result := last_result m;
     error_count := error_count m; _failed_at := _failed_at m;
     success_count := success_count m; tests_run := tests_run m;
     last_error_count := last_error_count m;
     last_run_duration := last_run_duration m; skip_dep := skip_dep m;
     failures := failures m; last_failure := last_failure m;
     uptime_start := uptime_start m; last_update := last_update m;
     unavailable_seconds := unavailable_seconds m |}.

Definition set__urgent (v : bool) (m : Monitor) : Monitor :=
  {| name := name m; _config_options := _config_options m; _deps := _deps m;
     monitor_logger := monitor_logger m; _dependencies := _dependencies m;
     _urgent := v; _notify := _notify m; group := group m;
     _tolerance := _tolerance m; remote_alerting := remote_alerting m;
     _recover_command := _recover_command m;
     _recovered_command := _recovered_command m;
     recover_info := recover_info m; recovered_info := recovered_info m;
     _minimum_gap := _minimum_gap m; failure_doc := failure_doc m;
     running_on := running_on m; _state := _state m;
     _force_run := _force_run m; _first_load := _first_load m;
     _last_run := _last_run m; last_result := last_result m;
     error_count := error_count m; _failed_at := _failed_at m;
     success_count := success_count m; tests_run := tests_run m;
     last_error_count := last_error_count m;
     last_run_duration := last_run_duration m; skip_dep := skip_dep m;
     failures := failures m; last_failure := last_failure m;
     uptime_start := uptime_start m; last_update := last_update m;
     unavailable_seconds := unavailable_seconds m |}.

Definition set__notify (v : bool) (m : Monitor) : Monitor :=
  {| name := name m; _config_options := _config_options m; _deps := _deps m;
     monitor_logger := monitor_logger m; _dependencies := _dependencies m;
     _urgent := _urgent m; _notify := v; group := group m;
     _tolerance := _tolerance m; remote_alerting := remote_alerting m;
     _recover_command := _recover_command m;
     _recovered_command := _recovered_command m;
     recover_info := recover_info m; recovered_info := recovered_info m;
     _minimum_gap := _minimum_gap m; failure_doc := failure_doc m;
     running_on := running_on m; _state := _state m;
     _force_run := _force_run m; _first_load := _first_load m;
     _last_run := _last_run m; last_result := last_result m;
     error_count := error_count m; _failed_at := _failed_at m;
     success_count := success_count m; tests_run := tests_run m;
     last_error_count := last_error_count m;
     last_run_duration := last_run_duration m; skip_dep := skip_dep m;
     failures := failures m; last_failure := last_failure m;
     uptime_start := uptime_start m; last_update := last_update m;
     unavailable_seconds := unavailable_seconds m |}.

Definition set__minimum_gap (v : Z) (m : Monitor) : Monitor :=
  {| name := name m; _config_options := _config_options m; _deps := _deps m;
     monitor_logger := monitor_logger m; _dependencies := _dependencies m;
     _urgent := _urgent m; _notify := _notify m; group := group m;
     _tolerance := _tolerance m; remote_alerting := remote_alerting m;
     _recover_command := _recover_command m;
     _recovered_command := _recovered_command m;
     recover_info := recover_info m; recovered_info := recovered_info m;
     _minimum_gap := v; failure_doc := failure_doc m;
     running_on := running_on m; _state := _state m;
     _force_run := _force_run m; _first_load := _first_load m;
     _last_run := _last_run m; last_result := last_result m;
     error_count := error_count m; _failed_at := _failed_at m;
     success_count := success_count m; tests_run := tests_run m;
     last_error_count := last_error_count m;
     last_run_duration := last_run_duration m; skip_dep := skip_dep m;
     failures := failures m; last_failure := last_failure m;
     uptime_start := uptime_start m; last_update := last_update m;
     unavailable_seconds := unavailable_seconds m |}.

Definition set__state (v : MonitorState) (m : Monitor) : Monitor :=
  {| name := name m; _config_options := _config_options m; _deps := _deps m;
     monitor_logger := monitor_logger m; _dependencies := _dependencies m;
     _urgent := _urgent m; _notify := _notify m; group := group m;
     _tolerance := _tolerance m; remote_alerting := remote_alerting m;
     _recover_command := _recover_command m;
     _recovered_command := _recovered_command m;
     recover_info := recover_info m; recovered_info := recovered_info m;
     _minimum_gap := _minimum_gap m; failure_doc := failure_doc m;
     running_on := running_on m; _state := v; _force_run := _force_run m;
     _first_load := _first_load m; _last_run := _last_run m;
     last_result := last_result m; error_count := error_count m;
     _failed_at := _failed_at m; success_count := success_count m;
     tests_run := tests_run m; last_error_count := last_error_count m;
     last_run_duration := last_run_duration m; skip_dep := skip_dep m;
     failures := failures m; last_failure := last_failure m;
     uptime_start := uptime_start m; last_update := last_update m;
     unavailable_seconds := unavailable_seconds m |}.

Definition set__force_run (v : bool) (m : Monitor) : Monitor :=
  {| name := name m; _config_options := _config_options m; _deps := _deps m;
     monitor_logger := monitor_logger m; _dependencies := _dependencies m;
     _urgent := _urgent m; _notify := _notify m; group := group m;
     _tolerance := _tolerance m; remote_alerting := remote_alerting m;
     _recover_command := _recover_command m;
     _recovered_command := _recovered_command m;
     recover_info := recover_info m; recovered_info := recovered_info m;
     _minimum_gap := _minimum_gap m; failure_doc := failure_doc m;
     running_on := running_on m; _state := _state m; _force_run := v;
     _first_load := _first_load m; _last_run := _last_run m;
     last_result := last_result m; error_count := error_count m;
     _failed_at := _failed_at m; success_count := success_count m;
     tests_run := tests_run m; last_error_count := last_error_count m;
     last_run_duration := last_run_duration m; skip_dep := skip_dep m;
     failures := failures m; last_failure := last_failure m;
     uptime_start := uptime_start m; last_update := last_update m;
     unavailable_seconds := unavailable_seconds m |}.

Definition set__last_run (v : option Z) (m : Monitor) : Monitor :=
  {| name := name m; _config_options := _config_options m; _deps := _deps m;
     monitor_logger := monitor_logger m; _dependencies := _dependencies m;
     _urgent := _urgent m; _notify := _notify m; group := group m;
     _tolerance := _tolerance m; remote_alerting := remote_alerting m;
     _recover_command := _recover_command m;
     _recovered_command := _recovered_command m;
     recover_info := recover_info m; recovered_info := recovered_info m;
     _minimum_gap := _minimum_gap m; failure_doc := failure_doc m;
     running_on := running_on m; _state := _state m;
     _force_run := _force_run m; _first_load := _first_load m; _last_run := v;
     last_result := last_result m; error_count := error_count m;
     _failed_at := _failed_at m; success_count := success_count m;
     tests_run := tests_run m; last_error_count := last_error_count m;
     last_run_duration := last_run_duration m; skip_dep := skip_dep m;
     failures := failures m; last_failure := last_failure m;
     uptime_start := uptime_start m; last_update := last_update m;
     unavailable_seconds := unavailable_seconds m |}.

Definition set_last_result (v : string) (m : Monitor) : Monitor :=
  {| name := name m; _config_options := _config_options m; _deps := _deps m;
     monitor_logger := monitor_logger m; _dependencies := _dependencies m;
     _urgent := _urgent m; _notify := _notify m; group := group m;
     _tolerance := _tolerance m; remote_alerting := remote_alerting m;
     _recover_command := _recover_command m;
     _recovered_command := _recovered_command m;
     recover_info := recover_info m; recovered_info := recovered_info m;
     _minimum_gap := _minimum_gap m; failure_doc := failure_doc m;
     running_on := running_on m; _state := _state m;
     _force_run := _force_run m; _first_load := _first_load m;
     _last_run := _last_run m; last_result := v; error_count := error_count m;
     _failed_at := _failed_at m; success_count := success_count m;
     tests_run := tests_run m; last_error_count := last_error_count m;
     last_run_duration := last_run_duration m; skip_dep := skip_dep m;
     failures := failures m; last_failure := last_failure m;
     uptime_start := uptime_start m; last_update := last_update m;
     unavailable_seconds := unavailable_seconds m |}.

Definition set_error_count (v : Z) (m : Monitor) : Monitor :=
  {| name := name m; _config_options := _config_options m; _deps := _deps m;
     monitor_logger := monitor_logger m; _dependencies := _dependencies m;
     _urgent := _urgent m; _notify := _notify m; group := group m;
     _tolerance := _tolerance m; remote_alerting := remote_alerting m;
     _recover_command := _recover_command m;
     _recovered_command := _recovered_command m;
     recover_info := recover_info m; recovered_info := recovered_info m;
     _minimum_gap := _minimum_gap m; failure_doc := failure_doc m;
     running_on := running_on m; _state := _state m;
     _force_run := _force_run m; _first_load := _first_load m;
     _last_run := _last_run m; last_result := last_result m; error_count := v;
     _failed_at := _failed_at m; success_count := success_count m;
     tests_run := tests_run m; last_error_count := last_error_count m;
     last_run_duration := last_run_duration m; skip_dep := skip_dep m;
     failures := failures m; last_failure := last_failure m;
     uptime_start := uptime_start m; last_update := last_update m;
     unavailable_seconds := unavailable_seconds m |}.

Definition set__failed_at (v : option datetime) (m : Monitor) : Monitor :=
  {| name := name m; _config_options := _config_options m; _deps := _deps m;
     monitor_logger := monitor_logger m; _dependencies := _dependencies m;
     _urgent := _urgent m; _notify := _notify m; group := group m;
     _tolerance := _tolerance m; remote_alerting := remote_alerting m;
     _recover_command := _recover_command m;
     _recovered_command := _recovered_command m;
     recover_info := recover_info m; recovered_info := recovered_info m;
     _minimum_gap := _minimum_gap m; failure_doc := failure_doc m;
     running_on := running_on m; _state := _state m;
     _force_run := _force_run m; _first_load := _first_load m;
     _last_run := _last_run m; last_result := last_result m;
     error_count := error_count m; _failed_at := v;
     success_count := success_count m; tests_run := tests_run m;
     last_error_count := last_error_count m;
     last_run_duration := last_run_duration m; skip_dep := skip_dep m;
     failures := failures m; last_failure := last_failure m;
     uptime_start := uptime_start m; last_update := last_update m;
     unavailable_seconds := unavailable_seconds m |}.

Definition set_success_count (v : Z) (m : Monitor) : Monitor :=
  {| name := name m; _config_options := _config_options m; _deps := _deps m;
     monitor_logger := monitor_logger m; _dependencies := _dependencies m;
     _urgent := _urgent m; _notify := _notify m; group := group m;
     _tolerance := _tolerance m; remote_alerting := remote_alerting m;
     _recover_command := _recover_command m;
     _recovered_command := _recovered_command m;
     recover_info := recover_info m; recovered_info := recovered_info m;
     _minimum_gap := _minimum_gap m; failure_doc := failure_doc m;
     running_on := running_on m; _state := _state m;
     _force_run := _force_run m; _first_load := _first_load m;
     _last_run := _last_run m; last_result := last_result m;
     error_count := error_count m; _failed_at := _failed_at m;
     success_count := v; tests_run := tests_run m;
     last_error_count := last_error_count m;
     last_run_duration := last_run_duration m; skip_dep := skip_dep m;
     failures := failures m; last_failure := last_failure m;
     uptime_start := uptime_start m; last_update := last_update m;
     unavailable_seconds := unavailable_seconds m |}.

Definition set_tests_run (v : Z) (m : Monitor) : Monitor :=
  {| name := name m; _config_options := _config_options m; _deps := _deps m;
     monitor_logger := monitor_logger m; _dependencies := _dependencies m;
     _urgent := _urgent m; _notify := _notify m; group := group m;
     _tolerance := _tolerance m; remote_alerting := remote_alerting m;
     _recover_command := _recover_command m;
     _recovered_command := _recovered_command m;
     recover_info := recover_info m; recovered_info := recovered_info m;
     _minimum_gap := _minimum_gap m; failure_doc := failure_doc m;
     running_on := running_on m; _state := _state m;
     _force_run := _force_run m; _first_load := _first_load m;
     _last_run := _last_run m; last_result := last_result m;
     error_count := error_count m; _failed_at := _failed_at m;
     success_count := success_count m; tests_run := v;
     last_error_count := last_error_count m;
     last_run_duration := last_run_duration m; skip_dep := skip_dep m;
     failures := failures m; last_failure := last_failure m;
     uptime_start := uptime_start m; last_update := last_update m;
     unavailable_seconds := unavailable_seconds m |}.

Definition set_last_error_count (v : Z) (m : Monitor) : Monitor :=
  {| name := name m; _config_options := _config_options m; _deps := _deps m;
     monitor_logger := monitor_logger m; _dependencies := _dependencies m;
     _urgent := _urgent m; _notify := _notify m; group := group m;
     _tolerance := _tolerance m; remote_alerting := remote_alerting m;
     _recover_command := _recover_command m;
     _recovered_command := _recovered_command m;
     recover_info := recover_info m; recovered_info := recovered_info m;
     _minimum_gap := _minimum_gap m; failure_doc := failure_doc m;
     running_on := running_on m; _state := _state m;
     _force_run := _force_run m; _first_load := _first_load m;
     _last_run := _last_run m; last_result := last_result m;
     error_count := error_count m; _failed_at := _failed_at m;
     success_count := success_count m; tests_run := tests_run m;
     last_error_count := v; last_run_duration := last_run_duration m;
     skip_dep := skip_dep m; failures := failures m;
     last_failure := last_failure m; uptime_start := uptime_start m;
     last_update := last_update m;
     unavailable_seconds := unavailable_seconds m |}.

Definition set_skip_dep (v : option string) (m : Monitor) : Monitor :=
  {| name := name m; _config_options := _config_options m; _deps := _deps m;
     monitor_logger := monitor_logger m; _dependencies := _dependencies m;
     _urgent := _urgent m; _notify := _notify m; group := group m;
     _tolerance := _tolerance m; remote_alerting := remote_alerting m;
     _recover_command := _recover_command m;
     _recovered_command := _recovered_command m;
     recover_info := recover_info m; recovered_info := recovered_info m;
     _minimum_gap := _minimum_gap m; failure_doc := failure_doc m;
     running_on := running_on m; _state := _state m;
     _force_run := _force_run m; _first_load := _first_load m;
     _last_run := _last_run m; last_result := last_result m;
     error_count := error_count m; _failed_at := _failed_at m;
     success_count := success_count m; tests_run := tests_run m;
     last_error_count := last_error_count m;
     last_run_duration := last_run_duration m; skip_dep := v;
     failures := failures m; last_failure := last_failure m;
     uptime_start := uptime_start m; last_update := last_update m;
     unavailable_seconds := unavailable_seconds m |}.

Definition set_failures (v : Z) (m : Monitor) : Monitor :=
  {| name := name m; _config_options := _config_options m; _deps := _deps m;
     monitor_logger := monitor_logger m; _dependencies := _dependencies m;
     _urgent := _urgent m; _notify := _notify m; group := group m;
     _tolerance := _tolerance m; remote_alerting := remote_alerting m;
     _recover_command := _recover_command m;
     _recovered_command := _recovered_command m;
     recover_info := recover_info m; recovered_info := recovered_info m;
     _minimum_gap := _minimum_gap m; failure_doc := failure_doc m;
     running_on := running_on m; _state := _state m;
     _force_run := _force_run m; _first_load := _first_load m;
     _last_run := _last_run m; last_result := last_result m;
     error_count := error_count m; _failed_at := _failed_at m;
     success_count := success_count m; tests_run := tests_run m;
     last_error_count := last_error_count m;
     last_run_duration := last_run_duration m; skip_dep := skip_dep m;
     failures := v; last_failure := last_failure m;
     uptime_start := uptime_start m; last_update := last_update m;
     unavailable_seconds := unavailable_seconds m |}.

Definition set_last_failure (v : option datetime) (m : Monitor) : Monitor :=
  {| name := name m; _config_options := _config_options m; _deps := _deps m;
     monitor_logger := monitor_logger m; _dependencies := _dependencies m;
     _urgent := _urgent m; _notify := _notify m; group := group m;
     _tolerance := _tolerance m; remote_alerting := remote_alerting m;
     _recover_command := _recover_command m;
     _recovered_command := _recovered_command m;
     recover_info := recover_info m; recovered_info := recovered_info m;
     _minimum_gap := _minimum_gap m; failure_doc := failure_doc m;
     running_on := running_on m; _state := _state m;
     _force_run := _force_run m; _first_load := _first_load m;
     _last_run := _last_run m; last_result := last_result m;
     error_count := error_count m; _failed_at := _failed_at m;
     success_count := success_count m; tests_run := tests_run m;
     last_error_count := last_error_count m;
     last_run_duration := last_run_duration m; skip_dep := skip_dep m;
     failures := failures m; last_failure := v;
     uptime_start := uptime_start m; last_update := last_update m;
     unavailable_seconds := unavailable_seconds m |}.

Definition set_uptime_start (v : option datetime) (m : Monitor) : Monitor :=
  {| name := name m; _config_options := _config_options m; _deps := _deps m;
     monitor_logger := monitor_logger m; _dependencies := _dependencies m;
     _urgent := _urgent m; _notify := _notify m; group := group m;
     _tolerance := _tolerance m; remote_alerting := remote_alerting m;
     _recover_command := _recover_command m;
     _recovered_command := _recovered_command m;
     recover_info := recover_info m; recovered_info := recovered_info m;
     _minimum_gap := _minimum_gap m; failure_doc := failure_doc m;
     running_on := running_on m; _state := _state m;
     _force_run := _force_run m; _first_load := _first_load m;
     _last_run := _last_run m; last_result := last_result m;
     error_count := error_count m; _failed_at := _failed_at m;
     success_count := success_count m; tests_run := tests_run m;
     last_error_count := last_error_count m;
     last_run_duration := last_run_duration m; skip_dep := skip_dep m;
     failures := failures m; last_failure := last_failure m;
     uptime_start := v; last_update := last_update m;
     unavailable_seconds := unavailable_seconds m |}.

Definition set_last_update (v : option datetime) (m : Monitor) : Monitor :=
  {| name := name m; _config_options := _config_options m; _deps := _deps m;
     monitor_logger := monitor_logger m; _dependencies := _dependencies m;
     _urgent := _urgent m; _notify := _notify m; group := group m;
     _tolerance := _tolerance m; remote_alerting := remote_alerting m;
     _recover_command := _recover_command m;
     _recovered_command := _recovered_command m;
     recover_info := recover_info m; recovered_info := recovered_info m;
     _minimum_gap := _minimum_gap m; failure_doc := failure_doc m;
     running_on := running_on m; _state := _state m;
     _force_run := _force_run m; _first_load := _first_load m;
     _last_run := _last_run m; last_result := last_result m;
     error_count := error_count m; _failed_at := _failed_at m;
     success_count := success_count m; tests_run := tests_run m;
     last_error_count := last_error_count m;
     last_run_duration := last_run_duration m; skip_dep := skip_dep m;
     failures := failures m; last_failure := last_failure m;
     uptime_start := uptime_start m; last_update := v;
     unavailable_seconds := unavailable_seconds m |}.

Definition set_unavailable_seconds (v : Z) (m : Monitor) : Monitor :=
  {| name := name m; _config_options := _config_options m; _deps := _deps m;
     monitor_logger := monitor_logger m; _dependencies := _dependencies m;
     _urgent := _urgent m; _notify := _notify m; group := group m;
     _tolerance := _tolerance m; remote_alerting := remote_alerting m;
     _recover_command := _recover_command m;
     _recovered_command := _recovered_command m;
     recover_info := recover_info m; recovered_info := recovered_info m;
     _minimum_gap := _minimum_gap m; failure_doc := failure_doc m;
     running_on := running_on m; _state := _state m;
     _force_run := _force_run m; _first_load := _first_load m;
     _last_run := _last_run m; last_result := last_result m;
     error_count := error_count m; _failed_at := _failed_at m;
     success_count := success_count m; tests_run := tests_run m;
     last_error_count := last_error_count m;
     last_run_duration := last_run_duration m; skip_dep := skip_dep m;
     failures := failures m; last_failure := last_failure m;
     uptime_start := uptime_start m; last_update := last_update m;
     unavailable_seconds := v |}.

Definition set_recover_info (v : string) (m : Monitor) : Monitor :=
  {| name := name m; _config_options := _config_options m; _deps := _deps m;
     monitor_logger := monitor_logger m; _dependencies := _dependencies m;
     _urgent := _urgent m; _notify := _notify m; group := group m;
     _tolerance := _tolerance m; remote_alerting := remote_alerting m;
     _recover_command := _recover_command m;
     _recovered_command := _recovered_command m; recover_info := v;
     recovered_info := recovered_info m; _minimum_gap := _minimum_gap m;
     failure_doc := failure_doc m; running_on := running_on m;
     _state := _state m; _force_run := _force_run m;
     _first_load := _first_load m; _last_run := _last_run m;
     last_result := last_result m; error_count := error_count m;
     _failed_at := _failed_at m; success_count := success_count m;
     tests_run := tests_run m; last_error_count := last_error_count m;
     last_run_duration := last_run_duration m; skip_dep := skip_dep m;
     failures := failures m; last_failure := last_failure m;
     uptime_start := uptime_start m; last_update := last_update m;
     unavailable_seconds := unavailable_seconds m |}.

Definition set_recovered_info (v : string) (m : Monitor) : Monitor :=
  {| name := name m; _config_options := _config_options m; _deps := _deps m;
     monitor_logger := monitor_logger m; _dependencies := _dependencies m;
     _urgent := _urgent m; _notify := _notify m; group := group m;
     _tolerance := _tolerance m; remote_alerting := remote_alerting m;
     _recover_command := _recover_command m;
     _recovered_command := _recovered_command m;
     recover_info := recover_info m; recovered_info := v;
     _minimum_gap := _minimum_gap m; failure_doc := failure_doc m;
     running_on := running_on m; _state := _state m;
     _force_run := _force_run m; _first_load := _first_load m;
     _last_run := _last_run m; last_result := last_result m;
     error_count := error_count m; _failed_at := _failed_at m;
     success_count := success_count m; tests_run := tests_run m;
     last_error_count := last_error_count m;
     last_run_duration := last_run_duration m; skip_dep := skip_dep m;
     failures := failures m; last_failure := last_failure m;
     uptime_start := uptime_start m; last_update := last_update m;
     unavailable_seconds := unavailable_seconds m |}.

(** [m'] is [m] in every attribute but [_state]. *)
Definition same_but_state (m m' : Monitor) : Prop :=
  name m' = name m /\ _config_options m' = _config_options m /\
  _deps m' = _deps m /\ monitor_logger m' = monitor_logger m /\
  _dependencies m' = _dependencies m /\ _urgent m' = _urgent m /\
  _notify m' = _notify m /\ group m' = group m /\
  _tolerance m' = _tolerance m /\ remote_alerting m' = remote_alerting m /\
  _recover_command m' = _recover_command m /\
  _recovered_command m' = _recovered_command m /\
  recover_info m' = recover_info m /\ recovered_info m' = recovered_info m /\
  _minimum_gap m' = _minimum_gap m /\ failure_doc m' = failure_doc m /\
  running_on m' = running_on m /\ _force_run m' = _force_run m /\
  _first_load m' = _first_load m /\ _last_run m' = _last_run m /\
  last_result m' = last_result m /\ error_count m' = error_count m /\
  _failed_at m' = _failed_at m /\ success_count m' = success_count m /\
  tests_run m' = tests_run m /\ last_error_count m' = last_error_count m /\
  last_run_duration m' = last_run_duration m /\ skip_dep m' = skip_dep m /\
  failures m' = failures m /\ last_failure m' = last_failure m /\
  uptime_start m' = uptime_start m /\ last_update m' = last_update m /\
  unavailable_seconds m' = unavailable_seconds m.

(** *** Methods: computations on [self] and the world *)

Definition M (A : Type) : Type := Monitor * World -> Result A * (Monitor * World).

#[global] Instance M_ret : MRet M := fun _ a s => (Ok a, s).
#[global] Instance M_bind : MBind M :=
  fun _ _ f c s =>
    match c s with
    | (Ok a, s') => f a s'
    | (Err e, s') => (Err e, s')
    end.

(** The object after a call, and the value the call returned. *)
Definition after {A} (c : M A) (m : Monitor) (w : World) : Monitor := fst (snd (c (m, w))).
Definition world_after {A} (c : M A) (m : Monitor) (w : World) : World := snd (snd (c (m, w))).
Definition returned {A} (c : M A) (m : Monitor) (w : World) : Result A := fst (c (m, w)).

Definition self : M Monitor := fun s => (Ok (fst s), s).

Definition assign (f : Monitor -> Monitor) : M unit :=
  fun s => (Ok tt, (f (fst s), snd s)).

Definition raise {A} (e : Exception) : M A := fun s => (Err e, s).

(** [datetime.datetime.utcnow()]. *)
Definition utcnow : M datetime :=
  fun s => (Ok (utcnow_at (snd s) (clock_reads (snd s))), (fst s, tick (snd s))).

(** [int(time.time())]. *)
Definition time_time : M Z :=
  fun s => (Ok (time_at (snd s) (clock_reads (snd s))), (fst s, tick (snd s))).

(** [self.monitor_logger.info(message)] and [.critical(message)]. *)
Definition logger_info (message : string) : M unit :=
  fun s => (Ok tt, (fst s, write_log (Logged (monitor_logger (fst s)) "INFO" message) (snd s))).

Definition logger_critical (message : string) : M unit :=
  fun s => (Ok tt, (fst s, write_log (Logged (monitor_logger (fst s)) "CRITICAL" message) (snd s))).

(** [p = subprocess.Popen(argv); p.wait()], with what it raised caught. *)
Definition Popen_wait (argv : list string) : M ChildResult :=
  fun s => (Ok (child (snd s) argv), s).

(** [bool(n)] for an [int]. *)
Definition truthy (n : Z) : bool := negb (n =? 0).

(** [Monitor.get_config_option]: the module's function on the monitor's
    options, raising [MonitorConfigurationError]. *)
Definition with_exception (exception : ExcClass) (kwargs : Kwargs) : Kwargs :=
  {| kw_exception := exception; kw_default := kw_default kwargs;
     kw_required := kw_required kwargs; kw_required_type := kw_required_type kwargs;
     kw_allowed_values := kw_allowed_values kwargs; kw_allow_empty := kw_allow_empty kwargs;
     kw_minimum := kw_minimum kwargs; kw_maximum := kw_maximum kwargs |}.

Definition Monitor_get_config_option (config_options : gmap string string)
    (key : string) (kwargs : Kwargs) : Result Value :=
  get_config_option (VStr <$> config_options) key
                    (with_exception MonitorConfigurationError kwargs).

(** The keyword arguments [Monitor.__init__] passes. *)
Definition kwargs_of (required_type : string) (default : Value)
    (minimum : option Py.Num) : Kwargs :=
  {| kw_exception := ValueError; kw_default := default; kw_required := false;
     kw_required_type := required_type; kw_allowed_values := None;
     kw_allow_empty := true; kw_minimum := minimum; kw_maximum := None |}.

(** The options file maps strings to strings ([get_config_dict]), so each
    option resolves to a value of the type its reader asks for; these name
    that type. *)
Definition ill_typed {A} : Result A :=
  Err (Raise TypeError (Text "option of an unexpected type")).

Definition expect_int (v : Value) : Result Z :=
  match v with VInt n => Ok n | _ => ill_typed end.

Definition expect_bool (v : Value) : Result bool :=
  match v with VBool b => Ok b | _ => ill_typed end.

Definition expect_str (v : Value) : Result string :=
  match v with VStr s => Ok s | _ => ill_typed end.

Definition expect_optional_str (v : Value) : Result (option string) :=
  match v with VStr s => Ok (Some s) | VNone => Ok None | _ => ill_typed end.

Definition expect_str_list (v : Value) : Result (list string) :=
  match v with VList l => Result_map expect_str l | _ => ill_typed end.

(** The [minimum_gap] setter, on an [int]. *)
Definition check_minimum_gap (gap : Z) : Result Z :=
  if gap <? 0 then Err (Raise ValueError (Text "gap must be at least 0"))
  else Ok gap.

(** [Monitor.__init__(name, config_options)] on the options of a
    configuration file, which are strings: the new object, or the
    configuration error, and the world after the constructor read the host
    name and the clock.  (An option of another type than [str] is neither
    converted nor checked by [get_config_option]; the attributes it would
    give are not of the types of the record.) *)
Definition Monitor_init (name : string) (config_options : gmap string string)
    (w : World) : Result Monitor * World :=
  let read := Monitor_get_config_option config_options in
  let constructed : Result Monitor :=
    v_dependencies ← read "depend" (kwargs_of "[str]" (VList []) None) ≫= expect_str_list;
    v_urgent ← read "urgent" (kwargs_of "bool" (VBool true) None) ≫= expect_bool;
    v_notify ← read "notify" (kwargs_of "bool" (VBool true) None) ≫= expect_bool;
    v_group ← read "group" (kwargs_of "str" (VStr "default") None) ≫= expect_str;
    v_tolerance ← read "tolerance" (kwargs_of "int" (VInt 0) (Some (Py.NInt 0)))
                  ≫= expect_int;
    v_remote_alerting ← read "remote_alert" (kwargs_of "bool" (VBool false) None)
                        ≫= expect_bool;
    v_recover_command ← read "recover_command" (kwargs_of "str" VNone None)
                        ≫= expect_optional_str;
    v_recovered_command ← read "recovered_command" (kwargs_of "str" VNone None)
                          ≫= expect_optional_str;
    v_minimum_gap ← (read "gap" (kwargs_of "int" (VInt 0) (Some (Py.NInt 0)))
                     ≫= expect_int) ≫= check_minimum_gap;
    v_failure_doc ← read "failure_doc" (kwargs_of "str" VNone None)
                    ≫= expect_optional_str;
    Ok {| name := name;
          _config_options := config_options;
          _deps := [];
          monitor_logger := "simplemonitor.monitor-" +:+ name;
          _dependencies := v_dependencies;
          _urgent := v_urgent;
          _notify := v_notify;
          group := v_group;
          _tolerance := v_tolerance;
          remote_alerting := v_remote_alerting;
          _recover_command := v_recover_command;
          _recovered_command := v_recovered_command;
          recover_info := "";
          recovered_info := "";
          _minimum_gap := v_minimum_gap;
          failure_doc := v_failure_doc;
          running_on := short_hostname w;
          _state := UNKNOWN;
          _force_run := true;
          _first_load := Some (utcnow_at w (clock_reads w));
          _last_run := None;
          (* the class attributes every instance starts from *)
          last_result := "";
          error_count := 0;
          _failed_at := None;
          success_count := 0;
          tests_run := 0;
          last_error_count := 0;
          last_run_duration := 0;
          skip_dep := None;
          failures := 0;
          last_failure := None;
          uptime_start := None;
          last_update := None;
          unavailable_seconds := 0 |} in
  match constructed with
  | Ok m => (Ok m, tick w)
  | Err e => (Err e, w)
  end.

(** [is_remote]: are we running on this machine, or a remote instance? *)
Definition is_remote (m : Monitor) (w : World) : bool :=
  if String.eqb (running_on m) (short_hostname w) then false else true.

(** [virtual_fail_count]: the number of failures past our tolerance. *)
Definition virtual_fail_count (m : Monitor) : Z :=
  let vfs := error_count m - _tolerance m in
  Z.max vfs 0.

(** [test_success]: false if the monitor has failed. *)
Definition test_success (m : Monitor) : bool :=
  negb (truthy (virtual_fail_count m)).

(** [first_failure]: is this our first failure (past tolerance)? *)
Definition first_failure (m : Monitor) : bool :=
  if error_count m =? _tolerance m + 1 then true else false.

Definition state (m : Monitor) : MonitorState := _state m.

Definition get_result (m : Monitor) : string := last_result m.

(** [reset_dependencies]: [self._deps = copy.copy(self._dependencies)]. *)
Definition reset_dependencies : M unit :=
  assign (fun m => set__deps (_dependencies m) m).

(** [l.remove(x)]: without the first [x]; [None] stands for [ValueError]. *)
Fixpoint list_remove (x : string) (l : list string) : option (list string) :=
  match l with
  | [] => None
  | y :: l' => if String.eqb y x then Some l' else cons y <$> list_remove x l'
  end.

(** [dependency_succeeded]: remove a dependency from the current list. *)
Definition dependency_succeeded (dependency : string) : M unit :=
  assign (fun m => match list_remove dependency (_deps m) with
                   | Some deps => set__deps deps m
                   | None => m
                   end).

(** The [dependencies] setter, on a list. *)
Definition set_dependencies (dependency_list : list string) : M unit :=
  assign (set__dependencies dependency_list);;
  reset_dependencies.

Definition minimum_gap (m : Monitor) : Z := _minimum_gap m.

(** The [minimum_gap] setter, on an [int]. *)
Definition set_minimum_gap (gap : Z) : M unit :=
  if gap <? 0 then raise (Raise ValueError (Text "gap must be at least 0"))
  else assign (set__minimum_gap gap).

Definition _add_unavailable_seconds : M unit :=
  m ← self;
  match last_update m with
  | Some last_update =>
      if success_count m =? 0 then
        now ← utcnow;
        let unavailable_delta := datetime_sub now last_update in
        assign (fun m => set_unavailable_seconds
                           (unavailable_seconds m + td_seconds unavailable_delta) m)
      else mret tt
  | None => mret tt
  end.

(** [record_fail]: update internal state to show that we had a failure. *)
Definition record_fail (message : string) : M bool :=
  assign (fun m => set_error_count (error_count m + 1) m);;
  _add_unavailable_seconds;;
  now ← utcnow; assign (set_last_update (Some now));;
  assign (set_last_result message);;
  m ← self;
  (if virtual_fail_count m =? 1 then
     now ← utcnow; assign (set__failed_at (Some now));;
     now ← utcnow; assign (set_last_failure (Some now));;
     assign (fun m => set_failures (failures m + 1) m);;
     assign (set__state FAILED)
   else mret tt);;
  assign (set_success_count 0);;
  assign (fun m => set_tests_run (tests_run m + 1) m);;
  assign (set_uptime_start None);;
  mret false.

(** [record_success]: update internal state to show we had a success. *)
Definition record_success (message : string) : M bool :=
  m ← self;
  (if error_count m >? 0 then assign (set_last_error_count (error_count m))
   else mret tt);;
  m ← self;
  (match uptime_start m with
   | None => now ← utcnow; assign (set_uptime_start (Some now))
   | Some _ => mret tt
   end);;
  _add_unavailable_seconds;;
  assign (set__state OK);;
  assign (set_error_count 0);;
  now ← utcnow; assign (set_last_update (Some now));;
  assign (fun m => set_success_count (success_count m + 1) m);;
  assign (fun m => set_tests_run (tests_run m + 1) m);;
  assign (set_last_result message);;
  mret true.

(** [record_skip]: record that we were skipped.  We pretend to have
    succeeded as we don't want notifications sent. *)
Definition record_skip (which_dep : option string) : M bool :=
  (match which_dep with
   | Some dep =>
       (* we were skipped because of a dependency *)
       record_success "";;
       assign (set_skip_dep (Some dep))
   | None => mret tt
   end);;
  assign (set__state SKIPPED);;
  mret true.

Definition uptime : M (option timedelta) :=
  m ← self;
  match uptime_start m with
  | Some start => now ← utcnow; mret (Some (datetime_sub now start))
  | None => mret None
  end.

Definition skipped (m : Monitor) : bool :=
  if MonitorState_eqb (_state m) SKIPPED then true else false.

(** [get_success_count]: the number of successful tests. *)
Definition get_success_count (m : Monitor) : Z :=
  if tests_run m =? 0 then 0 else success_count m.

Definition last_virtual_fail_count (m : Monitor) : Z :=
  let value := last_error_count m - _tolerance m in
  Z.max 0 value.

(** [all_better_now]: have we just recovered? *)
Definition all_better_now (m : Monitor) : bool :=
  if truthy (last_virtual_fail_count m)
     && (success_count m =? 1)
     && negb (MonitorState_eqb (_state m) SKIPPED)
  then true else false.

(** [log_result]: save our latest result to the logger. *)
Definition log_result : M unit :=
  logger_critical "Unexpected call to log_result()".

(** The [notify] setter, on a [bool], and the [urgent] setter, on a [bool]
    or, at a push, an [int]. *)
Definition set_notify (value : bool) : M unit := assign (set__notify value).

Definition set_urgent (value : bool + Z) : M unit :=
  match value with
  | inl b => assign (set__urgent b)
  | inr n => if truthy n then assign (set__urgent true) else assign (set__urgent false)
  end.

(** [first_failure_time]: when we first failed. *)
Definition first_failure_time (m : Monitor) : option datetime := _failed_at m.

Definition was_skipped (m : Monitor) : bool := MonitorState_eqb (_state m) SKIPPED.

(** Reading [self._last_run], which no constructor sets. *)
Definition get__last_run : M Z :=
  m ← self;
  match _last_run m with
  | Some t => mret t
  | None => raise (Raise AttributeError
                         (Text "'Monitor' object has no attribute '_last_run'"))
  end.

(** [should_run]: check if we should run our tests.  We always run if the
    minimum gap is 0, or if we're currently failing.  Otherwise, we run if
    the last time we ran was more than minimum_gap seconds ago. *)
Definition should_run : M bool :=
  now ← time_time;
  m ← self;
  if _force_run m then
    assign (set__force_run false);;
    assign (set__last_run (Some now));;
    mret true
  else if minimum_gap m =? 0 then
    assign (set__last_run (Some now));;
    mret true
  else if error_count m >? 0 then
    assign (set__last_run (Some now));;
    mret true
  else
    last_run ← get__last_run;
    if last_run =? 0 then
      assign (set__last_run (Some now));;
      mret true
    else
      let gap := now - last_run in
      if gap >=? minimum_gap m then
        assign (set__last_run (Some now));;
        mret true
      else mret false.

(** ["Command executed and returned %d" % p.returncode], or
    ["Unable to run command: %s" % e]. *)
Definition command_info (r : ChildResult) : string :=
  match r with
  | Returned returncode => "Command executed and returned " +:+ Py.str_of_int returncode
  | PopenFailed e => "Unable to run command: " +:+ e
  end.

Definition attempt_recover : M unit :=
  m ← self;
  match _recover_command m with
  | None => assign (set_recover_info "")
  | Some command =>
      if negb (first_failure m) then mret tt
      else
        logger_info "Attempting recovery command";;
        r ← Popen_wait (Py.split " " command);
        assign (set_recover_info (command_info r))
  end.

Definition run_recovered : M unit :=
  m ← self;
  match _recovered_command m with
  | None => assign (set_recovered_info "")
  | Some command =>
      if all_better_now m then
        logger_info "Attempting recovered command";;
        r ← Popen_wait (Py.split " " command);
        assign (set_recovered_info (command_info r))
      else mret tt
  end.

(** [get_downtime] and [get_uptime]. *)
Definition get_downtime : M UpDownTime :=
  m ← self;
  match first_failure_time m with
  | None => mret UpDownTime_default
  | Some first_failure_time =>
      now ← utcnow;
      mret (from_timedelta (Some (datetime_sub now first_failure_time)))
  end.

Definition get_uptime : M UpDownTime :=
  up ← uptime;
  match up with
  | None => mret UpDownTime_default
  | Some up => mret (from_timedelta (Some up))
  end.

(** *** The calls a scheduler makes on a monitor *)

Inductive Call :=
| call_record_fail (message : string)
| call_record_success (message : string)
| call_record_skip (which_dep : option string)
| call_should_run
| call_attempt_recover
| call_run_recovered
| call_reset_dependencies
| call_dependency_succeeded (dependency : string)
| call_set_dependencies (dependency_list : list string)
| call_set_minimum_gap (gap : Z)
| call_set_notify (value : bool)
| call_set_urgent (value : bool + Z)
| call_log_result
| call_get_downtime
| call_get_uptime.

Definition perform (c : Call) : M unit :=
  match c with
  | call_record_fail message => record_fail message;; mret tt
  | call_record_success message => record_success message;; mret tt
  | call_record_skip which_dep => record_skip which_dep;; mret tt
  | call_should_run => should_run;; mret tt
  | call_attempt_recover => attempt_recover
  | call_run_recovered => run_recovered
  | call_reset_dependencies => reset_dependencies
  | call_dependency_succeeded dependency => dependency_succeeded dependency
  | call_set_dependencies dependency_list => set_dependencies dependency_list
  | call_set_minimum_gap gap => set_minimum_gap gap
  | call_set_notify value => set_notify value
  | call_set_urgent value => set_urgent value
  | call_log_result => log_result
  | call_get_downtime => get_downtime;; mret tt
  | call_get_uptime => get_uptime;; mret tt
  end.

(** The monitors a program can hold: constructed by [Monitor.__init__] and
    then driven by any calls, in any order, whatever the world does.  (The
    [run_test] of a subclass is a call of [record_success] or
    [record_fail].) *)
Inductive reachable : Monitor -> Prop :=
| reachable_init name config_options w m w' :
    Monitor_init name config_options w = (Ok m, w') -> reachable m
| reachable_call c m w :
    reachable m -> reachable (after (perform c) m w).

(** What the constructor establishes and every call maintains. *)
Record Inv (m : Monitor) : Prop := {
  inv_error_count : 0 <= error_count m;
  inv_tolerance : 0 <= _tolerance m;
  inv_minimum_gap : 0 <= _minimum_gap m;
  inv_failed : _state m = FAILED -> _tolerance m < error_count m;
  inv_last_run : _force_run m = false -> is_Some (_last_run m);
  inv_recover_info : _recover_command m = None -> recover_info m = "";
  inv_recovered_info : _recovered_command m = None -> recovered_info m = ""
}.

(** Consecutive failures, one per message. *)
Fixpoint record_fails (messages : list string) : M unit :=
  match messages with
  | [] => mret tt
  | message :: messages' => record_fail message;; record_fails messages'
  end.

(** ** A sample configuration, world and monitor *)

(** A world whose clock advances by one second per reading, from
    2020-01-01 00:00:00 (epoch second 1577836800). *)
Definition sample_world : World := {|
  utcnow_at := fun n => Datetime 2020 1 1 0 0 (Z.of_nat n) 0;
  time_at := fun n => 1577836800 + Z.of_nat n;
  clock_reads := 0;
  gethostname := "watcher.example.org";
  child := fun _ => Returned 0;
  log := []
|}.

Definition sample_options : gmap string string :=
  {[ "tolerance" := "2"; "gap" := "10"; "depend" := "db" ]}.

(** [Monitor("sample", sample_options)] constructed in [sample_world]. *)
Definition sample_monitor : Monitor := {|
  name := "sample";
  _config_options := sample_options;
  _deps := [];
  monitor_logger := "simplemonitor.monitor-sample";
  _dependencies := ["db"];
  _urgent := true;
  _notify := true;
  group := "default";
  _tolerance := 2;
  remote_alerting := false;
  _recover_command := None;
  _recovered_command := None;
  recover_info := "";
  recovered_info := "";
  _minimum_gap := 10;
  failure_doc := None;
  running_on := "watcher";
  _state := UNKNOWN;
  _force_run := true;
  _first_load := Some (Datetime 2020 1 1 0 0 0 0);
  _last_run := None;
  last_result := "";
  error_count := 0;
  _failed_at := None;
  success_count := 0;
  tests_run := 0;
  last_error_count := 0;
  last_run_duration := 0;
  skip_dep := None;
  failures := 0;
  last_failure := None;
  uptime_start := None;
  last_update := None;
  unavailable_seconds := 0
|}.

(** The same world three clock readings, and so three seconds, later. *)
Definition sample_world_later : World := {|
  utcnow_at := utcnow_at sample_world;
  time_at := time_at sample_world;
  clock_reads := 3;
  gethostname := gethostname sample_world;
  child := child sample_world;
  log := log sample_world
|}.

(** A world whose clock was never set: it starts at the epoch,
    1970-01-01 00:00:00, and each reading comes three seconds after the one
    before. *)
Definition epoch_world : World := {|
  utcnow_at := fun n => Datetime 1970 1 1 0 0 (3 * Z.of_nat n) 0;
  time_at := fun n => 3 * Z.of_nat n;
  clock_reads := 0;
  gethostname := "watcher.example.org";
  child := fun _ => Returned 0;
  log := []
|}.

(** A monitor that crossed its tolerance at 12:00:00, in a world whose clock
    reads 13:00:00 an hour later. *)
Definition failed_at_noon : Monitor :=
  set__failed_at (Some (Datetime 2020 1 1 12 0 0 0))
    (set__state FAILED (set_error_count 3 sample_monitor)).

Definition one_hour_later : World := {|
  utcnow_at := fun _ => Datetime 2020 1 1 13 0 0 0;
  time_at := fun _ => 1577883600;
  clock_reads := 0;
  gethostname := "watcher.example.org";
  child := fun _ => Returned 0;
  log := []
|}.

(** [get_config_option(config_options, key, allow_empty=False)] *)
Definition kwargs_refusing_empty : Kwargs := {|
  kw_exception := ValueError;
  kw_default := VNone;
  kw_required := false;
  kw_required_type := "str";
  kw_allowed_values := None;
  kw_allow_empty := false;
  kw_minimum := None;
  kw_maximum := None
|}.

(** [get_config_option(config_options, key, required=True, default="x")] *)
Definition kwargs_required_with_default : Kwargs := {|
  kw_exception := ValueError;
  kw_default := VStr "x";
  kw_required := true;
  kw_required_type := "str";
  kw_allowed_values := None;
  kw_allow_empty := true;
  kw_minimum := None;
  kw_maximum := None
|}.

(** ** The rest of [simplemonitor/util] *)

(** *** [get_config_dict] *)

(** [get_config_dict(config, monitor)], from [options], the pairs that
    [config.items(monitor)] gave: they are stored one after the other in a
    fresh dict. *)
Definition get_config_dict (options : list (string * string)) : gmap string string :=
  fold_left (fun ret '(key, value) => <[key := value]> ret) options ∅.

(** *** [subclass_dict_handler] *)

(** A class, as far as the handler looks at it: its [__name__], the names
    of the classes it derives from (itself first), and its [_type]
    attribute, if it or one of those classes has one. *)
Record PyClass := {
  __name__ : string;
  __mro__ : list string;
  class__type : option string
}.

(** [issubclass(cls, base_cls)]. *)
Definition issubclass (cls base_cls : PyClass) : bool :=
  str_in (__name__ base_cls) (__mro__ cls).

(** A dict with string keys, in insertion order: [d[k] = v] replaces the
    value of a key that is there, in its place, and appends a new key. *)
Fixpoint setitem {V} (k : string) (v : V) (d : list (string * V)) : list (string * V) :=
  match d with
  | [] => [(k, v)]
  | (k', v') :: d' =>
      if String.eqb k k' then (k, v) :: d' else (k', v') :: setitem k v d'
  end.

(** [d[k]]; [KeyError] when the key is not there. *)
Fixpoint getitem {V} (k : string) (d : list (string * V)) : Result V :=
  match d with
  | [] => Err (Raise KeyError (Text k))
  | (k', v) :: d' => if String.eqb k k' then Ok v else getitem k d'
  end.

(** What a call of [subclass_dict_handler(mod, base_cls)] sets up: the two
    arguments and the dict [_subclasses], which the three functions it
    returns share. *)
Record Handler := {
  handler_mod : string;
  handler_base_cls : PyClass;
  _subclasses : list (string * PyClass)
}.

Definition subclass_dict_handler (mod_ : string) (base_cls : PyClass) : Handler :=
  {| handler_mod := mod_; handler_base_cls := base_cls; _subclasses := [] |}.

(** [_check_is_subclass(cls)]; [issubclass] itself refuses [None]. *)
Definition _check_is_subclass (h : Handler) (cls : option PyClass) : Result unit :=
  match cls with
  | None => Err (Raise TypeError (Text "issubclass() arg 1 must be a class"))
  | Some c =>
      if negb (issubclass c (handler_base_cls h))
      then Err (Raise TypeError
                  (Text (handler_mod h +:+ ".register may only be used on subclasses of "
                         +:+ handler_mod h +:+ "." +:+ __name__ (handler_base_cls h))))
      else Ok tt
  end.

(** [register(cls)], the decorator: what it returns or raises, and the
    handler afterwards. *)
Definition register (cls : option PyClass) (h : Handler) : Result PyClass * Handler :=
  match _check_is_subclass h cls with
  | Err e => (Err e, h)
  | Ok _ =>
      match cls with
      | None => (Err (Raise ValueError (Text "Cannot register this class")), h)
      | Some c =>
          match class__type c with
          | None =>
              (Err (Raise AttributeError
                      (Text ("type object '" +:+ __name__ c
                             +:+ "' has no attribute '_type'"))), h)
          | Some type_ =>
              if String.eqb type_ "unknown"
              then (Err (Raise ValueError (Text "Cannot register this class")), h)
              else (Ok c, {| handler_mod := handler_mod h;
                             handler_base_cls := handler_base_cls h;
                             _subclasses := setitem type_ c (_subclasses h) |})
          end
      end
  end.

(** [get_class(type_)] and [all_types()]. *)
Definition get_class (type_ : string) (h : Handler) : Result PyClass :=
  getitem type_ (_subclasses h).

Definition all_types (h : Handler) : list string := map fst (_subclasses h).

(** The handler after a row of [register] calls, whatever each returned. *)
Definition registered (classes : list (option PyClass)) (h : Handler) : Handler :=
  fold_left (fun h cls => snd (register cls h)) classes h.

(** What every row of [register] calls keeps true of a handler. *)
Record Handler_ok (classes : list (option PyClass)) (base_cls : PyClass)
    (h : Handler) : Prop := {
  ok_base_cls : handler_base_cls h = base_cls;
  ok_NoDup : NoDup (all_types h);
  ok_type : forall type_ c, (type_, c) ∈ _subclasses h ->
              class__type c = Some type_ /\ type_ <> "unknown"
              /\ issubclass c base_cls = true /\ Some c ∈ classes
}.

(** *** What the codec carries *)

(** The pairs of a JSON object that [object_pairs_hook] takes for one of
    its two tags: a single pair whose value is a string, under the
    monitor-state token or, if the string starts like a time stamp, under
    the datetime token. *)
Definition taken_as_tag (obj : list (string * PyObj)) : bool :=
  let first := hd ("", ONone) obj in
  (length obj =? 1)%nat && is_str (snd first)
  && ((String.eqb (fst first) DATETIME_MAGIC_TOKEN
       && re_match _datetime_re (str_value (snd first)))
      || String.eqb (fst first) MONITORSTATE_MAGIC_TOKEN).

(** The pairs of a JSON object that carry one of the two tokens the way a
    tag does: a single pair whose key is a token and whose value is a
    string.  What [object_pairs_hook] takes for a tag is among them. *)
Definition carries_token (obj : list (string * PyObj)) : bool :=
  let first := hd ("", ONone) obj in
  (length obj =? 1)%nat && is_str (snd first)
  && (String.eqb (fst first) DATETIME_MAGIC_TOKEN
      || String.eqb (fst first) MONITORSTATE_MAGIC_TOKEN).

(** How deep lists and dicts are nested in an object. *)
Fixpoint depth (o : PyObj) : nat :=
  match o with
  | OList l => S (fold_right (fun x d => Nat.max (depth x) d) O l)
  | ODict items => S (fold_right (fun '(_, x) d => Nat.max (depth x) d) O items)
  | _ => O
  end.

(** An object of a class that neither the [json] library nor
    [JSONEncoder.default] knows, somewhere in the data. *)
Fixpoint has_foreign_object (o : PyObj) : bool :=
  match o with
  | OList l => existsb has_foreign_object l
  | ODict items => existsb (fun '(_, v) => has_foreign_object v) items
  | OOther _ => true
  | _ => false
  end.

(** An [int] of more digits than [int.__repr__] writes, somewhere in the
    data. *)
Fixpoint has_oversized_int (o : PyObj) : bool :=
  match o with
  | OInt n => Py.exceeds_max_str_digits n
  | OList l => existsb has_oversized_int l
  | ODict items => existsb (fun '(_, v) => has_oversized_int v) items
  | _ => false
  end.

(** The objects [json_dumps] has a rendering for. *)
Definition serialisable (o : PyObj) : bool :=
  negb (has_foreign_object o) && negb (has_oversized_int o).

(** The objects that are built from [None], booleans, numbers, strings,
    datetimes and monitor states by lists and by dicts, where an [int] has
    no more digits than can be written, a datetime is valid and its year
    has four digits, and a dict has no key twice, as every dict has, and is
    not a single pair of a token and a string. *)
Fixpoint plain_data (o : PyObj) : bool :=
  match o with
  | OInt n => negb (Py.exceeds_max_str_digits n)
  | OList l => forallb plain_data l
  | ODict items =>
      forallb (fun '(_, v) => plain_data v) items
      && bool_decide (NoDup items.*1)
      && negb (carries_token items)
  | ODatetime d => datetime_valid d && (1000 <=? year d)
  | ORegex _ | OOther _ => false
  | _ => true
  end.

(** ** The rest of [class Monitor], and its subclasses *)

(** The [dependencies] and [remaining_dependencies] properties. *)
Definition dependencies (m : Monitor) : list string := _dependencies m.

Definition remaining_dependencies (m : Monitor) : list string := _deps m.

(** The classes of the module. *)
Inductive MonitorClass :=
| class_Monitor
| class_MonitorFail
| class_MonitorNull.

(** The class attribute [_type]. *)
Definition _type (cls : MonitorClass) : string :=
  match cls with
  | class_Monitor => "unknown"
  | class_MonitorFail => "fail"
  | class_MonitorNull => "null"
  end.

(** [describe]: explain what this monitor does; [MonitorFail] overrides
    it. *)
Definition describe (cls : MonitorClass) : string :=
  match cls with
  | class_MonitorFail => "A monitor which always fails."
  | _ => "(Monitor did not write an auto-biography.)"
  end.

(** The classes as the handler sees them. *)
Definition class_object (cls : MonitorClass) : PyClass :=
  match cls with
  | class_Monitor =>
      {| __name__ := "Monitor"; __mro__ := ["Monitor"; "object"];
         class__type := Some (_type class_Monitor) |}
  | class_MonitorFail =>
      {| __name__ := "MonitorFail"; __mro__ := ["MonitorFail"; "Monitor"; "object"];
         class__type := Some (_type class_MonitorFail) |}
  | class_MonitorNull =>
      {| __name__ := "MonitorNull"; __mro__ := ["MonitorNull"; "Monitor"; "object"];
         class__type := Some (_type class_MonitorNull) |}
  end.

(** The module's handler once it is loaded:
    [(register, get_class, all_types) = subclass_dict_handler(..., Monitor)],
    then [@register class MonitorFail] and [@register class MonitorNull]. *)
Definition monitor_handler : Handler :=
  registered [Some (class_object class_MonitorFail); Some (class_object class_MonitorNull)]
             (subclass_dict_handler "simplemonitor.Monitors.monitor"
                                    (class_object class_Monitor)).

(** [self.is_remote()] inside a method: it asks the world for the host
    name. *)
Definition self_is_remote : M bool :=
  fun s => (Ok (is_remote (fst s) (snd s)), s).

(** [state_dict]: a dict containing state information about the monitor,
    to use for logging or alerting.  None of the calls it makes changes the
    monitor, so every entry is read from the [self] it starts with. *)
Definition state_dict (cls : MonitorClass) : M PyObj :=
  m ← self;
  let failed_at := format_datetime (first_failure_time m) in
  remote ← self_is_remote;
  downtime ← get_downtime;
  uptime_ ← get_uptime;
  mret (ODict [("failed_at", OStr failed_at);
               ("name", OStr (name m));
               ("host", OStr (running_on m));
               ("is_remote", OBool remote);
               ("downtime", OStr (UpDownTime_str downtime));
               ("uptime", OStr (UpDownTime_str uptime_));
               ("vfc", OInt (virtual_fail_count m));
               ("info", OStr (last_result m));
               ("description", OStr (describe cls));
               ("recovery_info", OStr (recover_info m));
               ("recovered_info", OStr (recovered_info m));
               ("first_failure_time",
                match first_failure_time m with
                | Some d => ODatetime d
                | None => ONone
                end)]).

(** *** The [availability] property *)

(** What float arithmetic comes to: a float, or one of the two errors that
    only it raises. *)
Inductive FloatResult :=
| FloatOk (x : spec_float)
| ZeroDivisionError
| OverflowError.

(** [float(n)] for an [int], as [int / float] and [int - float] convert
    their left operand: the nearest double, or [OverflowError] beyond the
    range. *)
Definition float_of_int (n : Z) : FloatResult :=
  match binary_normalize Py.prec Py.emax n 0 false with
  | S754_infinity _ => OverflowError
  | x => FloatOk x
  end.

(** [td.total_seconds()]: the microseconds of the whole duration, as an
    [int], divided by [10**6]. *)
Definition total_seconds (td : timedelta) : FloatResult :=
  let microseconds := (td_days td * 86400 + td_seconds td) * 10 ^ 6 + td_microseconds td in
  match Py.float_of_decimal (microseconds <? 0) (Z.abs microseconds) (-6) with
  | S754_infinity _ => OverflowError
  | x => FloatOk x
  end.

Definition float_is_zero (x : spec_float) : bool :=
  match x with S754_zero _ => true | _ => false end.

(** [n / x] for an [int] and a [float]. *)
Definition int_truediv_float (n : Z) (x : spec_float) : FloatResult :=
  match float_of_int n with
  | FloatOk y =>
      if float_is_zero x then ZeroDivisionError
      else FloatOk (SFdiv Py.prec Py.emax y x)
  | e => e
  end.

(** [n - x] for an [int] and a [float]. *)
Definition int_sub_float (n : Z) (x : spec_float) : FloatResult :=
  match float_of_int n with
  | FloatOk y => FloatOk (SFsub Py.prec Py.emax y x)
  | e => e
  end.

(** [availability]: the result, and the world after the clock was read, if
    it was. *)
Definition availability (m : Monitor) (w : World) : FloatResult * World :=
  if tests_run m <=? 1 then (FloatOk (S754_zero false), w)
  else
    match _first_load m with
    | Some first_load =>
        let now := utcnow_at w (clock_reads w) in
        (match total_seconds (datetime_sub now first_load) with
         | FloatOk total =>
             match int_truediv_float (unavailable_seconds m) total with
             | FloatOk ratio => int_sub_float 1 ratio
             | e => e
             end
         | e => e
         end, tick w)
    | None => (FloatOk (S754_zero false), w)
    end.

(** *** [class MonitorFail] and [class MonitorNull] *)

(** [MonitorFail.__init__], on options that are strings as
    [Monitor.__init__] above: the constructor of [Monitor], then the
    [interval] option; the new object is the monitor and its [interval]. *)
Definition MonitorFail_init (name : string) (config_options : gmap string string)
    (w : World) : Result (Monitor * Z) * World :=
  match Monitor_init name config_options w with
  | (Ok m, w') =>
      (interval ← Monitor_get_config_option config_options "interval"
                    (kwargs_of "int" (VInt 5) (Some (Py.NInt 1)))
                  ≫= expect_int;
       Ok (m, interval), w')
  | (Err e, w') => (Err e, w')
  end.

(** [a % b] on [int]s; [None] stands for [ZeroDivisionError]. *)
Definition int_mod (a b : Z) : option Z :=
  if b =? 0 then None else Some (a mod b).

(** [MonitorFail.run_test], for the [interval] of the object.  The
    remainder is first taken for the log line, before anything else is
    done; the test that follows takes it again, from the same numbers. *)
Definition MonitorFail_run_test (interval : Z) (s : Monitor * World)
    : option (Result bool * (Monitor * World)) :=
  let m := fst s in
  remainder ← int_mod (error_count m) interval;
  Some ((logger_info ("error_count = " +:+ Py.str_of_int (error_count m)
                      +:+ ", interval = " +:+ Py.str_of_int interval
                      +:+ " --> " +:+ Py.str_of_int remainder);;
         if (interval =? 0) || (error_count m =? 0) || negb (remainder =? 0)
         then record_fail "This monitor always fails."
         else record_success "") s).

(** [MonitorNull.run_test]. *)
Definition MonitorNull_run_test : M bool := record_success "".

(** A row of [n] runs of a test, one after the other: what each returned,
    and the monitor and the world after the last. *)
Fixpoint run_tests (run_test : Monitor * World -> option (Result bool * (Monitor * World)))
    (n : nat) (s : Monitor * World) : option (list (Result bool) * (Monitor * World)) :=
  match n with
  | O => Some ([], s)
  | S n' =>
      '(r, s') ← run_test s;
      '(rs, s'') ← run_tests run_test n' s';
      Some (r :: rs, s'')
  end.

(** *** The tallies of a monitor *)

(** What the constructor establishes and every call maintains of the
    counters, the state and the time stamps, beside [Inv]. *)
Record Tally (m : Monitor) : Prop := {
  tally_success_count : 0 <= success_count m;
  tally_failures : 0 <= failures m;
  tally_unavailable_seconds : 0 <= unavailable_seconds m;
  tally_last_error_count : 0 <= last_error_count m;
  tally_streak : error_count m = 0 \/ success_count m = 0;
  tally_tests_run : error_count m + success_count m <= tests_run m;
  tally_failures_run : failures m <= tests_run m;
  tally_past_tolerance :
    _tolerance m < error_count m -> _state m = FAILED \/ _state m = SKIPPED;
  tally_unknown :
    _state m = UNKNOWN ->
    success_count m = 0 /\ tests_run m = error_count m /\ failures m = 0;
  tally_failed : _state m = FAILED -> 0 < failures m;
  tally_failed_at : _failed_at m <> None <-> 0 < failures m;
  tally_last_failure : last_failure m <> None <-> 0 < failures m;
  tally_uptime_start : uptime_start m <> None <-> 0 < success_count m;
  tally_last_update : last_update m <> None <-> 0 < tests_run m
}.

(** The dependencies named, reported as succeeded one after the other. *)
Fixpoint dependencies_succeeded (names : list string) : M unit :=
  match names with
  | [] => mret tt
  | name :: names' => dependency_succeeded name;; dependencies_succeeded names'
  end.

(** ** A sample monitor with commands *)

Definition guarded_options : gmap string string :=
  {[ "tolerance" := "2"; "recover_command" := "service web restart";
     "recovered_command" := "mail -s recovered ops" ]}.

(** [Monitor("guarded", guarded_options)] constructed in [sample_world]. *)
Definition guarded_monitor : Monitor := {|
  name := "guarded";
  _config_options := guarded_options;
  _deps := [];
  monitor_logger := "simplemonitor.monitor-guarded";
  _dependencies := [];
  _urgent := true;
  _notify := true;
  group := "default";
  _tolerance := 2;
  remote_alerting := false;
  _recover_command := Some "service web restart";
  _recovered_command := Some "mail -s recovered ops";
  recover_info := "";
  recovered_info := "";
  _minimum_gap := 0;
  failure_doc := None;
  running_on := "watcher";
  _state := UNKNOWN;
  _force_run := true;
  _first_load := Some (Datetime 2020 1 1 0 0 0 0);
  _last_run := None;
  last_result := "";
  error_count := 0;
  _failed_at := None;
  success_count := 0;
  tests_run := 0;
  last_error_count := 0;
  last_run_duration := 0;
  skip_dep := None;
  failures := 0;
  last_failure := None;
  uptime_start := None;
  last_update := None;
  unavailable_seconds := 0
|}.

(** * Verification *)

(** ** Up- and downtime formatting *)

Example one_day_two_hours_three_minutes_four_seconds :
  UpDownTime_str (from_timedelta (Some (mk_timedelta 1 (2 * 3600 + 3 * 60 + 4) 0)))
  = "1+02:03:04".
Proof. reflexivity. Qed.

(** The [seconds] of a [timedelta] are within a day, whatever it is made of. *)
Lemma mk_timedelta_seconds (d s us : Z) :
  0 <= td_seconds (mk_timedelta d s us) < 86400.
Proof. unfold mk_timedelta, Py.divmod. cbn. apply Z.mod_pos_bound. lia. Qed.

(** [from_timedelta] agrees with the decomposition wherever neither of its
    two strict comparisons sits on its boundary. *)
Lemma from_timedelta_decomposed_iff (td : timedelta) :
  0 <= td_seconds td < 86400 ->
  from_timedelta (Some td) = decomposed td
  <-> td_seconds td <> 3600 /\ td_seconds td mod 3600 <> 60.
Proof.
  intros Hs. unfold from_timedelta, decomposed, Py.divmod.
  set (s := td_seconds td) in *.
  destruct (Z.gtb_spec s 3600) as [Hh|Hh].
  - destruct (Z.gtb_spec (s mod 3600) 60) as [Hm|Hm].
    + split; [lia | reflexivity].
    + assert (Hr : 0 <= s mod 3600 < 3600) by (apply Z.mod_pos_bound; lia).
      split.
      * intros E. injection E as E1 E2. split; [lia|].
        intros E60. rewrite E60 in E1. discriminate E1.
      * intros [_ Hne].
        assert (Hlt : s mod 3600 < 60) by lia.
        rewrite (Z.div_small (s mod 3600) 60), (Z.mod_small (s mod 3600) 60) by lia.
        reflexivity.
  - destruct (Z.gtb_spec s 60) as [Hm|Hm].
    + split.
      * intros E. injection E as E1 E2 E3. split.
        -- intros E3600. rewrite E3600 in E1. discriminate E1.
        -- assert (s < 3600 \/ s = 3600) as [Hlt|He] by lia.
           ++ rewrite (Z.mod_small s 3600) by lia. lia.
           ++ rewrite He in E1. discriminate E1.
      * intros [Hne _].
        rewrite (Z.div_small s 3600), (Z.mod_small s 3600) by lia.
        reflexivity.
    + split.
      * intros E. injection E as E1 E2 E3. split; [lia|].
        rewrite (Z.mod_small s 3600) by lia.
        intros E60. rewrite (Z.mod_small s 3600), E60 in E2 by lia.
        discriminate E2.
      * intros [_ Hne]. rewrite (Z.mod_small s 3600) in Hne by lia.
        rewrite (Z.div_small s 3600), (Z.mod_small s 3600) by lia.
        rewrite (Z.div_small s 60), (Z.mod_small s 60) by lia.
        reflexivity.
Qed.

(** C7, where the code departs from it: for an elapsed time of exactly one
    hour [from_timedelta] gives 0 hours and 60 minutes, rendered
    ["0+00:60:00"], where each unit taking the remainder of the larger one
    gives 1 hour, rendered ["0+01:00:00"]; for exactly one minute it gives 60
    seconds, ["0+00:00:60"].  Both comparisons in [from_timedelta] are
    strict.  [get_downtime] shows the same an hour after a failure. *)
Theorem from_timedelta_on_the_hour :
  from_timedelta (Some (mk_timedelta 0 3600 0)) = MkUpDownTime 0 0 60 0
  /\ UpDownTime_str (from_timedelta (Some (mk_timedelta 0 3600 0))) = "0+00:60:00"
  /\ decomposed (mk_timedelta 0 3600 0) = MkUpDownTime 0 1 0 0
  /\ UpDownTime_str (decomposed (mk_timedelta 0 3600 0)) = "0+01:00:00"
  /\ UpDownTime_str (from_timedelta (Some (mk_timedelta 0 60 0))) = "0+00:00:60"
  /\ UpDownTime_str (decomposed (mk_timedelta 0 60 0)) = "0+00:01:00"
  /\ (UpDownTime_str <$> returned get_downtime failed_at_noon one_hour_later)
     = Ok "0+00:60:00".
Proof. repeat split. Qed.

(** ** The monitor state machine *)

(** Symbolic execution of a method on a monitor and a world. *)
Ltac run_M :=
  cbv beta iota zeta delta
    [after returned world_after mbind mret M_bind M_ret self assign raise utcnow
     time_time logger_info logger_critical Popen_wait get__last_run];
  cbn.

(** Case analysis on a test that is not itself a case analysis. *)
Ltac case_atomic :=
  match goal with
  | |- context [match ?x with _ => _ end] =>
      lazymatch x with
      | context [match _ with _ => _ end] => fail
      | _ => destruct x eqn:?
      end
  end.

Ltac branches := repeat (case_atomic; cbn in *); simplify_eq; cbn.

Ltac unfold_methods :=
  unfold perform, record_skip, record_success, record_fail, _add_unavailable_seconds,
    should_run, attempt_recover, run_recovered, reset_dependencies,
    dependency_succeeded, set_dependencies, set_minimum_gap, set_notify,
    set_urgent, log_result, get_downtime, get_uptime, uptime.

#[local] Arguments datetime_sub : simpl never.
#[local] Arguments from_timedelta : simpl never.
#[local] Arguments Py.split : simpl never.
#[local] Arguments Py.str_of_int : simpl never.

(** *** The invariant *)

(** Every call keeps the invariant, whatever it returns or raises. *)
Lemma Inv_call (c : Call) (m : Monitor) (w : World) :
  Inv m -> Inv (after (perform c) m w).
Proof.
  intros [H1 H2 H3 H4 H5 H6 H7].
  destruct c; unfold_methods; run_M; branches;
    split; cbn; intros; try done; try lia; eauto.
  all: unfold virtual_fail_count in *; cbn in *; try lia; try congruence.
  all: try (specialize (H4 ltac:(assumption)); lia); auto.
  match goal with
  | H : false = false -> is_Some None |- _ => destruct (H eq_refl) as [? ?]; discriminate
  end.
Qed.

(** A result that is bound is a result that was returned. *)
Lemma Result_bind_Ok {A B} (f : A -> Result B) (r : Result A) (b : B) :
  r ≫= f = Ok b -> exists a, r = Ok a /\ f a = Ok b.
Proof. destruct r as [a|e]; cbn; [eauto | discriminate]. Qed.

(** An [int] option with a minimum resolves to its default or to an integer
    that is not below the minimum. *)
Lemma int_option_bounds (config_options : gmap string string) (key : string)
    (d lo : Z) (v : Value) :
  Monitor_get_config_option config_options key
    (kwargs_of "int" (VInt d) (Some (Py.NInt lo))) = Ok v ->
  exists n, v = VInt n /\ (n = d \/ lo <= n).
Proof.
  unfold Monitor_get_config_option, get_config_option.
  rewrite lookup_fmap. destruct (config_options !! key) as [s|]; cbn.
  - unfold convert_str; cbn.
    destruct (Py.int_of_str s) as [n|]; cbn; [|discriminate].
    unfold Py.num_lt; cbn.
    destruct (Z.compare_spec n lo); cbn; intros [= <-]; exists n; split; auto; lia.
  - intros [= <-]. eauto.
Qed.

(** The constructor establishes it. *)
Lemma Monitor_init_Inv name config_options w m w' :
  Monitor_init name config_options w = (Ok m, w') -> Inv m.
Proof.
  unfold Monitor_init.
  match goal with
  | |- (match ?r with _ => _ end) = _ -> _ => destruct r as [m0|e] eqn:E
  end; [|discriminate].
  intros [= <- _].
  repeat (apply Result_bind_Ok in E as (? & ? & E)).
  injection E as <-.
  repeat match goal with
         | H : _ ≫= _ = Ok _ |- _ => apply Result_bind_Ok in H as (? & ? & ?)
         end.
  repeat match goal with
         | H : Monitor_get_config_option _ _ (kwargs_of "int" _ _) = Ok _ |- _ =>
             apply int_option_bounds in H as (? & -> & ?)
         end.
  unfold expect_int, check_minimum_gap in *.
  repeat case_match; simplify_eq.
  split; cbn; try done; try lia.
Qed.

(** Every monitor a program can hold satisfies the invariant. *)
Lemma reachable_Inv (m : Monitor) : reachable m -> Inv m.
Proof.
  induction 1 as [name config_options w m w' Hinit | c m w _ IH].
  - eapply Monitor_init_Inv, Hinit.
  - apply Inv_call, IH.
Qed.

(** *** Results recorded *)

Lemma record_fail_run (message : string) (m : Monitor) (w : World) :
  record_fail message (m, w)
  = (Ok false, (after (record_fail message) m w, world_after (record_fail message) m w)).
Proof. unfold_methods; run_M; branches; reflexivity. Qed.

Lemma record_fail_counts (message : string) (m : Monitor) (w : World) :
  let m' := after (record_fail message) m w in
  error_count m' = error_count m + 1
  /\ _tolerance m' = _tolerance m
  /\ success_count m' = 0
  /\ tests_run m' = tests_run m + 1
  /\ last_error_count m' = last_error_count m
  /\ _state m' = (if virtual_fail_count m' =? 1 then FAILED else _state m).
Proof.
  unfold_methods; run_M; unfold virtual_fail_count; branches; repeat split; lia.
Qed.

Lemma record_success_run (message : string) (m : Monitor) (w : World) :
  record_success message (m, w)
  = (Ok true, (after (record_success message) m w,
               world_after (record_success message) m w)).
Proof. unfold_methods; run_M; branches; reflexivity. Qed.

Lemma record_success_counts (message : string) (m : Monitor) (w : World) :
  let m' := after (record_success message) m w in
  let w' := world_after (record_success message) m w in
  error_count m' = 0
  /\ _tolerance m' = _tolerance m
  /\ success_count m' = success_count m + 1
  /\ tests_run m' = tests_run m + 1
  /\ last_error_count m' = (if error_count m >? 0 then error_count m else last_error_count m)
  /\ _state m' = OK
  /\ failures m' = failures m
  /\ skip_dep m' = skip_dep m
  /\ (clock_reads w < clock_reads w')%nat
  /\ last_update m' = Some (utcnow_at w (Nat.pred (clock_reads w'))).
Proof.
  unfold_methods; run_M; branches; repeat split; lia.
Qed.

Lemma bind_run {A B} (c : M A) (f : A -> M B) (s s' : Monitor * World) (a : A) :
  c s = (Ok a, s') -> (c ≫= f) s = f a s'.
Proof. unfold mbind, M_bind. intros ->. reflexivity. Qed.

Lemma record_fails_counts (messages : list string) (m : Monitor) (w : World) :
  let m' := after (record_fails messages) m w in
  error_count m' = error_count m + Z.of_nat (length messages)
  /\ _tolerance m' = _tolerance m.
Proof.
  revert m w. induction messages as [|message messages IH]; intros m w.
  - cbn. split; [lia | reflexivity].
  - cbn [record_fails length]. unfold after.
    rewrite (bind_run _ _ _ _ _ (record_fail_run message m w)).
    destruct (record_fail_counts message m w) as (E1 & E2 & _).
    set (m1 := after (record_fail message) m w) in *.
    set (w1 := world_after (record_fail message) m w) in *.
    destruct (IH m1 w1) as [IH1 IH2].
    unfold after in IH1, IH2. rewrite IH1, IH2, E1, E2.
    split; [lia | reflexivity].
Qed.

Lemma sample_monitor_constructed :
  Monitor_init "sample" sample_options sample_world = (Ok sample_monitor, tick sample_world).
Proof. reflexivity. Qed.

Lemma sample_monitor_reachable : reachable sample_monitor.
Proof. eapply reachable_init, sample_monitor_constructed. Qed.

(** Sequencing after a call that returned. *)
Lemma then_run {A B} (c1 : M A) (c2 : M B) (m : Monitor) (w : World) :
  (exists a, returned c1 m w = Ok a) ->
  (c1;; c2) (m, w) = c2 (after c1 m w, world_after c1 m w).
Proof.
  unfold returned, after, world_after, mbind, M_bind.
  destruct (c1 (m, w)) as [[a|e] [m' w']]; cbn; intros [a' E]; [reflexivity | discriminate].
Qed.

Lemma record_fail_returns message m w :
  exists a, returned (record_fail message) m w = Ok a.
Proof. exists false. unfold returned. rewrite record_fail_run. reflexivity. Qed.

Lemma record_success_returns message m w :
  exists a, returned (record_success message) m w = Ok a.
Proof. exists true. unfold returned. rewrite record_success_run. reflexivity. Qed.

Lemma record_fails_returns messages m w :
  exists a, returned (record_fails messages) m w = Ok a.
Proof.
  revert m w. induction messages as [|message messages IH]; intros m w.
  - exists tt. reflexivity.
  - cbn [record_fails]. unfold returned.
    rewrite (then_run _ _ _ _ (record_fail_returns message m w)). apply IH.
Qed.

Lemma record_fails_streak (messages : list string) (m : Monitor) (w : World) :
  messages <> [] ->
  let m' := after (record_fails messages) m w in
  success_count m' = 0 /\ last_error_count m' = last_error_count m.
Proof.
  revert m w. induction messages as [|message messages IH]; intros m w Hne; [done|].
  cbn [record_fails]. unfold after.
  rewrite (then_run _ _ _ _ (record_fail_returns message m w)).
  destruct (record_fail_counts message m w) as (_ & _ & E3 & _ & E5 & _).
  set (m1 := after (record_fail message) m w) in *.
  set (w1 := world_after (record_fail message) m w) in *.
  destruct messages as [|message' messages'].
  - cbn. auto.
  - destruct (IH m1 w1 ltac:(done)) as [IH1 IH2]. unfold after in IH1, IH2.
    rewrite IH1, IH2, E5. auto.
Qed.

Lemma virtual_fail_count_spec (m : Monitor) :
  virtual_fail_count m = Z.max (error_count m - _tolerance m) 0.
Proof. reflexivity. Qed.

Lemma test_success_spec (m : Monitor) :
  test_success m = true <-> virtual_fail_count m = 0.
Proof.
  unfold test_success, truthy. rewrite negb_involutive. apply Z.eqb_eq.
Qed.

Lemma first_failure_spec (m : Monitor) :
  first_failure m = true <-> error_count m = _tolerance m + 1.
Proof.
  unfold first_failure. destruct (Z.eqb_spec (error_count m) (_tolerance m + 1)); split;
    intros; try done.
Qed.

(** C1: [virtual_fail_count] is [max(error_count - tolerance, 0)],
    [test_success] holds exactly when it is zero and [first_failure] exactly
    when [error_count == tolerance + 1].  With a tolerance of 2, consecutive
    [record_fail] calls on a monitor that was not failing leave
    [virtual_fail_count] at 0 after the first and the second and bring it
    to 1 with the third, and [first_failure] holds after the third only:
    not before it and not after any later one. *)
Theorem tolerance_absorbs_failures (m : Monitor) (w : World) (messages : list string) :
  (virtual_fail_count m = Z.max (error_count m - _tolerance m) 0
   /\ (test_success m = true <-> virtual_fail_count m = 0)
   /\ (first_failure m = true <-> error_count m = _tolerance m + 1))
  /\ (error_count m = 0 -> _tolerance m = 2 ->
      let n := length messages in
      let m' := after (record_fails messages) m w in
      error_count m' = Z.of_nat n
      /\ (n = 1%nat \/ n = 2%nat -> virtual_fail_count m' = 0)
      /\ (n = 3%nat -> virtual_fail_count m' = 1)
      /\ (first_failure m' = true <-> n = 3%nat)).
Proof.
  split.
  - auto using virtual_fail_count_spec, test_success_spec, first_failure_spec.
  - intros Hec Htol n m'.
    destruct (record_fails_counts messages m w) as [E1 E2].
    fold m' in E1, E2. fold n in E1.
    rewrite first_failure_spec, virtual_fail_count_spec, E1, E2, Hec, Htol.
    repeat split; lia.
Qed.

Lemma tolerance_absorbs_failures_witness :
  error_count sample_monitor = 0 /\ _tolerance sample_monitor = 2
  /\ virtual_fail_count (after (record_fails ["timeout"; "timeout"; "refused"])
                               sample_monitor sample_world) = 1.
Proof.
  split; [reflexivity | split; [reflexivity |]].
  apply (tolerance_absorbs_failures sample_monitor sample_world
           ["timeout"; "timeout"; "refused"]); reflexivity.
Defined.

(** *** Skips *)

Lemma record_skip_run (dep : string) (m : Monitor) (w : World) :
  record_skip (Some dep) (m, w)
  = (Ok true, (set__state SKIPPED (set_skip_dep (Some dep) (after (record_success "") m w)),
               world_after (record_success "") m w)).
Proof.
  unfold record_skip. unfold mbind, M_bind. rewrite record_success_run. reflexivity.
Qed.

Lemma record_skip_resets (dep : string) (m : Monitor) (w : World) :
  let m' := after (record_skip (Some dep)) m w in
  error_count m' = 0 /\ _state m' = SKIPPED.
Proof.
  destruct (record_success_counts "" m w) as (E1 & _).
  intros m'.
  assert (Hm : m' = set__state SKIPPED
                      (set_skip_dep (Some dep) (after (record_success "") m w)))
    by (unfold m', after at 1; rewrite record_skip_run; reflexivity).
  rewrite Hm. cbn. split; [exact E1 | reflexivity].
Qed.

(** C4: [record_skip(dep)] with a dependency name does all of
    [record_success]'s bookkeeping ([error_count] back to 0, [success_count]
    and [tests_run] one up, [last_update] stamped from the clock, state set
    to [OK]), then records [skip_dep], sets the state to [SKIPPED] and
    returns [True]; the lifetime [failures] count does not move and
    [all_better_now] does not fire. *)
Theorem record_skip_counts_as_success (dep : string) (m : Monitor) (w : World) :
  let succeeded := after (record_success "") m w in
  let m' := after (record_skip (Some dep)) m w in
  let w' := world_after (record_skip (Some dep)) m w in
  returned (record_skip (Some dep)) m w = Ok true
  /\ m' = set__state SKIPPED (set_skip_dep (Some dep) succeeded)
  /\ _state succeeded = OK
  /\ error_count m' = 0
  /\ success_count m' = success_count m + 1
  /\ tests_run m' = tests_run m + 1
  /\ (clock_reads w < clock_reads w')%nat
  /\ last_update m' = Some (utcnow_at w (Nat.pred (clock_reads w')))
  /\ skip_dep m' = Some dep
  /\ _state m' = SKIPPED
  /\ failures m' = failures m
  /\ all_better_now m' = false.
Proof.
  destruct (record_success_counts "" m w) as (E1 & _ & E3 & E4 & _ & E6 & E7 & _ & E9 & E10).
  intros succeeded m' w'.
  assert (Hr : returned (record_skip (Some dep)) m w = Ok true)
    by (unfold returned; rewrite record_skip_run; reflexivity).
  assert (Hm : m' = set__state SKIPPED (set_skip_dep (Some dep) succeeded))
    by (unfold m', after at 1; rewrite record_skip_run; reflexivity).
  assert (Hw : w' = world_after (record_success "") m w)
    by (unfold w', world_after at 1; rewrite record_skip_run; reflexivity).
  rewrite Hm, Hw. cbn. repeat split; try assumption.
  unfold all_better_now. cbn. rewrite andb_false_r. reflexivity.
Qed.

(** C10: [record_skip(None)] sets the state to [SKIPPED] and returns
    [True]; the object is otherwise as it was, attribute by attribute, and so
    is the world: no counter moves, the clock is not read, and [skip_dep]
    keeps its value. *)
Theorem record_skip_without_dependency (m : Monitor) (w : World) :
  let m' := after (record_skip None) m w in
  record_skip None (m, w) = (Ok true, (set__state SKIPPED m, w))
  /\ m' = set__state SKIPPED m
  /\ _state m' = SKIPPED
  /\ same_but_state m m'
  /\ error_count m' = error_count m
  /\ success_count m' = success_count m
  /\ tests_run m' = tests_run m
  /\ last_update m' = last_update m
  /\ skip_dep m' = skip_dep m.
Proof. unfold same_but_state. repeat split. Qed.

(** *** Recovery *)

Lemma MonitorState_eqb_eq (a b : MonitorState) :
  MonitorState_eqb a b = true <-> a = b.
Proof. destruct a, b; cbn; split; intros; done. Qed.

Lemma all_better_now_spec (m : Monitor) :
  all_better_now m = true
  <-> Z.max (last_error_count m - _tolerance m) 0 > 0
      /\ success_count m = 1
      /\ _state m <> SKIPPED.
Proof.
  unfold all_better_now, last_virtual_fail_count, truthy.
  rewrite Z.max_comm.
  destruct (Z.eqb_spec (Z.max (last_error_count m - _tolerance m) 0) 0) as [E0|E0];
    destruct (Z.eqb_spec (success_count m) 1) as [E1|E1];
    destruct (MonitorState_eqb (_state m) SKIPPED) eqn:E2; cbn;
    try apply MonitorState_eqb_eq in E2;
    (split; [intros ?; try done | intros (? & ? & ?); try done; try lia]).
  repeat split; [lia | done |].
  intros E. apply MonitorState_eqb_eq in E. congruence.
Qed.

(** C5: [all_better_now] holds exactly when the failures of the streak that
    ended were past tolerance ([max(last_error_count - tolerance, 0) > 0]),
    [success_count == 1] and the state is not [SKIPPED].  With a tolerance
    of 2, three [record_fail] calls followed by [record_success] make it
    hold after that first success; it does not hold while failing, nor
    after the second success in a row. *)
Theorem recovered_on_first_success (m : Monitor) (w : World)
    (f1 f2 f3 s1 s2 : string) :
  (all_better_now m = true
   <-> Z.max (last_error_count m - _tolerance m) 0 > 0
       /\ success_count m = 1
       /\ _state m <> SKIPPED)
  /\ (0 <= error_count m -> _tolerance m = 2 ->
      let failing := record_fails [f1; f2; f3] in
      all_better_now (after failing m w) = false
      /\ all_better_now (after (failing;; record_success s1) m w) = true
      /\ all_better_now (after (failing;; record_success s1;; record_success s2) m w) = false).
Proof.
  split; [apply all_better_now_spec|].
  intros Hec Htol failing.
  destruct (record_fails_counts [f1; f2; f3] m w) as [F1 F2].
  destruct (record_fails_streak [f1; f2; f3] m w ltac:(done)) as [F3 F4].
  fold failing in F1, F2, F3, F4. cbn zeta in *.
  assert (Hfailing : forall B (c : M B),
             (failing;; c) (m, w) = c (after failing m w, world_after failing m w))
    by (intros; apply then_run, record_fails_returns).
  set (m3 := after failing m w) in *. set (w3 := world_after failing m w) in *.
  destruct (record_success_counts s1 m3 w3) as (S1 & S2 & S3 & _ & S5 & S6 & _).
  cbn zeta in *.
  set (m4 := after (record_success s1) m3 w3) in *.
  set (w4 := world_after (record_success s1) m3 w3) in *.
  destruct (record_success_counts s2 m4 w4) as (T1 & T2 & T3 & _ & T5 & T6 & _).
  cbn zeta in *.
  assert (E4 : after (failing;; record_success s1) m w = m4)
    by (unfold after at 1; rewrite Hfailing; reflexivity).
  assert (E5 : after (failing;; record_success s1;; record_success s2) m w
               = after (record_success s2) m4 w4).
  { unfold after at 1. rewrite Hfailing.
    rewrite (then_run _ _ _ _ (record_success_returns s1 m3 w3)). reflexivity. }
  rewrite E4, E5. cbn [length] in F1.
  destruct (Z.gtb_spec (error_count m3) 0) as [_|?]; [|lia].
  repeat split.
  - destruct (all_better_now m3) eqn:E; [|reflexivity].
    apply all_better_now_spec in E as (_ & E & _). lia.
  - apply all_better_now_spec. rewrite S5, S2, S3, S6, F3, F2, F1, Htol.
    repeat split; [lia | done].
  - destruct (all_better_now (after (record_success s2) m4 w4)) eqn:E; [|reflexivity].
    apply all_better_now_spec in E as (_ & E & _). lia.
Qed.

Lemma recovered_on_first_success_witness :
  0 <= error_count sample_monitor /\ _tolerance sample_monitor = 2
  /\ all_better_now
       (after (record_fails ["down"; "down"; "down"];; record_success "up")
              sample_monitor sample_world) = true.
Proof.
  split; [done | split; [reflexivity |]].
  apply (recovered_on_first_success sample_monitor sample_world
           "down" "down" "down" "up" "up"); [done | reflexivity].
Defined.

(** *** The state invariant *)

Lemma Monitor_init_state name config_options w m w' :
  Monitor_init name config_options w = (Ok m, w') ->
  error_count m = 0 /\ _state m = UNKNOWN.
Proof.
  unfold Monitor_init.
  match goal with
  | |- (match ?r with _ => _ end) = _ -> _ => destruct r as [m0|e] eqn:E
  end; [|discriminate].
  intros [= <- _].
  repeat (apply Result_bind_Ok in E as (? & ? & E)).
  injection E as <-. split; reflexivity.
Qed.

(** C6: on every monitor a program can hold, that is, constructed and then
    driven by [record_fail], [record_success], [record_skip] and the other
    calls in any order, [error_count == 0] implies that the state is [OK],
    [SKIPPED] or [UNKNOWN]; the state is [FAILED] only while [error_count]
    exceeds the tolerance; a call that resets [error_count] to 0
    ([record_success], [record_skip] with a dependency) leaves a state that
    is not [FAILED], and [record_fail] leaves [error_count] above 0. *)
Theorem failed_only_with_errors (m : Monitor) :
  reachable m ->
  (error_count m = 0 -> _state m = OK \/ _state m = SKIPPED \/ _state m = UNKNOWN)
  /\ (_state m = FAILED -> _tolerance m < error_count m)
  /\ (forall w message,
        let m' := after (record_success message) m w in
        error_count m' = 0 /\ _state m' = OK)
  /\ (forall w dep,
        let m' := after (record_skip (Some dep)) m w in
        error_count m' = 0 /\ _state m' = SKIPPED)
  /\ (forall w,
        let m' := after (record_skip None) m w in
        error_count m' = error_count m /\ _state m' = SKIPPED)
  /\ (forall w message,
        let m' := after (record_fail message) m w in
        0 < error_count m'
        /\ (_state m' = FAILED -> _tolerance m' < error_count m')).
Proof.
  intros Hm. destruct (reachable_Inv m Hm) as [H1 H2 _ H4 _ _ _].
  split; [|split; [exact H4|]].
  - intros E0. destruct (_state m) eqn:Es; auto.
    specialize (H4 eq_refl). lia.
  - repeat split.
    + apply record_success_counts.
    + apply record_success_counts.
    + apply (record_skip_resets dep m w).
    + apply (record_skip_resets dep m w).
    + destruct (record_fail_counts message m w) as (E & _). cbn zeta in E. lia.
    + assert (E : after (record_fail message) m w
                  = after (perform (call_record_fail message)) m w).
      { unfold after, perform.
        rewrite (then_run _ _ _ _ (record_fail_returns message m w)). reflexivity. }
      rewrite E.
      apply (reachable_Inv _ (reachable_call (call_record_fail message) m w Hm)).
Qed.

Lemma failed_only_with_errors_witness :
  reachable sample_monitor
  /\ (error_count sample_monitor = 0 ->
      _state sample_monitor = OK \/ _state sample_monitor = SKIPPED
      \/ _state sample_monitor = UNKNOWN).
Proof.
  assert (H : reachable sample_monitor)
    by (apply (reachable_init "sample" sample_options sample_world
                 sample_monitor (tick sample_world)); reflexivity).
  split; [exact H|].
  apply (failed_only_with_errors sample_monitor H).
Defined.

(** *** The recovery hooks *)

Lemma set_recover_info_same (m : Monitor) : set_recover_info (recover_info m) m = m.
Proof. destruct m; reflexivity. Qed.

Lemma set_recovered_info_same (m : Monitor) : set_recovered_info (recovered_info m) m = m.
Proof. destruct m; reflexivity. Qed.

(** Without a command the hooks only blank their info. *)
Lemma attempt_recover_without_command (m : Monitor) (w : World) :
  _recover_command m = None ->
  attempt_recover (m, w) = (Ok tt, (set_recover_info "" m, w)).
Proof. intros E. unfold_methods; run_M. rewrite E. reflexivity. Qed.

Lemma run_recovered_without_command (m : Monitor) (w : World) :
  _recovered_command m = None ->
  run_recovered (m, w) = (Ok tt, (set_recovered_info "" m, w)).
Proof. intros E. unfold_methods; run_M. rewrite E. reflexivity. Qed.

(** C8: on every monitor a program can hold, [attempt_recover] changes
    nothing (no attribute of the monitor, [recover_info] included, and
    nothing in the world) when no recover command is configured or
    [first_failure()] is false, and [run_recovered] changes nothing when no
    recovered command is configured or [all_better_now()] is false. *)
Theorem hooks_idle_off_the_edge (m : Monitor) (w : World) :
  reachable m ->
  (_recover_command m = None \/ first_failure m = false ->
   attempt_recover (m, w) = (Ok tt, (m, w)))
  /\ (_recovered_command m = None \/ all_better_now m = false ->
      run_recovered (m, w) = (Ok tt, (m, w))).
Proof.
  intros Hm. destruct (reachable_Inv m Hm) as [_ _ _ _ _ H6 H7].
  split; intros Hidle; unfold_methods; run_M.
  - destruct (_recover_command m) as [command|] eqn:E.
    + destruct Hidle as [?| ->]; [done | reflexivity].
    + cbn. rewrite <- (H6 eq_refl) at 1. rewrite set_recover_info_same. reflexivity.
  - destruct (_recovered_command m) as [command|] eqn:E.
    + destruct Hidle as [?| ->]; [done | reflexivity].
    + cbn. rewrite <- (H7 eq_refl) at 1. rewrite set_recovered_info_same. reflexivity.
Qed.

Lemma hooks_idle_off_the_edge_witness :
  reachable sample_monitor
  /\ attempt_recover (sample_monitor, sample_world) = (Ok tt, (sample_monitor, sample_world)).
Proof.
  assert (H : reachable sample_monitor)
    by (apply (reachable_init "sample" sample_options sample_world
                 sample_monitor (tick sample_world)); reflexivity).
  split; [exact H|].
  apply (hooks_idle_off_the_edge sample_monitor sample_world H).
  left. reflexivity.
Defined.



(** *** The scheduling gate *)

Lemma should_run_cases (m : Monitor) (w : World) :
  let now := time_at w (clock_reads w) in
  let stamped := set__last_run (Some now) in
  (_force_run m = true ->
   should_run (m, w) = (Ok true, (stamped (set__force_run false m), tick w)))
  /\ (_force_run m = false -> minimum_gap m = 0 ->
      should_run (m, w) = (Ok true, (stamped m, tick w)))
  /\ (_force_run m = false -> minimum_gap m <> 0 -> 0 < error_count m ->
      should_run (m, w) = (Ok true, (stamped m, tick w)))
  /\ (_force_run m = false -> minimum_gap m <> 0 -> error_count m <= 0 ->
      _last_run m = Some 0 ->
      should_run (m, w) = (Ok true, (stamped m, tick w)))
  /\ (forall last_run,
        _force_run m = false -> minimum_gap m <> 0 -> error_count m <= 0 ->
        _last_run m = Some last_run -> last_run <> 0 ->
        should_run (m, w)
        = if minimum_gap m <=? now - last_run
          then (Ok true, (stamped m, tick w))
          else (Ok false, (m, tick w))).
Proof.
  cbn zeta. unfold should_run; run_M.
  repeat split.
  - intros ->. reflexivity.
  - intros -> ->. reflexivity.
  - intros -> Hgap Hec.
    destruct (Z.eqb_spec (minimum_gap m) 0); [done|].
    destruct (Z.gtb_spec (error_count m) 0); [reflexivity | lia].
  - intros -> Hgap Hec Hlast.
    destruct (Z.eqb_spec (minimum_gap m) 0); [done|].
    destruct (Z.gtb_spec (error_count m) 0); [lia|].
    cbn. rewrite Hlast. reflexivity.
  - intros last_run -> Hgap Hec Hlast Hne.
    destruct (Z.eqb_spec (minimum_gap m) 0); [done|].
    destruct (Z.gtb_spec (error_count m) 0); [lia|].
    cbn. rewrite Hlast. cbn.
    destruct (Z.eqb_spec last_run 0); [done|].
    rewrite Z.geb_leb. destruct (minimum_gap m <=? _); reflexivity.
Qed.

Lemma should_run_effect (m : Monitor) (w : World) :
  let m' := after should_run m w in
  error_count m' = error_count m
  /\ minimum_gap m' = minimum_gap m
  /\ (returned should_run m w = Ok false -> m' = m)
  /\ (returned should_run m w = Ok true ->
      _last_run m' = Some (time_at w (clock_reads w)) /\ _force_run m' = false).
Proof.
  unfold should_run, minimum_gap; run_M; branches;
    repeat split; intros; try done.
Qed.

Lemma should_run_returns (m : Monitor) (w : World) :
  (_force_run m = false -> is_Some (_last_run m)) ->
  exists b, returned should_run m w = Ok b.
Proof.
  intros H. unfold should_run; run_M; branches; eauto.
  destruct (H eq_refl) as [? ?]. congruence.
Qed.

Lemma should_run_unstamped (m : Monitor) (w : World) :
  _force_run m = false -> minimum_gap m <> 0 -> error_count m <= 0 ->
  _last_run m = None ->
  should_run (m, w)
  = (Err (Raise AttributeError (Text "'Monitor' object has no attribute '_last_run'")),
     (m, tick w)).
Proof.
  intros Hf Hgap Hec Hlast. unfold should_run; run_M. rewrite Hf.
  destruct (Z.eqb_spec (minimum_gap m) 0); [done|].
  destruct (Z.gtb_spec (error_count m) 0); [lia|].
  cbn. rewrite Hlast. reflexivity.
Qed.

(** C2, as the code has it: [should_run], with [now] the clock reading it
    takes.  (1) If [_force_run] is set it clears it, stamps [_last_run] and
    returns true; (2) else if [minimum_gap == 0] it stamps and returns
    true; (3) else if [error_count > 0] it stamps and returns true; (4)
    else if the stamp of the last run is 0 it stamps and returns true; (5)
    otherwise, with a stamp other than 0, it returns true exactly when
    [now - _last_run >= minimum_gap], stamping when it does; and where
    steps (4) and (5) find no stamp at all the call raises
    [AttributeError].  That does not happen on a monitor a program can
    hold, where the call returns; a call that returns false leaves the
    monitor as it was.  With [minimum_gap == 0] and with [error_count > 0]
    every call returns true; with a gap of 10 and no errors, a call that
    returns true at a time other than the epoch second 0 is followed, three
    seconds later, by one that returns false. *)
Theorem should_run_gate (m : Monitor) (w : World) :
  let now := time_at w (clock_reads w) in
  let stamped := set__last_run (Some now) in
  (_force_run m = true ->
   should_run (m, w) = (Ok true, (stamped (set__force_run false m), tick w)))
  /\ (_force_run m = false -> minimum_gap m = 0 ->
      should_run (m, w) = (Ok true, (stamped m, tick w)))
  /\ (_force_run m = false -> minimum_gap m <> 0 -> 0 < error_count m ->
      should_run (m, w) = (Ok true, (stamped m, tick w)))
  /\ (_force_run m = false -> minimum_gap m <> 0 -> error_count m <= 0 ->
      _last_run m = Some 0 ->
      should_run (m, w) = (Ok true, (stamped m, tick w)))
  /\ (forall last_run,
        _force_run m = false -> minimum_gap m <> 0 -> error_count m <= 0 ->
        _last_run m = Some last_run -> last_run <> 0 ->
        should_run (m, w)
        = if minimum_gap m <=? now - last_run
          then (Ok true, (stamped m, tick w))
          else (Ok false, (m, tick w)))
  /\ (_force_run m = false -> minimum_gap m <> 0 -> error_count m <= 0 ->
      _last_run m = None ->
      should_run (m, w)
      = (Err (Raise AttributeError
                    (Text "'Monitor' object has no attribute '_last_run'")),
         (m, tick w)))
  /\ (reachable m -> exists b, returned should_run m w = Ok b)
  /\ (returned should_run m w = Ok false -> after should_run m w = m)
  /\ (minimum_gap m = 0 -> returned should_run m w = Ok true)
  /\ (0 < error_count m -> returned should_run m w = Ok true)
  /\ (forall w2,
        minimum_gap m = 10 -> error_count m = 0 -> now <> 0 ->
        returned should_run m w = Ok true ->
        time_at w2 (clock_reads w2) = now + 3 ->
        returned should_run (after should_run m w) w2 = Ok false).
Proof.
  intros now stamped.
  destruct (should_run_cases m w) as (C1 & C2 & C3 & C4 & C5).
  destruct (should_run_effect m w) as (E1 & E2 & E3 & E4).
  pose proof (should_run_unstamped m w) as C6.
  cbn zeta in *. fold now in C1, C2, C3, C4, C5, E4. fold stamped in C1, C2, C3, C4, C5.
  repeat split; try assumption.
  - intros Hm. apply should_run_returns, (reachable_Inv m Hm).
  - intros Hgap. unfold returned.
    destruct (_force_run m) eqn:Ef; [rewrite C1 | rewrite C2]; done.
  - intros Hec. unfold returned.
    destruct (_force_run m) eqn:Ef; [rewrite C1; done|].
    destruct (Z.eq_dec (minimum_gap m) 0) as [Hgap|Hgap];
      [rewrite C2 | rewrite C3]; done.
  - intros w2 Hgap Hec Hnow Htrue Hlater.
    destruct (E4 Htrue) as [L F].
    set (m1 := after should_run m w) in *.
    destruct (should_run_cases m1 w2) as (_ & _ & _ & _ & D5).
    unfold returned. rewrite (D5 now F); try lia; try assumption.
    rewrite Hlater, E2, Hgap.
    replace (now + 3 - now) with 3 by lia. reflexivity.
Qed.

Lemma should_run_gate_witness :
  returned should_run sample_monitor sample_world = Ok true
  /\ returned should_run (after should_run sample_monitor sample_world)
              sample_world_later = Ok false.
Proof.
  split; [reflexivity|].
  apply (should_run_gate sample_monitor sample_world); reflexivity || done.
Defined.

(** C2 as stated fails where a run is stamped at the epoch second 0: the
    stamp is there, but step (4) takes it for none.  With a gap of 10 and
    no errors, a first call at second 0 returns true and stamps 0, and the
    call three seconds later returns true as well, and stamps, where
    [3 - 0 >= 10] does not hold and the claim has false. *)
Lemma should_run_at_the_epoch :
  let first := should_run (sample_monitor, epoch_world) in
  let second := should_run (snd first) in
  (minimum_gap sample_monitor = 10 /\ error_count sample_monitor = 0)
  /\ (time_at epoch_world 0 = 0 /\ fst first = Ok true
      /\ _last_run (fst (snd first)) = Some 0)
  /\ (time_at (snd (snd first)) (clock_reads (snd (snd first))) = 0 + 3
      /\ (3 - 0 >=? minimum_gap (fst (snd first))) = false
      /\ fst second = Ok true
      /\ fst second <> Ok false
      /\ _last_run (fst (snd second)) = Some 3).
Proof. cbn zeta. repeat split; discriminate. Qed.


(** ** The state-transfer codec *)

#[local] Arguments String.append !_ _ / : simpl nomatch.

Section Digits.

Lemma digit_of_digit_char (d : Z) :
  0 <= d < 10 -> Py.digit_of (digit_char d) = Some d.
Proof.
  intros H.
  assert (d = 0 \/ d = 1 \/ d = 2 \/ d = 3 \/ d = 4 \/ d = 5 \/ d = 6 \/ d = 7
          \/ d = 8 \/ d = 9) as Hd by lia.
  repeat (destruct Hd as [-> | Hd]; [reflexivity|]). subst. reflexivity.
Qed.

Lemma is_space_digit_char (d : Z) :
  0 <= d < 10 -> Py.is_space (digit_char d) = false.
Proof.
  intros H.
  assert (d = 0 \/ d = 1 \/ d = 2 \/ d = 3 \/ d = 4 \/ d = 5 \/ d = 6 \/ d = 7
          \/ d = 8 \/ d = 9) as Hd by lia.
  repeat (destruct Hd as [-> | Hd]; [reflexivity|]). subst. reflexivity.
Qed.

Lemma digit_in_range (n : Z) (w : nat) : 0 <= n / 10 ^ Z.of_nat w mod 10 < 10.
Proof. apply Z.mod_pos_bound. lia. Qed.

Lemma low_digits (n : Z) (w : nat) :
  n mod 10 ^ Z.of_nat (S w)
  = (n / 10 ^ Z.of_nat w mod 10) * 10 ^ Z.of_nat w + n mod 10 ^ Z.of_nat w.
Proof.
  rewrite Nat2Z.inj_succ, Z.pow_succ_r by lia.
  rewrite (Z.mul_comm 10), Z.rem_mul_r by lia. lia.
Qed.

(** Reading back the digits that [zfill] wrote. *)
Lemma read_digits_zfill (k : nat) (acc n : Z) (rest : string) :
  read_digits k acc (zfill k n +:+ rest)
  = Some (acc * 10 ^ Z.of_nat k + n mod 10 ^ Z.of_nat k, rest).
Proof.
  revert acc. induction k as [|k IH]; intros acc.
  - cbn. rewrite Z.mod_1_r. do 2 f_equal. lia.
  - cbn [zfill read_digits String.append read_digit].
    rewrite digit_of_digit_char by apply digit_in_range.
    cbn [mbind option_bind]. rewrite IH, low_digits.
    do 2 f_equal. rewrite Nat2Z.inj_succ, Z.pow_succ_r by lia. lia.
Qed.

Lemma read_upto_zfill (k : nat) (acc n : Z) (count : nat) :
  read_upto k acc count (zfill k n)
  = Some ((acc * 10 ^ Z.of_nat k + n mod 10 ^ Z.of_nat k, (count + k)%nat), "").
Proof.
  revert acc count. induction k as [|k IH]; intros acc count.
  - cbn. rewrite Z.mod_1_r. do 3 f_equal; lia.
  - cbn [zfill read_upto read_digit].
    rewrite digit_of_digit_char by apply digit_in_range.
    cbn [mbind option_bind]. rewrite IH, low_digits.
    do 3 f_equal; [|lia]. rewrite Nat2Z.inj_succ, Z.pow_succ_r by lia. lia.
Qed.

Lemma read_field_zfill (lo2 hi2 lo1 v : Z) (rest : string) :
  0 <= v < 100 -> lo2 <= v <= hi2 ->
  read_field lo2 hi2 lo1 (zfill 2 v +:+ rest) = Some (v, rest).
Proof.
  intros Hv Hr. unfold read_field. rewrite read_digits_zfill.
  change (10 ^ Z.of_nat 2) with 100. rewrite Z.mod_small by lia.
  replace (0 * 100 + v) with v by lia.
  destruct (Z.leb_spec lo2 v); [|lia]. destruct (Z.leb_spec v hi2); [|lia].
  reflexivity.
Qed.

(** A text with every field padded has the shape [_datetime_re] asks for. *)
Lemma re_match_isoformat (d : datetime) :
  re_match _datetime_re (isoformat_microseconds d) = true.
Proof.
  unfold isoformat_microseconds, _datetime_re. cbn [zfill String.append].
  repeat (cbn [re_match Ascii.eqb Bool.eqb];
          rewrite ?digit_of_digit_char by apply digit_in_range).
  reflexivity.
Qed.

(** A year of four digits is written the same with and without padding. *)
Lemma str_of_int_four_digits (y : Z) :
  1000 <= y <= 9999 -> Py.str_of_int y = zfill 4 y.
Proof.
  intros Hy.
  assert (Hall : forallb (fun k => String.eqb (Py.str_of_int (1000 + Z.of_nat k))
                                              (zfill 4 (1000 + Z.of_nat k)))
                         (seq 0 (Z.to_nat 9000)) = true) by (vm_compute; reflexivity).
  rewrite forallb_forall in Hall.
  specialize (Hall (Z.to_nat (y - 1000))).
  replace (1000 + Z.of_nat (Z.to_nat (y - 1000))) with y in Hall by lia.
  apply String.eqb_eq, Hall, in_seq. lia.
Qed.

Lemma strftime_four_digit_year (d : datetime) :
  1000 <= year d <= 9999 -> strftime_FORMAT d = isoformat_microseconds d.
Proof.
  intros Hy. unfold strftime_FORMAT, isoformat_microseconds.
  rewrite (str_of_int_four_digits (year d) Hy). reflexivity.
Qed.

Lemma lstrip_zfill (k : nat) (n : Z) (rest : string) :
  Py.lstrip (zfill (S k) n +:+ rest) = zfill (S k) n +:+ rest.
Proof.
  cbn [zfill String.append Py.lstrip].
  rewrite is_space_digit_char by apply digit_in_range. reflexivity.
Qed.

End Digits.

Section DatetimeText.

#[local] Arguments zfill : simpl never.
#[local] Arguments read_digits : simpl never.
#[local] Arguments read_field : simpl never.
#[local] Arguments read_upto : simpl never.
#[local] Arguments Z.mul : simpl never.
#[local] Arguments Z.add : simpl never.
#[local] Arguments Z.pow : simpl never.
#[local] Arguments datetime_valid : simpl never.

Lemma days_in_month_le (y m : Z) : _days_in_month y m <= 31.
Proof.
  unfold _days_in_month. destruct ((m =? 2) && _is_leap y); [lia|].
  generalize (Z.to_nat m). intros k.
  do 13 (destruct k as [|k]; [cbn; lia|]). destruct k; cbn; lia.
Qed.

Lemma datetime_valid_bounds (d : datetime) :
  datetime_valid d = true ->
  1 <= year d <= 9999 /\ 1 <= month d <= 12 /\ 1 <= day d <= 31
  /\ 0 <= hour d <= 23 /\ 0 <= minute d <= 59 /\ 0 <= second d <= 59
  /\ 0 <= microsecond d <= 999999.
Proof.
  unfold datetime_valid. intros H.
  repeat (apply andb_prop in H as [H ?]).
  repeat match goal with
         | H : (_ <=? _) = true |- _ => apply Z.leb_le in H
         end.
  pose proof (days_in_month_le (year d) (month d)). lia.
Qed.

(** [strptime] reads back a text with every field padded. *)
Lemma strptime_isoformat (d : datetime) :
  datetime_valid d = true -> strptime_FORMAT (isoformat_microseconds d) = Ok d.
Proof.
  intros Hvalid.
  destruct (datetime_valid_bounds d Hvalid) as (Hy & Hmo & Hd & Hh & Hmi & Hs & Hus).
  unfold strptime_FORMAT, isoformat_microseconds.
  rewrite read_digits_zfill. cbn.
  rewrite (read_field_zfill 1 12 1 (month d)) by lia. cbn.
  unfold read_day. rewrite (read_field_zfill 1 31 1 (day d)) by lia. cbn.
  rewrite lstrip_zfill. change (Py.is_space " ") with true. cbn.
  rewrite (read_field_zfill 0 23 0 (hour d)) by lia. cbn.
  rewrite (read_field_zfill 0 59 0 (minute d)) by lia. cbn.
  rewrite (read_field_zfill 0 61 0 (second d)) by lia. cbn.
  rewrite read_upto_zfill. cbn.
  change (10 ^ Z.of_nat 4) with 10000. change (10 ^ Z.of_nat 6) with 1000000.
  change (10 ^ Z.of_nat 0) with 1.
  rewrite !Z.mod_small by lia.
  replace (0 * 10000 + year d) with (year d) by lia.
  replace ((0 * 1000000 + microsecond d) * 1) with (microsecond d) by lia.
  destruct d; cbn in *. rewrite Hvalid. reflexivity.
Qed.

End DatetimeText.

Lemma json_dumps_datetime (d : datetime) :
  json_dumps (ODatetime d)
  = Ok (JObject [(DATETIME_MAGIC_TOKEN, JStr (strftime_FORMAT d))]).
Proof. reflexivity. Qed.

Lemma json_dumps_state (s : MonitorState) :
  json_dumps (OMonitorState s)
  = Ok (JObject [(MONITORSTATE_MAGIC_TOKEN, JStr (MonitorState_name s))]).
Proof. reflexivity. Qed.


Lemma json_loads_datetime (d : datetime) :
  datetime_valid d = true -> 1000 <= year d ->
  json_loads (JObject [(DATETIME_MAGIC_TOKEN, JStr (strftime_FORMAT d))]) = Ok (ODatetime d).
Proof.
  intros Hvalid Hy.
  destruct (datetime_valid_bounds d Hvalid) as (Hy' & _).
  rewrite strftime_four_digit_year by lia.
  unfold json_loads, JSONDecoder_decode, decode, object_pairs_hook.
  cbn [mbind Result_bind hd fst snd length Nat.eqb is_str str_value andb].
  change (String.eqb DATETIME_MAGIC_TOKEN DATETIME_MAGIC_TOKEN) with true.
  rewrite re_match_isoformat, (strptime_isoformat d Hvalid). reflexivity.
Qed.

Lemma json_loads_state (s : MonitorState) :
  json_loads (JObject [(MONITORSTATE_MAGIC_TOKEN, JStr (MonitorState_name s))])
  = Ok (OMonitorState s).
Proof. destruct s; reflexivity. Qed.





(** ** The option resolver *)

Section ConfigOption.

Variables (exception : ExcClass) (key : string) (kwargs : Kwargs).

(** A list of [int] parses when every piece does. *)
Lemma int_list_parse (pieces : list string) :
  match Result_map (fun x => match Py.int_of_str x with
                             | Some n => Ok (VInt n)
                             | None => Err (Raise ValueError (Text x))
                             end) pieces with
  | Ok l =>
      existsb (fun piece => bool_decide (Py.int_of_str piece = None)) pieces = false
      /\ l = map VInt (omap Py.int_of_str pieces)
  | Err _ =>
      existsb (fun piece => bool_decide (Py.int_of_str piece = None)) pieces = true
  end.
Proof.
  induction pieces as [|x pieces IH]; [done|].
  cbn [Result_map omap list_omap existsb].
  destruct (Py.int_of_str x) as [n|] eqn:Ex; cbn; [|done].
  destruct (Result_map _ pieces) as [l|e]; cbn; [|done].
  destruct IH as [-> ->]. done.
Qed.

Lemma convert_str_outcome (s : string) :
  let problem := refused_empty kwargs (VStr s) || fails_to_parse kwargs (VStr s)
                 || below_minimum kwargs (VStr s) || above_maximum kwargs (VStr s) in
  match convert_str exception key kwargs s with
  | Ok v => problem = false /\ v = converted kwargs (VStr s)
  | Err e => problem = true /\ exc_class e = exception
  end.
Proof.
  unfold convert_str, refused_empty, fails_to_parse, below_minimum, above_maximum,
    parsed_number, converted, config_error.
  set (rt := kw_required_type kwargs).
  destruct (String.eqb_spec rt "str") as [->|Nstr].
  { cbn. destruct (String.eqb s ""), (kw_allow_empty kwargs); cbn; done. }
  destruct (String.eqb_spec rt "int") as [->|Nint].
  { cbn. destruct (Py.int_of_str s) as [n|]; cbn; [|done].
    destruct (kw_minimum kwargs) as [lo|]; cbn;
      [destruct (Py.num_lt (Py.NInt n) lo); cbn; [done|]|];
      (destruct (kw_maximum kwargs) as [hi|]; cbn;
       [destruct (Py.num_gt (Py.NInt n) hi); cbn; done | done]). }
  destruct (String.eqb_spec rt "float") as [->|Nfloat].
  { cbn. destruct (Py.float_of_str s) as [x|]; cbn; [|done].
    destruct (kw_minimum kwargs) as [lo|]; cbn;
      [destruct (Py.num_lt (Py.NFloat x) lo); cbn; [done|]|];
      (destruct (kw_maximum kwargs) as [hi|]; cbn;
       [destruct (Py.num_gt (Py.NFloat x) hi); cbn; done | done]). }
  destruct (String.eqb_spec rt "[int]") as [->|Nlist].
  { cbn. pose proof (int_list_parse (Py.split "," s)) as H.
    destruct (Result_map _ (Py.split "," s)) as [l|e]; cbn.
    - destruct H as [-> ->]. done.
    - rewrite H. done. }
  assert (Hnum : str_in rt ["int"; "float"] = false).
  { cbn. destruct (String.eqb_spec rt "int"), (String.eqb_spec rt "float"); done. }
  rewrite Hnum. cbn.
  destruct (String.eqb_spec rt "bool") as [->|Nbool]; [done|].
  destruct (String.eqb rt "[str]"); done.
Qed.

(** The check against [allowed_values]. *)
Lemma allowed_check_outcome (value : Value) :
  match (match value, kw_allowed_values kwargs with
         | VList l, Some ((_ :: _) as allowed) =>
             if negb (forallb (fun x => Value_in x allowed) l)
             then config_error exception key NotAllowed
             else Ok tt
         | _, Some allowed =>
             if negb (Value_in value allowed)
             then config_error exception key NotAllowed
             else Ok tt
         | _, None => Ok tt
         end) with
  | Ok _ => not_among_allowed kwargs value = false
  | Err e => not_among_allowed kwargs value = true /\ exc_class e = exception
  end.
Proof.
  unfold not_among_allowed, config_error.
  assert (Hall : forall l allowed,
             existsb (fun x => negb (Value_in x allowed)) l
             = negb (forallb (fun x => Value_in x allowed) l)).
  { intros l allowed. induction l as [|x l IH]; [done|].
    cbn. rewrite IH. destruct (Value_in x allowed); done. }
  destruct (kw_allowed_values kwargs) as [allowed|]; [|destruct value; done].
  destruct value as [| | | | |l]; try (destruct (Value_in _ allowed); done).
  destruct allowed as [|a allowed]; [done|].
  rewrite Hall. destruct (forallb _ l); done.
Qed.

End ConfigOption.

Lemma get_config_option_outcome (config_options : gmap string Value) (key : string)
    (kwargs : Kwargs) :
  let value := resolved config_options key kwargs in
  match get_config_option config_options key kwargs with
  | Ok v => raises_as_coded config_options key kwargs = false
            /\ v = converted kwargs value
  | Err e => raises_as_coded config_options key kwargs = true
             /\ exc_class e = kw_exception kwargs
  end.
Proof.
  unfold get_config_option, raises_as_coded, required_without_value.
  fold (resolved config_options key kwargs).
  set (value := resolved config_options key kwargs).
  destruct (kw_required kwargs && Value_is_None value) eqn:Ereq; [done|].
  cbn [mbind Result_bind orb].
  assert (Hconv :
    match (match value with
           | VStr s => if negb (String.eqb (kw_required_type kwargs) "")
                       then convert_str (kw_exception kwargs) key kwargs s
                       else Ok value
           | _ => Ok value
           end) with
    | Ok v => (refused_empty kwargs value || fails_to_parse kwargs value
               || below_minimum kwargs value || above_maximum kwargs value) = false
              /\ v = converted kwargs value
    | Err e => (refused_empty kwargs value || fails_to_parse kwargs value
                || below_minimum kwargs value || above_maximum kwargs value) = true
               /\ exc_class e = kw_exception kwargs
    end).
  { destruct value as [| | | |s|]; try done.
    destruct (String.eqb_spec (kw_required_type kwargs) "") as [E|E]; cbn [negb].
    - unfold refused_empty, fails_to_parse, below_minimum, above_maximum,
        parsed_number, converted. rewrite E. cbn.
      destruct (kw_minimum kwargs), (kw_maximum kwargs); done.
    - apply convert_str_outcome. }
  destruct (match value with VStr _ => _ | _ => _ end) as [v|e].
  - destruct Hconv as [Hnone ->]. cbn [mbind Result_bind].
    pose proof (allowed_check_outcome (kw_exception kwargs) key kwargs
                  (converted kwargs value)) as Hallowed.
    destruct (match converted kwargs value with VList _ => _ | _ => _ end) as [[]|e].
    + cbn.
      destruct (refused_empty kwargs value), (fails_to_parse kwargs value),
        (below_minimum kwargs value), (above_maximum kwargs value); try done.
    + cbn. destruct Hallowed as [-> ->]. rewrite !orb_true_r. done.
  - cbn. destruct Hconv as [Hsome ->]. split; [|done].
    destruct (refused_empty kwargs value), (fails_to_parse kwargs value),
      (below_minimum kwargs value), (above_maximum kwargs value); done.
Qed.

(** C9, as the code has it: [get_config_option] raises, and then the
    exception class it was given, exactly when the option is required and
    resolves to [None] (no entry and no default, or an entry that is
    [None]), when an empty string is given for a [str] with
    [allow_empty=False], when a string fails to parse as the [int], [float]
    or list of [int] asked for, when the number parsed from a string is
    below the minimum or above the maximum, or when the converted value
    (each element of it, for a list against a non-empty list of allowed
    values) is not among [allowed_values]; in every other case it returns
    the converted or defaulted value. *)
Theorem get_config_option_raises_exactly (config_options : gmap string Value)
    (key : string) (kwargs : Kwargs) :
  let result := get_config_option config_options key kwargs in
  is_Err result = raises_as_coded config_options key kwargs
  /\ (forall e, result = Err e -> exc_class e = kw_exception kwargs)
  /\ (raises_as_coded config_options key kwargs = false ->
      result = Ok (converted kwargs (resolved config_options key kwargs))).
Proof.
  pose proof (get_config_option_outcome config_options key kwargs) as H.
  cbn zeta in *.
  destruct (get_config_option config_options key kwargs) as [v|e].
  - destruct H as [-> ->]. repeat split; done.
  - destruct H as [-> Hclass]. repeat split; [|done].
    intros e' [= <-]. exact Hclass.
Qed.

Lemma get_config_option_raises_exactly_witness :
  raises_as_coded {[ "tolerance" := VStr " 2 " ]} "tolerance"
                  (kwargs_of "int" (VInt 0) (Some (Py.NInt 0))) = false
  /\ get_config_option {[ "tolerance" := VStr " 2 " ]} "tolerance"
                       (kwargs_of "int" (VInt 0) (Some (Py.NInt 0))) = Ok (VInt 2).
Proof.
  split; [reflexivity|].
  exact (proj2 (proj2 (get_config_option_raises_exactly
                         {[ "tolerance" := VStr " 2 " ]} "tolerance"
                         (kwargs_of "int" (VInt 0) (Some (Py.NInt 0)))))
               eq_refl).
Defined.

(** C9 as stated fails on an empty string with [allow_empty=False]: the
    option is not missing, a [str] needs no parsing, no bound and no
    allowed values are given, and [get_config_option] raises all the same. *)
Lemma empty_string_refused :
  raises_as_worded {[ "name" := VStr "" ]} "name" kwargs_refusing_empty = false
  /\ get_config_option {[ "name" := VStr "" ]} "name" kwargs_refusing_empty
     = Err (Raise ValueError (ConfigOption "name" CannotBeEmpty)).
Proof. split; reflexivity. Qed.

(** A required option that is absent but has a default is not an error. *)
Lemma required_default_returned :
  required_and_missing ∅ "name" kwargs_required_with_default = true
  /\ get_config_option ∅ "name" kwargs_required_with_default = Ok (VStr "x").
Proof. split; reflexivity. Qed.

(** The constructor of [Monitor] reads its options through the resolver:
    a tolerance that does not parse or is negative aborts it with a
    [MonitorConfigurationError]. *)
Example negative_tolerance_rejected :
  fst (Monitor_init "m" {[ "tolerance" := "-1" ]} sample_world)
  = Err (Raise MonitorConfigurationError
               (ConfigOption "tolerance" (BelowMinimum (Py.NInt 0)))).
Proof. reflexivity. Qed.

(** *** The options of a monitor *)

(** An option read from a file of strings comes back as its default or as
    the conversion of the string. *)
Lemma Monitor_option_outcome (config_options : gmap string string) (key : string)
    (required_type : string) (d : Value) (minimum : option Py.Num) :
  let kwargs := with_exception MonitorConfigurationError
                  (kwargs_of required_type d minimum) in
  match Monitor_get_config_option config_options key
          (kwargs_of required_type d minimum) with
  | Ok v =>
      match config_options !! key with
      | Some s => v = converted kwargs (VStr s) /\ fails_to_parse kwargs (VStr s) = false
      | None => v = converted kwargs d
      end
  | Err e => exc_class e = MonitorConfigurationError
  end.
Proof.
  intros kwargs. unfold Monitor_get_config_option. fold kwargs.
  pose proof (get_config_option_outcome (VStr <$> config_options) key kwargs) as H.
  cbn zeta in H. unfold raises_as_coded, resolved in H. rewrite lookup_fmap in H.
  destruct (get_config_option (VStr <$> config_options) key kwargs) as [v|e];
    [|apply H].
  destruct H as [Hno ->].
  destruct (config_options !! key) as [s|]; [|reflexivity].
  change (default (kw_default kwargs) (VStr <$> Some s)) with (VStr s) in *.
  split; [reflexivity|].
  destruct (fails_to_parse kwargs (VStr s)); [|reflexivity].
  rewrite !orb_true_r in Hno. cbn [orb] in Hno. rewrite ?orb_true_r in Hno. done.
Qed.

Lemma expect_str_list_stripped (pieces : list string) :
  expect_str_list (VList (map (fun x => VStr (Py.strip x)) pieces))
  = Ok (map Py.strip pieces).
Proof.
  cbn. induction pieces as [|x pieces IH]; [reflexivity|].
  cbn. rewrite IH. reflexivity.
Qed.

(** Reading an option and taking it at the type of its attribute fails
    with a [MonitorConfigurationError] or not at all. *)
Lemma Monitor_option_typed {A} (config_options : gmap string string) (key : string)
    (required_type : string) (d : Value) (minimum : option Py.Num)
    (expect : Value -> Result A) :
  let kwargs := with_exception MonitorConfigurationError
                  (kwargs_of required_type d minimum) in
  (forall s, fails_to_parse kwargs (VStr s) = false ->
             is_Err (expect (converted kwargs (VStr s))) = false) ->
  is_Err (expect (converted kwargs d)) = false ->
  match Monitor_get_config_option config_options key
          (kwargs_of required_type d minimum) ≫= expect with
  | Ok _ => True
  | Err e => exc_class e = MonitorConfigurationError
  end.
Proof.
  intros kwargs Hs Hd.
  pose proof (Monitor_option_outcome config_options key required_type d minimum) as H.
  cbn zeta in H. fold kwargs in H.
  destruct (Monitor_get_config_option _ _ _) as [v|e]; [|exact H].
  cbn [mbind Result_bind].
  destruct (config_options !! key) as [s|].
  - destruct H as [-> H]. specialize (Hs s H).
    destruct (expect _); [done | discriminate Hs].
  - subst v. destruct (expect _); [done | discriminate Hd].
Qed.

(** The constructor fails with a [MonitorConfigurationError] or not at all:
    every option it reads has the type its attribute is given, and a gap
    that passed its minimum passes the setter as well. *)
Lemma Monitor_init_error name config_options w e :
  fst (Monitor_init name config_options w) = Err e ->
  exc_class e = MonitorConfigurationError.
Proof.
  unfold Monitor_init.
  assert (Hbool : forall key b,
             match Monitor_get_config_option config_options key
                     (kwargs_of "bool" (VBool b) None) ≫= expect_bool with
             | Ok _ => True
             | Err e => exc_class e = MonitorConfigurationError
             end)
    by (intros; apply Monitor_option_typed; done).
  assert (Hstr : forall key,
             match Monitor_get_config_option config_options key
                     (kwargs_of "str" VNone None) ≫= expect_optional_str with
             | Ok _ => True
             | Err e => exc_class e = MonitorConfigurationError
             end)
    by (intros; apply Monitor_option_typed; done).
  assert (Hint : forall key,
             match Monitor_get_config_option config_options key
                     (kwargs_of "int" (VInt 0) (Some (Py.NInt 0))) ≫= expect_int with
             | Ok _ => True
             | Err e => exc_class e = MonitorConfigurationError
             end).
  { intros. apply Monitor_option_typed; [|done].
    intros s. unfold fails_to_parse, converted. cbn.
    destruct (Py.int_of_str s); [done|]. rewrite bool_decide_eq_true_2; done. }
  pose proof (Monitor_option_typed config_options "depend" "[str]" (VList []) None
                expect_str_list
                (fun s _ => f_equal is_Err (expect_str_list_stripped (Py.split "," s)))
                eq_refl) as Hdepend.
  pose proof (Monitor_option_typed config_options "group" "str" (VStr "default") None
                expect_str (fun s _ => eq_refl) eq_refl) as Hgroup.
  pose proof (Hbool "urgent" true) as Hurgent.
  pose proof (Hbool "notify" true) as Hnotify.
  pose proof (Hbool "remote_alert" false) as Hremote.
  pose proof (Hstr "recover_command") as Hrecover.
  pose proof (Hstr "recovered_command") as Hrecovered.
  pose proof (Hstr "failure_doc") as Hdoc.
  pose proof (Hint "tolerance") as Htolerance.
  pose proof (Hint "gap") as Hgap.
  pose proof (int_option_bounds config_options "gap" 0 0) as Hbound.
  cbn zeta in *.
  destruct (_ ≫= expect_str_list) as [?|?]; [|intros [= <-]; done].
  cbn [mbind Result_bind].
  destruct (Monitor_get_config_option config_options "urgent" _ ≫= expect_bool)
    as [?|?]; [|intros [= <-]; done].
  cbn [mbind Result_bind].
  destruct (Monitor_get_config_option config_options "notify" _ ≫= expect_bool)
    as [?|?]; [|intros [= <-]; done].
  cbn [mbind Result_bind].
  destruct (_ ≫= expect_str) as [?|?]; [|intros [= <-]; done].
  cbn [mbind Result_bind].
  destruct (Monitor_get_config_option config_options "tolerance" _ ≫= expect_int)
    as [?|?]; [|intros [= <-]; done].
  cbn [mbind Result_bind].
  destruct (Monitor_get_config_option config_options "remote_alert" _ ≫= expect_bool)
    as [?|?]; [|intros [= <-]; done].
  cbn [mbind Result_bind].
  destruct (Monitor_get_config_option config_options "recover_command" _
            ≫= expect_optional_str) as [?|?]; [|intros [= <-]; done].
  cbn [mbind Result_bind].
  destruct (Monitor_get_config_option config_options "recovered_command" _
            ≫= expect_optional_str) as [?|?]; [|intros [= <-]; done].
  cbn [mbind Result_bind].
  destruct (Monitor_get_config_option config_options "gap" _) as [v|?];
    [|intros [= <-]; done].
  destruct (Hbound v eq_refl) as (n & -> & Hn).
  cbn [mbind Result_bind expect_int]. unfold check_minimum_gap.
  destruct (Z.ltb_spec n 0); [lia|].
  cbn [mbind Result_bind].
  destruct (Monitor_get_config_option config_options "failure_doc" _
            ≫= expect_optional_str) as [?|?]; [|intros [= <-]; done].
  discriminate.
Qed.

(** ** More on up- and downtime *)

(** X1: [from_timedelta] loses no time.  For a [timedelta] (whose seconds
    are within a day) the days are carried over and the hours, minutes and
    seconds add up to the seconds of the [timedelta]; the hours stay within
    0..23, the minutes and the seconds within 0..60, and 60 shows up only
    in place of the next unit: 60 minutes with no hour and no second, 60
    seconds with no minute. *)
Theorem from_timedelta_adds_up (td : timedelta) :
  0 <= td_seconds td < 86400 ->
  let u := from_timedelta (Some td) in
  days u = td_days td
  /\ hours u * 3600 + minutes u * 60 + seconds u = td_seconds td
  /\ 0 <= hours u <= 23
  /\ 0 <= minutes u <= 60
  /\ 0 <= seconds u <= 60
  /\ (minutes u = 60 -> hours u = 0 /\ seconds u = 0)
  /\ (seconds u = 60 -> minutes u = 0).
Proof.
  intros Hs. unfold from_timedelta, Py.divmod.
  set (s := td_seconds td) in *.
  pose proof (Z.div_mod s 3600 ltac:(lia)) as Es.
  pose proof (Z.mod_pos_bound s 3600 ltac:(lia)) as Hr.
  pose proof (Z.div_mod s 60 ltac:(lia)) as Es'.
  pose proof (Z.mod_pos_bound s 60 ltac:(lia)) as Hr'.
  pose proof (Z.div_mod (s mod 3600) 60 ltac:(lia)) as Er.
  pose proof (Z.mod_pos_bound (s mod 3600) 60 ltac:(lia)) as Hr''.
  destruct (Z.gtb_spec s 3600) as [Hh|Hh].
  - destruct (Z.gtb_spec (s mod 3600) 60) as [Hm|Hm]; cbn; repeat split; lia.
  - destruct (Z.gtb_spec s 60) as [Hm|Hm]; cbn; repeat split; lia.
Qed.

Lemma from_timedelta_adds_up_witness :
  0 <= td_seconds (mk_timedelta 0 3600 0) < 86400
  /\ minutes (from_timedelta (Some (mk_timedelta 0 3600 0))) * 60 = 3600.
Proof.
  assert (H : 0 <= td_seconds (mk_timedelta 0 3600 0) < 86400)
    by (change (0 <= 3600 < 86400); lia).
  split; [exact H|].
  pose proof (from_timedelta_adds_up (mk_timedelta 0 3600 0) H) as (_ & E & _).
  exact E.
Defined.

Lemma datetime_sub_seconds (now since : datetime) :
  0 <= td_seconds (datetime_sub now since) < 86400.
Proof. unfold datetime_sub. apply mk_timedelta_seconds. Qed.

(** The reading of a clock less a time stamp, as [from_timedelta] shows
    it. *)
Lemma from_timedelta_datetime_sub (now since : datetime) :
  let u := from_timedelta (Some (datetime_sub now since)) in
  days u = td_days (datetime_sub now since)
  /\ 0 <= hours u <= 23 /\ 0 <= minutes u <= 60 /\ 0 <= seconds u <= 60.
Proof.
  pose proof (datetime_sub_seconds now since) as Hs.
  unfold from_timedelta, Py.divmod.
  set (s := td_seconds (datetime_sub now since)) in *.
  pose proof (Z.mod_pos_bound s 3600 ltac:(lia)) as Hr.
  pose proof (Z.mod_pos_bound s 60 ltac:(lia)) as Hr'.
  pose proof (Z.mod_pos_bound (s mod 3600) 60 ltac:(lia)) as Hr''.
  destruct (Z.gtb_spec s 3600) as [Hh|Hh];
    [destruct (Z.gtb_spec (s mod 3600) 60) as [Hm|Hm]
    |destruct (Z.gtb_spec s 60) as [Hm|Hm]]; cbn; repeat split; try lia.
  all: try (apply Z.div_pos; lia).
  all: apply Z.lt_succ_r, Z.div_lt_upper_bound; lia.
Qed.

(** X2: [get_downtime] and [get_uptime] never raise and leave the monitor
    as it is.  Without a failure time (a start of uptime) they give
    [0+00:00:00] and do not read the clock; with one they read it once, and
    whatever it reads, be it earlier than the time stamp, the hours are
    within 0..23 and the minutes and seconds within 0..60: only the days
    can be negative. *)
Theorem downtime_within_the_day (m : Monitor) (w : World) :
  let shown (since : option datetime) (r : Result UpDownTime * (Monitor * World)) :=
    exists u, r = (Ok u, (m, match since with Some _ => tick w | None => w end))
      /\ (since = None -> u = UpDownTime_default)
      /\ (forall t, since = Some t ->
            days u = td_days (datetime_sub (utcnow_at w (clock_reads w)) t))
      /\ 0 <= hours u <= 23 /\ 0 <= minutes u <= 60 /\ 0 <= seconds u <= 60 in
  shown (first_failure_time m) (get_downtime (m, w))
  /\ shown (uptime_start m) (get_uptime (m, w)).
Proof.
  cbn zeta. split.
  - unfold get_downtime, first_failure_time; run_M.
    destruct (_failed_at m) as [t|]; cbn.
    + eexists. split; [reflexivity|].
      destruct (from_timedelta_datetime_sub (utcnow_at w (clock_reads w)) t)
        as (? & ? & ? & ?).
      repeat split; try lia; try discriminate. intros ? [= <-]. assumption.
    + eexists. split; [reflexivity|]. repeat split; cbn; try done; lia.
  - unfold get_uptime, uptime; run_M.
    destruct (uptime_start m) as [t|]; cbn.
    + eexists. split; [reflexivity|].
      destruct (from_timedelta_datetime_sub (utcnow_at w (clock_reads w)) t)
        as (? & ? & ? & ?).
      repeat split; try lia; try discriminate. intros ? [= <-]. assumption.
    + eexists. split; [reflexivity|]. repeat split; cbn; try done; lia.
Qed.

(** *** [format_datetime] *)

(** On a whole second [isoformat] with microseconds writes what
    [format_datetime] does, and a fraction of zeros. *)
Lemma isoformat_whole_second (d : datetime) :
  isoformat_microseconds (replace_microsecond 0 d)
  = format_datetime (Some d) +:+ ".000000".
Proof. reflexivity. Qed.

Lemma replace_microsecond_valid (d : datetime) :
  datetime_valid d = true -> datetime_valid (replace_microsecond 0 d) = true.
Proof.
  unfold datetime_valid. destruct d; cbn [year month day hour minute second microsecond
                                           replace_microsecond].
  rewrite !andb_true_iff. intuition.
Qed.

(** X3: [format_datetime] drops the microseconds and nothing else.  The
    text of a valid datetime has 19 characters, so it is never the empty
    string that stands for [None], and two valid datetimes have the same
    text exactly when they agree up to their microseconds. *)
Theorem format_datetime_tells_apart (a b : datetime) :
  datetime_valid a = true -> datetime_valid b = true ->
  String.length (format_datetime (Some a)) = 19%nat
  /\ format_datetime (Some a) <> format_datetime None
  /\ (format_datetime (Some a) = format_datetime (Some b)
      <-> replace_microsecond 0 a = replace_microsecond 0 b).
Proof.
  intros Ha Hb. split; [reflexivity|]. split; [discriminate|]. split.
  - intros E.
    pose proof (strptime_isoformat _ (replace_microsecond_valid a Ha)) as Pa.
    pose proof (strptime_isoformat _ (replace_microsecond_valid b Hb)) as Pb.
    rewrite isoformat_whole_second in Pa, Pb. rewrite E in Pa.
    congruence.
  - intros E. unfold format_datetime. rewrite E. reflexivity.
Qed.

Lemma format_datetime_tells_apart_witness :
  datetime_valid (Datetime 2020 2 29 23 59 58 123456) = true
  /\ datetime_valid (Datetime 2020 2 29 23 59 58 7) = true
  /\ format_datetime (Some (Datetime 2020 2 29 23 59 58 123456))
     = format_datetime (Some (Datetime 2020 2 29 23 59 58 7)).
Proof.
  split; [reflexivity|]. split; [reflexivity|].
  apply (format_datetime_tells_apart (Datetime 2020 2 29 23 59 58 123456)
           (Datetime 2020 2 29 23 59 58 7)); reflexivity.
Defined.

(** ** More on the utilities *)

(** *** [get_config_dict] *)

Lemma get_config_dict_fold (options : list (string * string))
    (ret : gmap string string) (key : string) :
  key ∉ options.*1 ->
  fold_left (fun ret '(key, value) => <[key := value]> ret) options ret !! key
  = ret !! key.
Proof.
  revert ret. induction options as [|[k v] options IH]; intros ret Hkey; [reflexivity|].
  cbn in *. apply not_elem_of_cons in Hkey as [Hne Hkey].
  rewrite IH by assumption. apply lookup_insert_ne. congruence.
Qed.

(** X4: [get_config_dict] keeps, for every key, the value of its last
    pair: a key that no pair has is not in the dict, and a pair that no
    later pair of the same key follows gives the key its value. *)
Theorem get_config_dict_last_wins (options : list (string * string)) (key : string) :
  (key ∉ options.*1 -> get_config_dict options !! key = None)
  /\ (forall before value later,
        options = before ++ (key, value) :: later -> key ∉ later.*1 ->
        get_config_dict options !! key = Some value).
Proof.
  unfold get_config_dict. split.
  - intros Hkey. rewrite get_config_dict_fold by assumption. apply lookup_empty.
  - intros before value later -> Hkey.
    rewrite fold_left_app. cbn [fold_left].
    rewrite get_config_dict_fold by assumption. apply lookup_insert_eq.
Qed.

(** *** The handler of subclasses *)

Section Dict.

Context {V : Type}.

Lemma getitem_setitem (k : string) (v : V) (d : list (string * V)) :
  getitem k (setitem k v d) = Ok v.
Proof.
  induction d as [|[k' v'] d IH]; cbn.
  - rewrite String.eqb_refl. reflexivity.
  - destruct (String.eqb_spec k k') as [->|Hne]; cbn.
    + rewrite String.eqb_refl. reflexivity.
    + destruct (String.eqb_spec k k'); [done | exact IH].
Qed.

Lemma getitem_setitem_ne (k k0 : string) (v : V) (d : list (string * V)) :
  k0 <> k -> getitem k0 (setitem k v d) = getitem k0 d.
Proof.
  intros Hne. induction d as [|[k' v'] d IH]; cbn.
  - destruct (String.eqb_spec k0 k); [done | reflexivity].
  - destruct (String.eqb_spec k k') as [->|Hk]; cbn.
    + destruct (String.eqb_spec k0 k'); [done | reflexivity].
    + rewrite IH. reflexivity.
Qed.

Lemma setitem_keys (k : string) (v : V) (d : list (string * V)) :
  (setitem k v d).*1 = if bool_decide (k ∈ d.*1) then d.*1 else d.*1 ++ [k].
Proof.
  induction d as [|[k' v'] d IH]; [reflexivity|].
  cbn. destruct (String.eqb_spec k k') as [->|Hk]; cbn.
  - rewrite bool_decide_eq_true_2 by apply list_elem_of_here. reflexivity.
  - rewrite IH. destruct (decide (k ∈ d.*1)) as [Hin|Hin].
    + rewrite !bool_decide_eq_true_2; [reflexivity | apply elem_of_cons; auto | done].
    + rewrite !bool_decide_eq_false_2; [reflexivity | | done].
      rewrite elem_of_cons. intros [?|?]; done.
Qed.

Lemma getitem_keys (k : string) (d : list (string * V)) :
  (exists v, getitem k d = Ok v) <-> k ∈ d.*1.
Proof.
  induction d as [|[k' v'] d IH]; cbn.
  - split; [intros [? ?]; discriminate | intros ?%elem_of_nil; done].
  - destruct (String.eqb_spec k k') as [->|Hk].
    + split; [intros _; apply list_elem_of_here | eauto].
    + rewrite IH, elem_of_cons. split; [auto | intros [?|?]; done].
Qed.

Lemma getitem_elem_of (k : string) (v : V) (d : list (string * V)) :
  getitem k d = Ok v -> (k, v) ∈ d.
Proof.
  induction d as [|[k' v'] d IH]; cbn; [discriminate|].
  destruct (String.eqb_spec k k') as [->|Hk].
  - intros [= ->]. apply list_elem_of_here.
  - intros ?. apply list_elem_of_further. auto.
Qed.

End Dict.

(** What [register] does, case by case. *)
Lemma register_cases (cls : option PyClass) (h : Handler) :
  match register cls h with
  | (Ok c, h') =>
      cls = Some c /\ issubclass c (handler_base_cls h) = true
      /\ exists type_, class__type c = Some type_ /\ type_ <> "unknown"
           /\ h' = {| handler_mod := handler_mod h;
                      handler_base_cls := handler_base_cls h;
                      _subclasses := setitem type_ c (_subclasses h) |}
  | (Err e, h') =>
      h' = h
      /\ (exc_class e = TypeError
          <-> match cls with
              | Some c => issubclass c (handler_base_cls h) = false
              | None => True
              end)
  end.
Proof.
  unfold register, _check_is_subclass.
  destruct cls as [c|]; [|done].
  destruct (issubclass c (handler_base_cls h)) eqn:Hsub; cbn; [|done].
  destruct (class__type c) as [type_|] eqn:Ht; [|done].
  destruct (String.eqb_spec type_ "unknown") as [->|Hne]; [done|].
  repeat split; eauto.
Qed.

(** X5: [register] and [get_class].  A call of [register] that returns
    hands back the class it was given, which is a subclass of the handler's
    base class with a [_type] other than ["unknown"]; from then on
    [get_class] of that [_type] gives this class, replacing any class
    registered under it before, and [get_class] of any other type is as it
    was.  A call that raises leaves the handler as it was; it raises
    [TypeError] exactly when the argument is [None] or no subclass of the
    base class, so the [cls is None] test that follows never decides. *)
Theorem register_then_get_class (cls : option PyClass) (h : Handler) :
  (forall c, fst (register cls h) = Ok c ->
     let h' := snd (register cls h) in
     cls = Some c
     /\ issubclass c (handler_base_cls h) = true
     /\ exists type_,
          class__type c = Some type_ /\ type_ <> "unknown"
          /\ get_class type_ h' = Ok c
          /\ (forall other, other <> type_ -> get_class other h' = get_class other h)
          /\ type_ ∈ all_types h')
  /\ (forall e, fst (register cls h) = Err e ->
        snd (register cls h) = h
        /\ (exc_class e = TypeError
            <-> match cls with
                | Some c => issubclass c (handler_base_cls h) = false
                | None => True
                end)).
Proof.
  pose proof (register_cases cls h) as H.
  destruct (register cls h) as [[c|e] h']; cbn [fst snd]; split; try done.
  - intros c' [= <-]. destruct H as (-> & Hsub & type_ & Ht & Hne & ->).
    cbn zeta. repeat split; try done.
    exists type_. unfold get_class, all_types. cbn.
    repeat split; try done.
    + apply getitem_setitem.
    + intros other Hother. apply getitem_setitem_ne, Hother.
    + apply getitem_keys. eexists. apply getitem_setitem.
  - intros e' [= <-]. exact H.
Qed.

Lemma register_then_get_class_witness :
  fst (register (Some (class_object class_MonitorNull))
         (subclass_dict_handler "simplemonitor.Monitors.monitor" (class_object class_Monitor)))
  = Ok (class_object class_MonitorNull)
  /\ get_class "null"
       (snd (register (Some (class_object class_MonitorNull))
               (subclass_dict_handler "simplemonitor.Monitors.monitor"
                  (class_object class_Monitor))))
     = Ok (class_object class_MonitorNull).
Proof.
  split; [reflexivity|].
  destruct (proj1 (register_then_get_class (Some (class_object class_MonitorNull))
                     (subclass_dict_handler "simplemonitor.Monitors.monitor"
                        (class_object class_Monitor)))
                  (class_object class_MonitorNull) eq_refl)
    as (_ & _ & type_ & Ht & _ & Hg & _).
  injection Ht as <-. exact Hg.
Defined.

Lemma registered_ok (classes done_ : list (option PyClass)) (base_cls : PyClass)
    (h : Handler) :
  Handler_ok done_ base_cls h ->
  Handler_ok (done_ ++ classes) base_cls (registered classes h).
Proof.
  revert done_ h. induction classes as [|cls classes IH]; intros done_ h Hok.
  - rewrite app_nil_r. exact Hok.
  - cbn [registered fold_left].
    replace (done_ ++ cls :: classes) with ((done_ ++ [cls]) ++ classes)
      by (rewrite <- app_assoc; reflexivity).
    apply IH.
    pose proof (register_cases cls h) as H.
    destruct Hok as [Hb Hn Ht].
    destruct (register cls h) as [[c|e] h']; cbn [snd].
    + destruct H as (-> & Hsub & type_ & Htype & Hne & ->).
      split; cbn.
      * exact Hb.
      * unfold all_types in *. cbn. rewrite setitem_keys.
        destruct (decide (type_ ∈ (_subclasses h).*1)) as [Hin|Hin].
        -- rewrite bool_decide_eq_true_2 by done. exact Hn.
        -- rewrite bool_decide_eq_false_2 by done.
           apply NoDup_app. repeat split; [exact Hn | | apply NoDup_singleton].
           intros x Hx ->%list_elem_of_singleton. done.
      * intros t c' Hin.
        assert (Hcase : (t = type_ /\ c' = c) \/ (t, c') ∈ _subclasses h).
        { clear -Hin. induction (_subclasses h) as [|[k v] d IHd]; cbn in Hin.
          - apply list_elem_of_singleton in Hin as [= -> ->]. auto.
          - destruct (String.eqb_spec type_ k) as [->|Hk].
            + apply elem_of_cons in Hin as [[= -> ->]|Hin]; [auto|].
              right. apply list_elem_of_further, Hin.
            + apply elem_of_cons in Hin as [[= -> ->]|Hin].
              * right. apply list_elem_of_here.
              * destruct (IHd Hin) as [?|?]; [auto|].
                right. apply list_elem_of_further. assumption. }
        destruct Hcase as [[-> ->]|Hold].
        -- rewrite <- Hb. repeat split; try done.
           apply elem_of_app. right. apply list_elem_of_singleton. reflexivity.
        -- destruct (Ht t c' Hold) as (? & ? & ? & ?).
           repeat split; try done. apply elem_of_app. auto.
    + destruct H as [-> _]. split; [exact Hb | exact Hn |].
      intros t c' Hin. destruct (Ht t c' Hin) as (? & ? & ? & ?).
      repeat split; try done. apply elem_of_app. auto.
Qed.

(** X6: a handler after any row of [register] calls.  [all_types] lists
    no type twice and never ["unknown"], [get_class] returns for exactly the
    types that [all_types] lists and raises [KeyError] for every other, and
    the class it returns is one that was passed to [register], bears that
    type as its [_type] and is a subclass of the base class. *)
Theorem registered_handler (mod_ : string) (base_cls : PyClass)
    (classes : list (option PyClass)) (type_ : string) :
  let h := registered classes (subclass_dict_handler mod_ base_cls) in
  NoDup (all_types h)
  /\ ("unknown" ∉ all_types h)
  /\ ((exists c, get_class type_ h = Ok c) <-> type_ ∈ all_types h)
  /\ (type_ ∉ all_types h -> get_class type_ h = Err (Raise KeyError (Text type_)))
  /\ (forall c, get_class type_ h = Ok c ->
        Some c ∈ classes /\ class__type c = Some type_
        /\ issubclass c base_cls = true).
Proof.
  intros h.
  assert (Hok : Handler_ok classes base_cls h).
  { apply (registered_ok classes [] base_cls). split; cbn.
    - reflexivity.
    - apply NoDup_nil_2.
    - intros ? ? ?%elem_of_nil. done. }
  destruct Hok as [Hb Hn Ht].
  split; [exact Hn|]. split; [|split; [|split]].
  - unfold all_types. intros Hin.
    apply list_elem_of_fmap in Hin as ([t c] & E & Hin). cbn in E. subst t.
    destruct (Ht _ _ Hin) as (_ & Hne & _). done.
  - apply getitem_keys.
  - unfold get_class, all_types. generalize (_subclasses h). intros d Hnot.
    induction d as [|[k v] d IH]; [reflexivity|]. cbn in *.
    apply not_elem_of_cons in Hnot as [Hk Hnot].
    destruct (String.eqb_spec type_ k); [done | auto].
  - intros c Hc. apply getitem_elem_of in Hc.
    destruct (Ht _ _ Hc) as (? & ? & ? & ?). done.
Qed.

(** The module's own handler: the two subclasses, in the order of their
    definition; [Monitor] itself cannot be registered. *)
Example monitor_handler_types :
  all_types monitor_handler = ["fail"; "null"]
  /\ get_class "fail" monitor_handler = Ok (class_object class_MonitorFail)
  /\ get_class "null" monitor_handler = Ok (class_object class_MonitorNull)
  /\ fst (register (Some (class_object class_Monitor)) monitor_handler)
     = Err (Raise ValueError (Text "Cannot register this class")).
Proof. repeat split. Qed.

(** *** [short_hostname] *)

Lemma split_cons (sep c : ascii) (s : string) :
  Py.split sep (String c s)
  = if Ascii.eqb c sep then "" :: Py.split sep s
    else match Py.split sep s with
         | piece :: rest => String c piece :: rest
         | [] => [String c ""]
         end.
Proof. reflexivity. Qed.

Lemma split_not_nil (sep : ascii) (s : string) : Py.split sep s <> [].
Proof.
  destruct s as [|c s]; [done|]. rewrite split_cons.
  destruct (Ascii.eqb c sep); [done|]. destruct (Py.split sep s); done.
Qed.

(** The first piece of a split is what comes before the first separator. *)
Lemma split_first_piece (sep : ascii) (s : string) :
  let piece := hd "" (Py.split sep s) in
  ~ In sep (String.list_ascii_of_string piece)
  /\ (s = piece \/ exists rest, s = piece +:+ String sep rest).
Proof.
  induction s as [|c s IH].
  - cbn. tauto.
  - rewrite split_cons.
    destruct (Ascii.eqb_spec c sep) as [->|Hc]; cbn zeta.
    + cbn. split; [tauto|]. right. exists s. reflexivity.
    + cbn zeta in IH.
      destruct (Py.split sep s) as [|piece pieces] eqn:Es;
        [exfalso; exact (split_not_nil _ _ Es)|].
      cbn in *. destruct IH as [Hnot Hs]. split.
      * intros [?|?]; [congruence | tauto].
      * destruct Hs as [->|[rest ->]]; [left | right; exists rest]; reflexivity.
Qed.

Lemma append_nil_r (s : string) : s +:+ "" = s.
Proof. induction s as [|c s IH]; cbn; [reflexivity | rewrite IH; reflexivity]. Qed.

Lemma In_append_sep (a b : string) (sep : ascii) :
  In sep (String.list_ascii_of_string (a +:+ String sep b)).
Proof. induction a as [|c a IH]; cbn; auto. Qed.

(** A name with a dot put after it, cut at a dot. *)
Lemma cut_at_dot (g piece rest : string) :
  g +:+ "." = piece +:+ String "." rest ->
  (rest = "" /\ g = piece)
  \/ (exists domain, g = piece +:+ String "." domain).
Proof.
  revert g. induction piece as [|x piece IH]; intros [|y g]; cbn.
  - intros [= <-]. left. done.
  - intros [= -> _]. right. exists g. reflexivity.
  - intros [= _ E]. destruct piece; discriminate.
  - intros [= -> E].
    destruct (IH g E) as [[-> ->]|[domain ->]]; [left | right; exists domain]; done.
Qed.

(** X7: [short_hostname] is the host name up to its first dot, which is
    the whole of it when it has none: no dot is in the short name, and the
    host name is the short name followed by nothing or by a dot and more. *)
Theorem short_hostname_up_to_the_dot (w : World) :
  ~ In "."%char (String.list_ascii_of_string (short_hostname w))
  /\ (gethostname w = short_hostname w
      \/ exists domain, gethostname w = short_hostname w +:+ String "." domain)
  /\ (~ In "."%char (String.list_ascii_of_string (gethostname w)) ->
      short_hostname w = gethostname w).
Proof.
  unfold short_hostname.
  destruct (split_first_piece "." (gethostname w +:+ ".")) as [Hnot Hcut].
  set (short := hd "" (Py.split "." (gethostname w +:+ "."))) in *.
  assert (Hg : gethostname w = short
               \/ exists domain, gethostname w = short +:+ String "." domain).
  { destruct Hcut as [E|[rest E]].
    - exfalso. apply Hnot. rewrite <- E. apply In_append_sep.
    - destruct (cut_at_dot _ _ _ E) as [[_ ?]|?]; auto. }
  split; [exact Hnot|]. split; [exact Hg|].
  intros Hnone. destruct Hg as [E|[domain E]]; [done|].
  exfalso. apply Hnone. rewrite E. apply In_append_sep.
Qed.

(** *** More on [get_config_option] *)

(** X8: [get_config_option] converts and checks strings only.  A value
    that is no string, be it the default or an entry of the dict, is
    returned as it is when no allowed values are given (and it is not a
    [None] for a required option): neither the required type nor the
    minimum or the maximum bears on it. *)
Theorem get_config_option_unconverted (config_options : gmap string Value)
    (key : string) (kwargs : Kwargs) (value : Value) :
  default (kw_default kwargs) (config_options !! key) = value ->
  (forall s, value <> VStr s) ->
  (kw_required kwargs = true -> value <> VNone) ->
  kw_allowed_values kwargs = None ->
  get_config_option config_options key kwargs = Ok value.
Proof.
  intros Hvalue Hstr Hreq Hallowed. unfold get_config_option.
  rewrite Hvalue, Hallowed.
  destruct (kw_required kwargs) eqn:Er; cbn [andb].
  - specialize (Hreq eq_refl).
    destruct value as [| | | |s|]; cbn; try done. destruct (Hstr s eq_refl).
  - destruct value as [| | | |s|]; cbn; try done. destruct (Hstr s eq_refl).
Qed.

Lemma get_config_option_unconverted_witness :
  get_config_option ∅ "interval" (kwargs_of "int" (VInt 0) (Some (Py.NInt 1)))
  = Ok (VInt 0).
Proof.
  apply (get_config_option_unconverted ∅ "interval"
           (kwargs_of "int" (VInt 0) (Some (Py.NInt 1))) (VInt 0));
    [reflexivity | discriminate | discriminate | reflexivity].
Defined.

(** X9: an [int] option read from a string is within its bounds.  When
    the entry is a string and the required type is ["int"], a call that
    returns gives the integer the string parses to, which is not below an
    [int] minimum and not above an [int] maximum, if such are given. *)
Theorem int_option_within_bounds (config_options : gmap string Value)
    (key : string) (kwargs : Kwargs) (s : string) (v : Value) :
  config_options !! key = Some (VStr s) ->
  kw_required_type kwargs = "int" ->
  get_config_option config_options key kwargs = Ok v ->
  exists n, v = VInt n /\ Py.int_of_str s = Some n
    /\ (forall lo, kw_minimum kwargs = Some (Py.NInt lo) -> lo <= n)
    /\ (forall hi, kw_maximum kwargs = Some (Py.NInt hi) -> n <= hi).
Proof.
  intros Hentry Htype. unfold get_config_option. rewrite Hentry, Htype.
  cbn [default from_option Value_is_None andb negb String.eqb Ascii.eqb Bool.eqb
       mbind Result_bind].
  rewrite andb_false_r. cbn [mbind Result_bind].
  unfold convert_str. rewrite Htype. cbn.
  destruct (Py.int_of_str s) as [n|]; cbn; [|discriminate].
  assert (Hlo : forall lo, Py.num_lt (Py.NInt n) (Py.NInt lo) = false -> lo <= n).
  { unfold Py.num_lt. cbn. intros lo. destruct (Z.compare_spec n lo); try done; lia. }
  assert (Hhi : forall hi, Py.num_gt (Py.NInt n) (Py.NInt hi) = false -> n <= hi).
  { unfold Py.num_gt. cbn. intros hi. destruct (Z.compare_spec n hi); try done; lia. }
  destruct (kw_minimum kwargs) as [minimum|] eqn:Emin; cbn;
    [destruct (Py.num_lt (Py.NInt n) minimum) eqn:Elt; cbn; [discriminate|]|];
    (destruct (kw_maximum kwargs) as [maximum|] eqn:Emax; cbn;
     [destruct (Py.num_gt (Py.NInt n) maximum) eqn:Egt; cbn; [discriminate|]|]).
  all: intros Hv; assert (v = VInt n) as ->
         by (repeat case_match; simplify_eq; cbn in *; congruence).
  all: exists n; repeat split; intros ? [= ->]; auto.
Qed.

Lemma int_option_within_bounds_witness :
  exists n, VInt 7 = VInt n /\ Py.int_of_str " +7 " = Some n
    /\ (forall lo, Some (Py.NInt 1) = Some (Py.NInt lo) -> lo <= n)
    /\ (forall hi, @None Py.Num = Some (Py.NInt hi) -> n <= hi).
Proof.
  apply (int_option_within_bounds {[ "interval" := VStr " +7 " ]} "interval"
           (kwargs_of "int" (VInt 5) (Some (Py.NInt 1))) " +7 " (VInt 7));
    reflexivity.
Defined.

(** ** More on monitors *)

(** *** The constructor *)

(** A monitor that was constructed, attribute by attribute. *)
Lemma Monitor_init_Ok name config_options w m w' :
  Monitor_init name config_options w = (Ok m, w') ->
  w' = tick w
  /\ exists v_dependencies v_urgent v_notify v_group v_tolerance v_remote_alerting
       v_recover_command v_recovered_command v_minimum_gap v_failure_doc,
       Monitor_get_config_option config_options "depend" (kwargs_of "[str]" (VList []) None)
         ≫= expect_str_list = Ok v_dependencies
       /\ m = {| name := name;
                 _config_options := config_options;
                 _deps := [];
                 monitor_logger := "simplemonitor.monitor-" +:+ name;
                 _dependencies := v_dependencies;
                 _urgent := v_urgent;
                 _notify := v_notify;
                 group := v_group;
                 _tolerance := v_tolerance;
                 remote_alerting := v_remote_alerting;
                 _recover_command := v_recover_command;
                 _recovered_command := v_recovered_command;
                 recover_info := "";
                 recovered_info := "";
                 _minimum_gap := v_minimum_gap;
                 failure_doc := v_failure_doc;
                 running_on := short_hostname w;
                 _state := UNKNOWN;
                 _force_run := true;
                 _first_load := Some (utcnow_at w (clock_reads w));
                 _last_run := None;
                 last_result := "";
                 error_count := 0;
                 _failed_at := None;
                 success_count := 0;
                 tests_run := 0;
                 last_error_count := 0;
                 last_run_duration := 0;
                 skip_dep := None;
                 failures := 0;
                 last_failure := None;
                 uptime_start := None;
                 last_update := None;
                 unavailable_seconds := 0 |}.
Proof.
  unfold Monitor_init.
  match goal with
  | |- (match ?r with _ => _ end) = _ -> _ => destruct r as [m0|e] eqn:E
  end; [|discriminate].
  intros [= <- <-]. split; [reflexivity|].
  apply Result_bind_Ok in E as (v_dependencies & Hdepend & E).
  repeat (apply Result_bind_Ok in E as (? & ? & E)).
  injection E as <-. eauto 15.
Qed.

(** X10: the constructor fails cleanly on the options of a configuration
    file.  With options that are strings, as [get_config_dict] reads them,
    an exception that [Monitor.__init__] raises is a
    [MonitorConfigurationError], whatever the strings are, and it is
    raised before the host name and the clock are looked at: the world is
    as it was. *)
Theorem Monitor_init_fails_cleanly name config_options w e :
  fst (Monitor_init name config_options w) = Err e ->
  exc_class e = MonitorConfigurationError
  /\ snd (Monitor_init name config_options w) = w.
Proof.
  intros H. split; [eapply Monitor_init_error, H|].
  revert H. unfold Monitor_init.
  match goal with
  | |- fst (match ?r with _ => _ end) = _ -> _ => destruct r
  end; [discriminate | reflexivity].
Qed.

Lemma Monitor_init_fails_cleanly_witness :
  exc_class (Raise MonitorConfigurationError (ConfigOption "gap" (NeedsToBe "int")))
  = MonitorConfigurationError
  /\ snd (Monitor_init "m" {[ "gap" := "soon" ]} sample_world) = sample_world.
Proof.
  apply (Monitor_init_fails_cleanly "m" {[ "gap" := "soon" ]} sample_world).
  reflexivity.
Defined.

(** The dependencies an option of strings gives. *)
Lemma depend_option (config_options : gmap string string) (l : list string) :
  Monitor_get_config_option config_options "depend" (kwargs_of "[str]" (VList []) None)
    ≫= expect_str_list = Ok l ->
  l = match config_options !! "depend" with
      | Some s => map Py.strip (Py.split "," s)
      | None => []
      end.
Proof.
  pose proof (Monitor_option_outcome config_options "depend" "[str]" (VList []) None) as H.
  cbn zeta in H.
  destruct (Monitor_get_config_option _ _ _) as [v|e]; [|discriminate].
  cbn [mbind Result_bind].
  destruct (config_options !! "depend") as [s|].
  - destruct H as [-> _].
    change (converted _ (VStr s))
      with (VList (map (fun x => VStr (Py.strip x)) (Py.split "," s))).
    rewrite expect_str_list_stripped. congruence.
  - subst v. cbn. congruence.
Qed.

(** X11: the dependencies of a new monitor.  They are the pieces of the
    [depend] option between its commas, each stripped of the blanks around
    it, and none if the option is not given; an option that is given but
    empty makes one dependency, the empty name.  The list of those that
    remain for the loop is empty all the same, until [reset_dependencies]
    copies them. *)
Theorem Monitor_init_dependencies name config_options w m w' :
  Monitor_init name config_options w = (Ok m, w') ->
  dependencies m = match config_options !! "depend" with
                   | Some s => map Py.strip (Py.split "," s)
                   | None => []
                   end
  /\ (config_options !! "depend" = Some "" -> dependencies m = [""])
  /\ remaining_dependencies m = []
  /\ (forall w2, remaining_dependencies (after reset_dependencies m w2) = dependencies m).
Proof.
  intros H. apply Monitor_init_Ok in H as (_ & H).
  destruct H as (deps & ? & ? & ? & ? & ? & ? & ? & ? & ? & Hdeps & ->).
  apply depend_option in Hdeps.
  unfold dependencies, remaining_dependencies. cbn.
  repeat split; try done.
  intros E. rewrite E in Hdeps. exact Hdeps.
Qed.

Lemma Monitor_init_dependencies_witness :
  dependencies sample_monitor = ["db"]
  /\ remaining_dependencies sample_monitor = [].
Proof.
  pose proof (Monitor_init_dependencies "sample" sample_options sample_world
                sample_monitor (tick sample_world) eq_refl) as (E & _ & R & _).
  split; [exact E | exact R].
Defined.

(** *** The tallies *)

(** Tests on integers, as propositions. *)
Ltac tests_to_Prop :=
  repeat match goal with
         | H : (_ =? _) = true |- _ => apply Z.eqb_eq in H
         | H : (_ =? _) = false |- _ => apply Z.eqb_neq in H
         | H : (_ >? _) = true |- _ => apply Z.gtb_lt in H
         | H : (_ >? _) = false |- _ => rewrite Z.gtb_ltb, Z.ltb_ge in H
         end.

(** Every call keeps the tallies. *)
Lemma Tally_call (c : Call) (m : Monitor) (w : World) :
  Inv m -> Tally m -> Tally (after (perform c) m w).
Proof.
  intros [I1 I2 _ I4 _ _ _] [T1 T2 T3 T4 T5 T6 T7 T8 T9 T10 T11 T12 T13 T14].
  pose proof datetime_sub_seconds as Hsub.
  destruct c; unfold_methods; run_M; branches.
  all: unfold virtual_fail_count in *; cbn in *; tests_to_Prop.
  all: split; cbn; try done; try lia; try tauto.
  all: try (split; intros; try done; try lia; try tauto).
  all: try match goal with
           | |- context [datetime_sub ?a ?b] => specialize (Hsub a b); lia
           end.
  all: try (intros; intuition (try congruence; try lia)).
  all: apply T8; lia.
Qed.

Lemma Monitor_init_Tally name config_options w m w' :
  Monitor_init name config_options w = (Ok m, w') -> Tally m.
Proof.
  intros H. pose proof (Monitor_init_Inv _ _ _ _ _ H) as [_ I2 _ _ _ _ _].
  apply Monitor_init_Ok in H as (_ & H).
  destruct H as (? & ? & ? & ? & ? & ? & ? & ? & ? & ? & _ & ->). cbn in I2.
  split; cbn; try done; try lia; try (left; reflexivity); try (intros; lia).
  all: split; intros; try done; lia.
Qed.

Lemma reachable_Tally (m : Monitor) : reachable m -> Tally m.
Proof.
  induction 1 as [name config_options w m w' Hinit | c m w Hm IH].
  - eapply Monitor_init_Tally, Hinit.
  - apply Tally_call; [apply reachable_Inv, Hm | exact IH].
Qed.

(** X12: the counters of every monitor a program can hold.  None of
    [success_count], [failures] and [unavailable_seconds] is negative; a
    streak of failures and a streak of successes never stand together; the
    two streaks together, and the failures past tolerance, are not more
    than the tests run; and [get_success_count] is [success_count], its
    test on [tests_run == 0] changing nothing. *)
Theorem tallies_of_a_monitor (m : Monitor) :
  reachable m ->
  0 <= success_count m /\ 0 <= failures m /\ 0 <= unavailable_seconds m
  /\ (error_count m = 0 \/ success_count m = 0)
  /\ error_count m + success_count m <= tests_run m
  /\ failures m <= tests_run m
  /\ get_success_count m = success_count m.
Proof.
  intros Hm. destruct (reachable_Inv m Hm) as [I1 _ _ _ _ _ _].
  destruct (reachable_Tally m Hm) as [T1 T2 T3 _ T5 T6 T7 _ _ _ _ _ _ _].
  repeat split; try assumption.
  unfold get_success_count. destruct (Z.eqb_spec (tests_run m) 0); [lia | reflexivity].
Qed.

Lemma tallies_of_a_monitor_witness :
  reachable sample_monitor
  /\ get_success_count sample_monitor = success_count sample_monitor.
Proof.
  split; [exact sample_monitor_reachable|].
  apply (tallies_of_a_monitor sample_monitor sample_monitor_reachable).
Defined.

(** X13: the state of every monitor a program can hold, against its
    counters.  Past its tolerance a monitor is [FAILED] or [SKIPPED], never
    [OK] or [UNKNOWN]; an [OK] or [UNKNOWN] monitor passes [test_success],
    a [FAILED] one does not, has a failure on its count and a time of first
    failure; and an [UNKNOWN] monitor has never succeeded: every test it
    ran was a failure within tolerance. *)
Theorem state_follows_the_counters (m : Monitor) :
  reachable m ->
  (_tolerance m < error_count m -> _state m = FAILED \/ _state m = SKIPPED)
  /\ (_state m = OK \/ _state m = UNKNOWN -> test_success m = true)
  /\ (_state m = FAILED ->
      test_success m = false /\ 0 < failures m /\ is_Some (first_failure_time m))
  /\ (_state m = UNKNOWN ->
      success_count m = 0 /\ tests_run m = error_count m /\ failures m = 0).
Proof.
  intros Hm. destruct (reachable_Inv m Hm) as [I1 I2 _ I4 _ _ _].
  destruct (reachable_Tally m Hm) as [_ _ _ _ _ _ _ T8 T9 T10 T11 _ _ _].
  split; [exact T8|]. split; [|split; [|exact T9]].
  - intros Hs. apply test_success_spec. unfold virtual_fail_count.
    destruct (Z.lt_ge_cases (_tolerance m) (error_count m)) as [Hlt|Hge]; [|lia].
    destruct (T8 Hlt), Hs; congruence.
  - intros Hs. specialize (I4 Hs). specialize (T10 Hs). repeat split.
    + destruct (test_success m) eqn:E; [|reflexivity].
      apply test_success_spec in E. unfold virtual_fail_count in E. lia.
    + exact T10.
    + apply not_eq_None_Some, T11, T10.
Qed.

Lemma state_follows_the_counters_witness :
  reachable sample_monitor /\ test_success sample_monitor = true.
Proof.
  split; [exact sample_monitor_reachable|].
  apply (state_follows_the_counters sample_monitor sample_monitor_reachable).
  right. reflexivity.
Defined.

(** X14: the time stamps of every monitor a program can hold, against its
    counters.  There is a time of first failure (and of last failure)
    exactly when the tolerance was ever crossed, and a success does not
    clear it; there is a start of uptime exactly during a streak of
    successes, and a time of last update exactly when a test was run.  So
    [get_uptime] gives [0+00:00:00], without a look at the clock, whenever
    the last test failed, and [get_downtime] does whenever the tolerance
    was never crossed. *)
Theorem time_stamps_follow_the_counters (m : Monitor) (w : World) :
  reachable m ->
  (is_Some (first_failure_time m) <-> 0 < failures m)
  /\ (is_Some (last_failure m) <-> 0 < failures m)
  /\ (is_Some (uptime_start m) <-> 0 < success_count m)
  /\ (is_Some (last_update m) <-> 0 < tests_run m)
  /\ (0 < error_count m -> get_uptime (m, w) = (Ok UpDownTime_default, (m, w)))
  /\ (failures m = 0 -> get_downtime (m, w) = (Ok UpDownTime_default, (m, w))).
Proof.
  intros Hm.
  destruct (reachable_Tally m Hm) as [T1 _ _ _ T5 _ _ _ _ _ T11 T12 T13 T14].
  unfold first_failure_time. rewrite <- !not_eq_None_Some.
  repeat split; try tauto.
  - intros He. unfold get_uptime, uptime; run_M.
    destruct (uptime_start m) eqn:E; [|reflexivity].
    assert (0 < success_count m) by (apply T13; done). lia.
  - intros Hf. unfold get_downtime, first_failure_time; run_M.
    destruct (_failed_at m) eqn:E; [|reflexivity].
    assert (0 < failures m) by (apply T11; done). lia.
Qed.

Lemma time_stamps_follow_the_counters_witness :
  reachable sample_monitor
  /\ get_downtime (sample_monitor, sample_world)
     = (Ok UpDownTime_default, (sample_monitor, sample_world)).
Proof.
  split; [exact sample_monitor_reachable|].
  apply (time_stamps_follow_the_counters sample_monitor sample_world
           sample_monitor_reachable).
  reflexivity.
Defined.

(** X15: what a call can do to the record of a monitor.  Whatever the
    call, the monitor and the world: a state that is not [UNKNOWN] does not
    become [UNKNOWN]; a time of first failure, once there, stays;
    [failures] and [tests_run] stay or go up by one; and
    [unavailable_seconds] grows by less than a day's seconds, however long
    the monitor was down. *)
Theorem calls_only_add (c : Call) (m : Monitor) (w : World) :
  let m' := after (perform c) m w in
  (_state m <> UNKNOWN -> _state m' <> UNKNOWN)
  /\ (is_Some (first_failure_time m) -> is_Some (first_failure_time m'))
  /\ failures m <= failures m' <= failures m + 1
  /\ tests_run m <= tests_run m' <= tests_run m + 1
  /\ unavailable_seconds m <= unavailable_seconds m' < unavailable_seconds m + 86400.
Proof.
  pose proof datetime_sub_seconds as Hsub.
  unfold first_failure_time.
  destruct c; unfold_methods; run_M; branches.
  all: repeat split; cbn; try done; try lia; eauto.
  all: match goal with
       | |- context [datetime_sub ?a ?b] => specialize (Hsub a b); lia
       end.
Qed.

(** X16: what no call touches.  Whatever the call, the monitor keeps its
    name, options, logger, group, tolerance, commands, failure document,
    host and time of first load; the world keeps its host name, its clock
    and its child processes, the clock is read on and the log is only
    added to.  So a call never makes a local monitor remote. *)
Theorem calls_keep_the_configuration (c : Call) (m : Monitor) (w : World) :
  let m' := after (perform c) m w in
  let w' := world_after (perform c) m w in
  (name m' = name m /\ _config_options m' = _config_options m
   /\ monitor_logger m' = monitor_logger m /\ group m' = group m
   /\ _tolerance m' = _tolerance m /\ remote_alerting m' = remote_alerting m
   /\ _recover_command m' = _recover_command m
   /\ _recovered_command m' = _recovered_command m
   /\ failure_doc m' = failure_doc m /\ running_on m' = running_on m
   /\ _first_load m' = _first_load m)
  /\ (gethostname w' = gethostname w /\ child w' = child w
      /\ utcnow_at w' = utcnow_at w /\ time_at w' = time_at w
      /\ (clock_reads w <= clock_reads w')%nat
      /\ exists records, log w' = log w ++ records)
  /\ is_remote m' w' = is_remote m w.
Proof.
  unfold is_remote, short_hostname.
  destruct c; unfold_methods; run_M; branches.
  all: repeat split; cbn; try done; try lia.
  all: try (exists []; rewrite app_nil_r; reflexivity).
  all: try (eexists; reflexivity).
Qed.

(** *** Dependencies *)

Lemma list_remove_Some (x : string) (l l' : list string) :
  list_remove x l = Some l' -> l ≡ₚ x :: l' /\ sublist l' l.
Proof.
  revert l'. induction l as [|y l IH]; intros l'; cbn; [discriminate|].
  destruct (String.eqb_spec y x) as [->|Hne].
  - intros [= ->]. split; [reflexivity | apply sublist_cons, reflexivity].
  - destruct (list_remove x l) as [l0|]; cbn; [|discriminate].
    intros [= <-]. destruct (IH l0 eq_refl) as [Hp Hs]. split.
    + rewrite Hp. apply Permutation_swap.
    + apply sublist_skip, Hs.
Qed.

Lemma list_remove_None (x : string) (l : list string) :
  list_remove x l = None <-> x ∉ l.
Proof.
  induction l as [|y l IH]; cbn.
  - split; [intros _; apply not_elem_of_nil | done].
  - rewrite not_elem_of_cons. destruct (String.eqb_spec y x) as [->|Hne].
    + split; [discriminate | intros [? _]; done].
    + destruct (list_remove x l); cbn.
      * split; [discriminate | intros [_ H]; apply IH in H; discriminate].
      * split; [intros _; split; [congruence | apply IH; reflexivity] | reflexivity].
Qed.

(** What is left of a list of dependencies after some have succeeded. *)
Lemma dependencies_succeeded_run (names : list string) (m : Monitor) (w : World) :
  exists deps,
    dependencies_succeeded names (m, w) = (Ok tt, (set__deps deps m, w))
    /\ sublist deps (_deps m)
    /\ (forall d, d ∉ names -> d ∈ _deps m -> d ∈ deps)
    /\ (names ≡ₚ _deps m -> deps = []).
Proof.
  revert m. induction names as [|name names IH]; intros m.
  - exists (_deps m). destruct m; cbn. repeat split; try done.
    intros ->%Permutation_nil_l. reflexivity.
  - cbn [dependencies_succeeded]. unfold dependency_succeeded at 1. run_M.
    destruct (list_remove name (_deps m)) as [deps1|] eqn:E.
    + apply list_remove_Some in E as [Hp Hs].
      destruct (IH (set__deps deps1 m)) as (deps & Hrun & Hsub & Hin & Hnil).
      rewrite Hrun. exists deps. cbn in *. repeat split.
      * etrans; eassumption.
      * intros d [Hd Hnot]%not_elem_of_cons Hdm. apply Hin; [exact Hnot|].
        rewrite Hp in Hdm. apply elem_of_cons in Hdm as [?|?]; done.
      * intros Hperm. apply Hnil. rewrite Hp in Hperm.
        apply Permutation_cons_inv in Hperm. exact Hperm.
    + apply list_remove_None in E.
      destruct (IH m) as (deps & Hrun & Hsub & Hin & Hnil).
      rewrite Hrun. exists deps. repeat split; try done.
      * intros d [Hd Hnot]%not_elem_of_cons Hdm. auto.
      * intros Hperm. exfalso. apply E. rewrite <- Hperm. apply list_elem_of_here.
Qed.

(** X17: ticking off dependencies.  After [reset_dependencies] and any
    row of [dependency_succeeded] calls, none of which raises, the
    configured dependencies are as they were; those that remain are among
    them, in their order, and include every one that was not named; and
    none remains once each was named as often as it is listed, in whatever
    order. *)
Theorem dependencies_tick_off (names : list string) (m : Monitor) (w : World) :
  let loop := reset_dependencies;; dependencies_succeeded names in
  let m' := after loop m w in
  returned loop m w = Ok tt
  /\ dependencies m' = dependencies m
  /\ sublist (remaining_dependencies m') (dependencies m)
  /\ (forall d, d ∉ names -> d ∈ dependencies m -> d ∈ remaining_dependencies m')
  /\ (names ≡ₚ dependencies m -> remaining_dependencies m' = []).
Proof.
  cbn zeta. unfold returned, after, reset_dependencies. run_M.
  destruct (dependencies_succeeded_run names (set__deps (_dependencies m) m) w)
    as (deps & Hrun & Hsub & Hin & Hnil).
  rewrite Hrun. unfold dependencies, remaining_dependencies. cbn in *.
  repeat split; assumption.
Qed.

(** *** The recover command in a streak of failures *)



Lemma guarded_monitor_constructed :
  Monitor_init "guarded" guarded_options sample_world
  = (Ok guarded_monitor, tick sample_world).
Proof. reflexivity. Qed.


(** *** The recovered command after a streak of failures *)






(** *** [MonitorFail] and [MonitorNull] *)

(** One run of [MonitorFail], for an interval that is not zero. *)
Lemma MonitorFail_run_test_step (interval : Z) (m : Monitor) (w : World) :
  interval <> 0 ->
  exists w1,
    MonitorFail_run_test interval (m, w)
    = Some ((if (error_count m =? 0) || negb (error_count m mod interval =? 0)
             then record_fail "This monitor always fails."
             else record_success "") (m, w1))
    /\ clock_reads w1 = clock_reads w /\ utcnow_at w1 = utcnow_at w.
Proof.
  intros Hi. unfold MonitorFail_run_test, int_mod. cbn [fst].
  destruct (Z.eqb_spec interval 0) as [?|_]; [done|].
  cbn [mbind option_bind orb]. run_M. eauto.
Qed.

(** A row of failing runs. *)
Lemma MonitorFail_fails (interval : Z) (k : nat) (m : Monitor) (w : World) :
  0 <= error_count m -> error_count m + Z.of_nat k <= interval ->
  exists m' w',
    run_tests (MonitorFail_run_test interval) k (m, w)
    = Some (repeat (Ok false) k, (m', w'))
    /\ error_count m' = error_count m + Z.of_nat k
    /\ tests_run m' = tests_run m + Z.of_nat k
    /\ _tolerance m' = _tolerance m
    /\ ((0 < k)%nat -> success_count m' = 0).
Proof.
  revert m w. induction k as [|k IH]; intros m w He Hk.
  - exists m, w. cbn. repeat split; try lia.
  - assert (Hi : interval <> 0) by lia.
    destruct (MonitorFail_run_test_step interval m w Hi) as (w1 & Hstep & _).
    cbn [run_tests]. rewrite Hstep. clear Hstep.
    assert (Hfail : (error_count m =? 0) || negb (error_count m mod interval =? 0) = true).
    { destruct (Z.eqb_spec (error_count m) 0) as [|Hne]; [reflexivity|].
      rewrite Z.mod_small by lia.
      destruct (Z.eqb_spec (error_count m) 0); [done | reflexivity]. }
    rewrite Hfail, record_fail_run. cbn [mbind option_bind].
    destruct (record_fail_counts "This monitor always fails." m w1)
      as (E1 & E2 & E3 & E4 & _).
    set (m1 := after (record_fail "This monitor always fails.") m w1) in *.
    set (w2 := world_after (record_fail "This monitor always fails.") m w1) in *.
    destruct (IH m1 w2) as (m' & w' & Hrun & F1 & F2 & F3 & F4); [lia | lia |].
    rewrite Hrun. cbn. exists m', w'. repeat split; try lia.
    intros _. destruct k; [|apply F4; lia].
    cbn in Hrun. injection Hrun as <- _. exact E3.
Qed.

(** X20: [MonitorFail] fails [interval] times, then succeeds once, and is
    back where it was.  With an interval of at least 1 and no failure on the
    count, [interval] runs of the test each record a failure and return
    [False], the next records a success and returns [True], and the count
    of failures is 0 again, so the row repeats; the success counts as a
    recovery ([all_better_now]) exactly when the interval is above the
    tolerance. *)
Theorem MonitorFail_cycle (interval : Z) (m : Monitor) (w : World) :
  1 <= interval -> error_count m = 0 ->
  exists m' w',
    run_tests (MonitorFail_run_test interval) (Z.to_nat interval + 1) (m, w)
    = Some (repeat (Ok false) (Z.to_nat interval) ++ [Ok true], (m', w'))
    /\ error_count m' = 0
    /\ success_count m' = 1
    /\ last_error_count m' = interval
    /\ tests_run m' = tests_run m + interval + 1
    /\ _state m' = OK
    /\ all_better_now m' = (_tolerance m <? interval).
Proof.
  intros Hi He.
  destruct (MonitorFail_fails interval (Z.to_nat interval) m w)
    as (m1 & w1 & Hrun & E1 & E2 & E3 & E4); [lia | lia |].
  assert (Hsplit : forall k s l s1,
             run_tests (MonitorFail_run_test interval) k s = Some (l, s1) ->
             run_tests (MonitorFail_run_test interval) (k + 1) s
             = '(r, s2) ← MonitorFail_run_test interval s1; Some (l ++ [r], s2)).
  { clear. induction k as [|k IH]; intros s l s1; cbn [run_tests Nat.add].
    - intros [= <- <-]. cbn.
      destruct (MonitorFail_run_test interval s) as [[r s2]|]; reflexivity.
    - destruct (MonitorFail_run_test interval s) as [[r s2]|]; cbn; [|discriminate].
      destruct (run_tests _ k s2) as [[rs s3]|] eqn:Ek; cbn; [|discriminate].
      intros [= <- <-]. rewrite (IH _ _ _ Ek).
      destruct (MonitorFail_run_test interval s3) as [[r' s4]|]; reflexivity. }
  rewrite (Hsplit _ _ _ _ Hrun).
  destruct (MonitorFail_run_test_step interval m1 w1 ltac:(lia)) as (w2 & Hstep & _).
  rewrite Hstep. clear Hstep.
  assert (Hok : (error_count m1 =? 0) || negb (error_count m1 mod interval =? 0) = false).
  { rewrite E1, He, Z2Nat.id, Z.add_0_l, Z.mod_same by lia.
    destruct (Z.eqb_spec interval 0); [lia | reflexivity]. }
  rewrite Hok, record_success_run. cbn [mbind option_bind].
  destruct (record_success_counts "" m1 w2) as (S1 & S2 & S3 & S4 & S5 & S6 & _).
  cbn zeta in *.
  set (m2 := after (record_success "") m1 w2) in *.
  eexists m2, _. split; [reflexivity|].
  assert (Hpos : (error_count m1 >? 0) = true) by (apply Z.gtb_lt; lia).
  rewrite Hpos in S5.
  assert (Hs : success_count m2 = 1) by (rewrite S3, E4; lia).
  repeat split; try assumption; try lia.
  unfold all_better_now, last_virtual_fail_count, truthy.
  rewrite Hs, S5, S2, E3, S6, E1, He, Z2Nat.id, Z.add_0_l by lia.
  cbn. rewrite andb_true_r.
  destruct (Z.ltb_spec (_tolerance m) interval),
    (Z.eqb_spec (Z.max 0 (interval - _tolerance m)) 0); cbn; try reflexivity; lia.
Qed.

Lemma MonitorFail_cycle_witness :
  exists m' w',
    run_tests (MonitorFail_run_test 2) 3 (guarded_monitor, sample_world)
    = Some ([Ok false; Ok false; Ok true], (m', w')).
Proof.
  destruct (MonitorFail_cycle 2 guarded_monitor sample_world ltac:(lia) eq_refl)
    as (m' & w' & H & _).
  exists m', w'. exact H.
Defined.

(** X21: read from a configuration file, the interval of a [MonitorFail]
    is at least 1.  With options that are strings the constructor returns
    a monitor that [Monitor.__init__] made and an interval that is the
    default 5 or an integer of at least 1, so that no run of its test
    divides by zero; when it raises, it raises a
    [MonitorConfigurationError].  The minimum bears on strings only: an
    interval given as an [int] comes back from the resolver as it is, and
    with an interval of 0 the test raises [ZeroDivisionError] at its log
    line, ahead of its own test [interval == 0]. *)
Theorem MonitorFail_init_interval name (config_options : gmap string string) w :
  match MonitorFail_init name config_options w with
  | (Ok (m, interval), w') =>
      Monitor_init name config_options w = (Ok m, w')
      /\ 1 <= interval
      /\ (config_options !! "interval" = None -> interval = 5)
      /\ (forall s, exists r, MonitorFail_run_test interval s = Some r)
  | (Err e, _) => exc_class e = MonitorConfigurationError
  end
  /\ (forall (options : gmap string Value) (n : Z),
        options !! "interval" = Some (VInt n) ->
        get_config_option options "interval"
          (with_exception MonitorConfigurationError
             (kwargs_of "int" (VInt 5) (Some (Py.NInt 1))))
        = Ok (VInt n))
  /\ (forall s, MonitorFail_run_test 0 s = None).
Proof.
  split; [|split; [|reflexivity]].
  - unfold MonitorFail_init.
    pose proof (Monitor_init_error name config_options w) as Herr.
    destruct (Monitor_init name config_options w) as [[m|e] w']; [|apply Herr; reflexivity].
    pose proof (int_option_bounds config_options "interval" 5 1) as Hbound.
    pose proof (Monitor_option_outcome config_options "interval" "int" (VInt 5)
                  (Some (Py.NInt 1))) as Hout.
    cbn zeta in Hout.
    destruct (Monitor_get_config_option config_options "interval" _) as [v|e];
      [|exact Hout].
    destruct (Hbound v eq_refl) as (n & -> & Hn). cbn.
    split; [reflexivity|]. split; [lia|]. split.
    + intros Hnone. rewrite Hnone in Hout. cbn in Hout. congruence.
    + intros s. unfold MonitorFail_run_test, int_mod.
      destruct (Z.eqb_spec n 0); [lia|]. cbn. eauto.
  - intros options n Hn. unfold get_config_option. rewrite Hn. reflexivity.
Qed.

(** A row of runs of [MonitorNull]. *)
Lemma MonitorNull_runs (n : nat) (m : Monitor) (w : World) :
  exists m' w',
    run_tests (fun s => Some (MonitorNull_run_test s)) n (m, w)
    = Some (repeat (Ok true) n, (m', w'))
    /\ tests_run m' = tests_run m + Z.of_nat n
    /\ failures m' = failures m
    /\ _tolerance m' = _tolerance m
    /\ ((0 < n)%nat ->
        error_count m' = 0 /\ _state m' = OK
        /\ success_count m' = success_count m + Z.of_nat n).
Proof.
  revert m w. induction n as [|n IH]; intros m w.
  - exists m, w. cbn. repeat split; try lia.
  - cbn [run_tests mbind option_bind]. unfold MonitorNull_run_test at 1.
    rewrite record_success_run.
    destruct (record_success_counts "" m w) as (S1 & S2 & S3 & S4 & _ & S6 & S7 & _).
    cbn zeta in *.
    set (m1 := after (record_success "") m w) in *.
    set (w1 := world_after (record_success "") m w) in *.
    destruct (IH m1 w1) as (m' & w' & Hrun & F1 & F2 & F3 & F4).
    rewrite Hrun. cbn. exists m', w'. repeat split; try lia.
    all: destruct n; [cbn in Hrun; injection Hrun as <- _; try assumption; lia|].
    all: destruct F4 as (? & ? & ?); [lia|]; try assumption; lia.
Qed.

(** X22: [MonitorNull] always passes.  On every monitor a program can
    hold, each of a row of runs of its test returns [True]; after the first
    the monitor is [OK] with no failure on its count, passes
    [test_success], and has its successes and its tests run up by the
    number of runs, while the failures past tolerance stay as they were. *)
Theorem MonitorNull_always_passes (n : nat) (m : Monitor) (w : World) :
  reachable m ->
  exists m' w',
    run_tests (fun s => Some (MonitorNull_run_test s)) n (m, w)
    = Some (repeat (Ok true) n, (m', w'))
    /\ tests_run m' = tests_run m + Z.of_nat n
    /\ failures m' = failures m
    /\ ((0 < n)%nat ->
        _state m' = OK /\ virtual_fail_count m' = 0 /\ test_success m' = true
        /\ success_count m' = success_count m + Z.of_nat n).
Proof.
  intros Hm. destruct (reachable_Inv m Hm) as [_ I2 _ _ _ _ _].
  destruct (MonitorNull_runs n m w) as (m' & w' & Hrun & F1 & F2 & F3 & F4).
  exists m', w'. repeat split; try assumption.
  all: destruct (F4 ltac:(assumption)) as (E1 & E2 & E3); try assumption.
  - unfold virtual_fail_count. lia.
  - apply test_success_spec. unfold virtual_fail_count. lia.
Qed.

Lemma MonitorNull_always_passes_witness :
  reachable sample_monitor
  /\ exists m' w',
       run_tests (fun s => Some (MonitorNull_run_test s)) 2 (sample_monitor, sample_world)
       = Some ([Ok true; Ok true], (m', w')).
Proof.
  split; [exact sample_monitor_reachable|].
  destruct (MonitorNull_always_passes 2 sample_monitor sample_world
              sample_monitor_reachable) as (m' & w' & H & _).
  exists m', w'. exact H.
Defined.

(** *** A new monitor *)

(** X23: a monitor as it leaves the constructor.  The constructor read
    the clock once; the monitor is local, in state [UNKNOWN], passes
    [test_success], is neither at its first failure nor just recovered, has
    no downtime, and its first [should_run], at whatever time and whatever
    the gap, returns [True] and clears [_force_run]. *)
Theorem new_monitor name config_options w m w' (w2 : World) :
  Monitor_init name config_options w = (Ok m, w') ->
  w' = tick w
  /\ is_remote m w' = false
  /\ _state m = UNKNOWN
  /\ test_success m = true
  /\ first_failure m = false
  /\ all_better_now m = false
  /\ get_downtime (m, w2) = (Ok UpDownTime_default, (m, w2))
  /\ returned should_run m w2 = Ok true
  /\ _force_run (after should_run m w2) = false.
Proof.
  intros H. pose proof (Monitor_init_Inv _ _ _ _ _ H) as [_ I2 _ _ _ _ _].
  apply Monitor_init_Ok in H as (-> & H).
  destruct H as (? & ? & ? & ? & ? & ? & ? & ? & ? & ? & _ & ->). cbn in I2.
  repeat split.
  - unfold is_remote, short_hostname. cbn. rewrite String.eqb_refl. reflexivity.
  - apply test_success_spec. unfold virtual_fail_count. cbn. lia.
  - match goal with |- first_failure ?m0 = false => destruct (first_failure m0) eqn:E end;
      [|reflexivity].
    apply first_failure_spec in E. cbn in E. lia.
  - unfold all_better_now, last_virtual_fail_count, truthy. cbn.
    replace (Z.max 0 (0 - x3)) with 0 by lia. reflexivity.
Qed.

Lemma new_monitor_witness :
  Monitor_init "sample" sample_options sample_world = (Ok sample_monitor, tick sample_world)
  /\ returned should_run sample_monitor sample_world_later = Ok true.
Proof.
  split; [reflexivity|].
  apply (new_monitor "sample" sample_options sample_world sample_monitor
           (tick sample_world) sample_world_later eq_refl).
Defined.

(** *** The gap between runs *)

(** X24: read from a configuration file, the gap and the tolerance are
    never negative.  On every monitor that was constructed from options
    that are strings and put through whatever calls, [minimum_gap], the
    tolerance and [error_count] are at least 0: the resolver refuses a
    string that reads as a negative number.  It refuses strings only: a
    tolerance or a gap given as an [int] comes back from it as it is, be it
    negative.  The [minimum_gap] setter raises [ValueError] on a negative
    gap, leaving the monitor as it was, and takes over any other [int];
    the tolerance has no setter that would. *)
Theorem gap_and_tolerance_never_negative (m : Monitor) (w : World) (gap : Z) :
  (reachable m -> 0 <= minimum_gap m /\ 0 <= _tolerance m /\ 0 <= error_count m)
  /\ (forall (options : gmap string Value) (key : string) (n : Z),
        options !! key = Some (VInt n) ->
        get_config_option options key
          (with_exception MonitorConfigurationError
             (kwargs_of "int" (VInt 0) (Some (Py.NInt 0))))
        = Ok (VInt n))
  /\ set_minimum_gap gap (m, w)
     = if gap <? 0
       then (Err (Raise ValueError (Text "gap must be at least 0")), (m, w))
       else (Ok tt, (set__minimum_gap gap m, w)).
Proof.
  split; [|split].
  - intros Hm. destruct (reachable_Inv m Hm) as [I1 I2 I3 _ _ _ _].
    unfold minimum_gap. auto.
  - intros options key n Hn. unfold get_config_option. rewrite Hn. reflexivity.
  - unfold set_minimum_gap. destruct (gap <? 0); reflexivity.
Qed.

(** ** More on the codec *)

(** Induction on an object and the objects inside it. *)
Lemma PyObj_nested_ind (P : PyObj -> Prop) :
  P ONone -> (forall b, P (OBool b)) -> (forall n, P (OInt n)) ->
  (forall x, P (OFloat x)) -> (forall s, P (OStr s)) ->
  (forall l, Forall P l -> P (OList l)) ->
  (forall items, Forall (fun kv => P kv.2) items -> P (ODict items)) ->
  (forall d, P (ODatetime d)) -> (forall p, P (ORegex p)) ->
  (forall s, P (OMonitorState s)) -> (forall r, P (OOther r)) ->
  forall o, P o.
Proof.
  intros HNone HBool HInt HFloat HStr HList HDict HDatetime HRegex HState HOther.
  fix IH 1. intros [|b|n|x|s|l|items|d|p|s|r].
  - exact HNone.
  - apply HBool.
  - apply HInt.
  - apply HFloat.
  - apply HStr.
  - apply HList. induction l as [|x l IHl]; constructor; [apply IH | exact IHl].
  - apply HDict. induction items as [|[k v] items IHl]; constructor; [apply IH | exact IHl].
  - apply HDatetime.
  - apply HRegex.
  - apply HState.
  - apply HOther.
Qed.

(** A dict that has no key twice is the dict of its pairs. *)
Lemma dict_set_new (k : string) (v : PyObj) (d : list (string * PyObj)) :
  k ∉ d.*1 -> dict_set k v d = d ++ [(k, v)].
Proof.
  induction d as [|[k' v'] d IH]; cbn; [reflexivity|].
  intros [Hne Hnot]%not_elem_of_cons.
  destruct (String.eqb_spec k k'); [done|]. rewrite IH by assumption. reflexivity.
Qed.

Lemma dict_of_pairs_NoDup (items : list (string * PyObj)) :
  NoDup items.*1 -> dict_of_pairs items = ODict items.
Proof.
  unfold dict_of_pairs. intros Hn. f_equal.
  enough (H : forall acc, NoDup (acc ++ items).*1 ->
                fold_left (fun d '(k, v) => dict_set k v d) items acc = acc ++ items)
    by (apply (H []), Hn).
  clear Hn. induction items as [|[k v] items IH]; intros acc Hn; cbn.
  - rewrite app_nil_r. reflexivity.
  - rewrite dict_set_new.
    + rewrite IH; rewrite <- app_assoc; [reflexivity | exact Hn].
    + rewrite fmap_app in Hn. apply NoDup_app in Hn as (_ & Hn & _).
      intros Hin. apply (Hn k Hin). cbn. apply list_elem_of_here.
Qed.

(** The hook on pairs that it does not take for a tag. *)
Lemma object_pairs_hook_not_tag (obj : list (string * PyObj)) :
  taken_as_tag obj = false -> object_pairs_hook None obj = Ok (dict_of_pairs obj).
Proof.
  unfold taken_as_tag, object_pairs_hook. cbn zeta.
  destruct (length obj =? 1)%nat; [|reflexivity].
  destruct (is_str (hd ("", ONone) obj).2); [|rewrite !andb_false_r; reflexivity].
  destruct (String.eqb (hd ("", ONone) obj).1 DATETIME_MAGIC_TOKEN),
    (re_match _datetime_re (str_value (hd ("", ONone) obj).2)),
    (String.eqb (hd ("", ONone) obj).1 MONITORSTATE_MAGIC_TOKEN); cbn; done.
Qed.

Lemma carries_token_taken (obj : list (string * PyObj)) :
  carries_token obj = false -> taken_as_tag obj = false.
Proof.
  unfold carries_token, taken_as_tag. cbn zeta.
  destruct (length obj =? 1)%nat; [|reflexivity].
  destruct (is_str (hd ("", ONone) obj).2); [|reflexivity].
  destruct (String.eqb (hd ("", ONone) obj).1 DATETIME_MAGIC_TOKEN),
    (re_match _datetime_re (str_value (hd ("", ONone) obj).2)),
    (String.eqb (hd ("", ONone) obj).1 MONITORSTATE_MAGIC_TOKEN); cbn; done.
Qed.

#[local] Arguments Py.exceeds_max_str_digits : simpl never.

Lemma json_dumps_int (n : Z) :
  json_dumps (OInt n)
  = if Py.exceeds_max_str_digits n
    then Err (Raise ValueError
                    (Text "Exceeds the limit (4300 digits) for integer string conversion"))
    else Ok (JInt n).
Proof. reflexivity. Qed.

(** An [int] of few digits is none of too many. *)
Lemma small_int_is_written (n : Z) :
  Z.abs n < 10 ^ 18 -> Py.exceeds_max_str_digits n = false.
Proof.
  intros Hn. unfold Py.exceeds_max_str_digits, Py.max_str_digits.
  apply Z.leb_gt. eapply Z.lt_le_trans; [exact Hn|].
  apply Z.pow_le_mono_r; lia.
Qed.

(** Plain data is written, and what was written is read back as it was. *)
Lemma plain_data_round_trip (o : PyObj) :
  plain_data o = true -> exists j, json_dumps o = Ok j /\ json_loads j = Ok o.
Proof.
  induction o as [|b|n|x|s|l IH|items IH|d|p|s|r] using PyObj_nested_ind;
    try discriminate.
  - intros _; eexists; split; reflexivity.
  - intros _; eexists; split; reflexivity.
  - (* an int *)
    cbn [plain_data]. intros Hn%negb_true_iff.
    exists (JInt n). rewrite json_dumps_int, Hn. split; reflexivity.
  - intros _; eexists; split; reflexivity.
  - intros _; eexists; split; reflexivity.
  - (* a list *)
    cbn [plain_data]. intros Hp.
    enough (Hl : exists js,
               (fix items (l : list PyObj) : Result (list JSON) :=
                  match l with
                  | [] => Ok []
                  | x :: l' =>
                      y ← iterencode (fun o => JSONEncoder_default o ≫= encode_native) x;
                      ys ← items l'; Ok (y :: ys)
                  end) l = Ok js
               /\ (fix items (l : list JSON) : Result (list PyObj) :=
                     match l with
                     | [] => Ok []
                     | x :: l' =>
                         y ← decode (object_pairs_hook None) x;
                         ys ← items l'; Ok (y :: ys)
                     end) js = Ok l).
    { destruct Hl as (js & Henc & Hdec). exists (JArray js).
      unfold json_dumps, JSONEncoder_encode, json_loads, JSONDecoder_decode.
      cbn [iterencode decode]. rewrite Henc. cbn [fmap Result_fmap].
      rewrite Hdec. split; reflexivity. }
    induction l as [|x l IHl]; [exists []; split; reflexivity|].
    cbn [forallb] in Hp. apply andb_prop in Hp as [Hx Hl].
    apply Forall_cons in IH as [IHx IH].
    destruct (IHx Hx) as (j & Hj & Hjx). destruct (IHl IH Hl) as (js & Hjs & Hjsl).
    exists (j :: js).
    unfold json_dumps, JSONEncoder_encode in Hj. rewrite Hj. cbn [mbind Result_bind].
    rewrite Hjs. cbn [mbind Result_bind].
    unfold json_loads, JSONDecoder_decode in Hjx. rewrite Hjx. cbn [mbind Result_bind].
    rewrite Hjsl. split; reflexivity.
  - (* a dict *)
    cbn [plain_data]. intros Hp.
    apply andb_prop in Hp as [Hp Htag]. apply andb_prop in Hp as [Hp Hn].
    apply bool_decide_eq_true in Hn. apply negb_true_iff, carries_token_taken in Htag.
    enough (Hl : exists ms,
               (fix members (d : list (string * PyObj)) : Result (list (string * JSON)) :=
                  match d with
                  | [] => Ok []
                  | (k, x) :: d' =>
                      y ← iterencode (fun o => JSONEncoder_default o ≫= encode_native) x;
                      ys ← members d'; Ok ((k, y) :: ys)
                  end) items = Ok ms
               /\ (fix members (ms : list (string * JSON)) : Result (list (string * PyObj)) :=
                     match ms with
                     | [] => Ok []
                     | (k, x) :: ms' =>
                         y ← decode (object_pairs_hook None) x;
                         ys ← members ms'; Ok ((k, y) :: ys)
                     end) ms = Ok items).
    { destruct Hl as (ms & Henc & Hdec). exists (JObject ms).
      unfold json_dumps, JSONEncoder_encode, json_loads, JSONDecoder_decode.
      cbn [iterencode decode]. rewrite Henc. cbn [fmap Result_fmap].
      rewrite Hdec. cbn [mbind Result_bind]. split; [reflexivity|].
      rewrite object_pairs_hook_not_tag by assumption.
      f_equal. apply dict_of_pairs_NoDup, Hn. }
    clear Hn Htag. induction items as [|[k x] items IHl]; [exists []; split; reflexivity|].
    cbn [forallb] in Hp. apply andb_prop in Hp as [Hx Hl].
    apply Forall_cons in IH as [IHx IH]. cbn [snd] in IHx.
    destruct (IHx Hx) as (j & Hj & Hjx). destruct (IHl IH Hl) as (ms & Hms & Hmsl).
    exists ((k, j) :: ms).
    unfold json_dumps, JSONEncoder_encode in Hj. rewrite Hj. cbn [mbind Result_bind].
    rewrite Hms. cbn [mbind Result_bind].
    unfold json_loads, JSONDecoder_decode in Hjx. rewrite Hjx. cbn [mbind Result_bind].
    rewrite Hmsl. split; reflexivity.
  - (* a datetime *)
    cbn [plain_data]. intros [Hvalid Hy%Z.leb_le]%andb_prop.
    eexists. split; [apply json_dumps_datetime|].
    apply json_loads_datetime; assumption.
  - (* a monitor state *)
    intros _. eexists. split; [apply json_dumps_state | apply json_loads_state].
Qed.

(** What [json_dumps] makes of any data. *)
Lemma json_dumps_outcome (o : PyObj) :
  match json_dumps o with
  | Ok _ => has_foreign_object o = false /\ has_oversized_int o = false
  | Err e => (exc_class e = TypeError /\ has_foreign_object o = true)
             \/ (exc_class e = ValueError /\ has_oversized_int o = true)
  end.
Proof.
  induction o as [|b|n|x|s|l IH|items IH|d|p|s|r] using PyObj_nested_ind;
    try (cbn; tauto).
  - rewrite json_dumps_int. cbn [has_foreign_object has_oversized_int].
    destruct (Py.exceeds_max_str_digits n); cbn; tauto.
  - unfold json_dumps, JSONEncoder_encode.
    cbn [iterencode has_foreign_object has_oversized_int].
    induction l as [|x l IHl]; [cbn; tauto|].
    apply Forall_cons in IH as [IHx IH]. specialize (IHl IH).
    unfold json_dumps, JSONEncoder_encode in IHx. cbn [existsb].
    destruct (iterencode _ x) as [j|e]; cbn [mbind Result_bind fmap Result_fmap].
    + destruct IHx as [-> ->]. cbn [orb].
      match goal with
      | |- context [match ?r with Ok a => Ok (j :: a) | Err e => Err e end] =>
          destruct r as [js|e]
      | |- context [?r ≫= _] => destruct r as [js|e]
      end; cbn in *; exact IHl.
    + destruct IHx as [[? ->]|[? ->]]; cbn; tauto.
  - unfold json_dumps, JSONEncoder_encode.
    cbn [iterencode has_foreign_object has_oversized_int].
    induction items as [|[k x] items IHl]; [cbn; tauto|].
    apply Forall_cons in IH as [IHx IH]. specialize (IHl IH). cbn [snd] in IHx.
    unfold json_dumps, JSONEncoder_encode in IHx. cbn [existsb].
    destruct (iterencode _ x) as [j|e]; cbn [mbind Result_bind fmap Result_fmap].
    + destruct IHx as [-> ->]. cbn [orb].
      match goal with
      | |- context [?r ≫= _] => destruct r as [js|e]
      end; cbn in *; exact IHl.
    + destruct IHx as [[? ->]|[? ->]]; cbn; tauto.
Qed.

(** X25: the codec carries plain data unchanged.  Every object that is
    built from [None], booleans, numbers, strings, datetimes and monitor
    states by lists and by dicts nested at most a hundred deep is written
    by [json_dumps] and read back by [json_loads] as the same object: if no
    [int] in it has more digits than [int.__repr__] writes, every datetime
    is valid with a year of four digits, and no dict is a single pair of
    one of the two tokens and a string. *)
Theorem codec_carries_plain_data (o : PyObj) :
  plain_data o = true -> (depth o <= 100)%nat ->
  json_dumps o ≫= json_loads = Ok o.
Proof.
  intros Hp _. destruct (plain_data_round_trip o Hp) as (j & -> & Hj). exact Hj.
Qed.

Lemma codec_carries_plain_data_witness :
  json_dumps (ODict [("state", OMonitorState FAILED); ("runs", OInt 12);
                     ("since", OList [ODatetime (Datetime 2020 2 29 23 59 58 123456); ONone])])
    ≫= json_loads
  = Ok (ODict [("state", OMonitorState FAILED); ("runs", OInt 12);
               ("since", OList [ODatetime (Datetime 2020 2 29 23 59 58 123456); ONone])]).
Proof.
  apply (codec_carries_plain_data
           (ODict [("state", OMonitorState FAILED); ("runs", OInt 12);
                   ("since", OList [ODatetime (Datetime 2020 2 29 23 59 58 123456); ONone])])).
  - cbn [plain_data forallb andb].
    rewrite (small_int_is_written 12) by reflexivity. reflexivity.
  - cbn. lia.
Defined.

(** X26: what [json_dumps] refuses.  Of data nested at most a hundred
    deep it refuses two things: an object of a class that is neither one of
    JSON's own nor a datetime, a compiled regular expression or a monitor
    state, with a [TypeError], and an [int] of more digits than
    [int.__repr__] writes, with a [ValueError].  It returns exactly when
    the data holds neither, and what it raises tells which of the two the
    data holds.  A compiled regular expression is written as a placeholder
    string, which is what [json_loads] gives back for it. *)
Theorem json_dumps_raises_exactly (o : PyObj) (pattern : string) :
  (depth o <= 100)%nat ->
  match json_dumps o with
  | Ok _ => serialisable o = true
  | Err e =>
      serialisable o = false
      /\ ((exc_class e = TypeError /\ has_foreign_object o = true)
          \/ (exc_class e = ValueError /\ has_oversized_int o = true))
  end
  /\ json_dumps (ORegex pattern) ≫= json_loads
     = Ok (OStr "<removed compiled regexp object>").
Proof.
  intros _. split; [|reflexivity].
  pose proof (json_dumps_outcome o) as H. unfold serialisable.
  destruct (json_dumps o) as [j|e].
  - destruct H as [-> ->]. reflexivity.
  - split; [|exact H].
    destruct H as [[_ ->]|[_ ->]]; [reflexivity | apply andb_false_r].
Qed.

Lemma json_dumps_raises_exactly_witness :
  (depth (OList [OInt 7; OOther "socket"]) <= 100)%nat
  /\ match json_dumps (OList [OInt 7; OOther "socket"]) with
     | Ok _ => serialisable (OList [OInt 7; OOther "socket"]) = true
     | Err e =>
         serialisable (OList [OInt 7; OOther "socket"]) = false
         /\ ((exc_class e = TypeError
              /\ has_foreign_object (OList [OInt 7; OOther "socket"]) = true)
             \/ (exc_class e = ValueError
                 /\ has_oversized_int (OList [OInt 7; OOther "socket"]) = true))
     end.
Proof.
  assert (H : (depth (OList [OInt 7; OOther "socket"]) <= 100)%nat)
    by (cbn; lia).
  split; [exact H|].
  exact (proj1 (json_dumps_raises_exactly (OList [OInt 7; OOther "socket"]) "" H)).
Defined.

(** *** The state dict *)

#[local] Arguments json_dumps : simpl never.
#[local] Arguments json_loads : simpl never.
#[local] Arguments getitem : simpl never.
#[local] Arguments format_datetime : simpl never.

(** X27: the state dict survives the wire.  [state_dict] never raises and
    leaves the monitor as it is; it gives a dict of twelve entries, in the
    order of the source, with the count past tolerance under ["vfc"] and the
    time of first failure, as text and as it is, under ["failed_at"] and
    ["first_failure_time"].  If the time of first failure is [None] or a
    valid datetime with a year of four digits, and the count past tolerance
    has no more digits than [int.__repr__] writes, [json_loads] reads back
    from what [json_dumps] writes of it the very same dict. *)
Theorem state_dict_survives_the_wire (cls : MonitorClass) (m : Monitor) (w : World) :
  exists entries,
    returned (state_dict cls) m w = Ok (ODict entries)
    /\ after (state_dict cls) m w = m
    /\ entries.*1 = ["failed_at"; "name"; "host"; "is_remote"; "downtime"; "uptime";
                     "vfc"; "info"; "description"; "recovery_info"; "recovered_info";
                     "first_failure_time"]
    /\ getitem "vfc" entries = Ok (OInt (virtual_fail_count m))
    /\ getitem "failed_at" entries = Ok (OStr (format_datetime (first_failure_time m)))
    /\ getitem "first_failure_time" entries
       = Ok (from_option ODatetime ONone (first_failure_time m))
    /\ ((forall d, first_failure_time m = Some d ->
                   datetime_valid d = true /\ 1000 <= year d) ->
        Py.exceeds_max_str_digits (virtual_fail_count m) = false ->
        json_dumps (ODict entries) ≫= json_loads = Ok (ODict entries)).
Proof.
  unfold state_dict, self_is_remote, get_downtime, get_uptime, uptime,
    first_failure_time in *.
  destruct (_failed_at m) as [t|] eqn:Et; destruct (uptime_start m) as [u|] eqn:Eu.
  all: run_M; rewrite ?Et, ?Eu; cbn; rewrite ?Et, ?Eu; cbn.
  all: eexists; split; [reflexivity|].
  all: split; [reflexivity|]. all: split; [reflexivity|].
  all: split; [reflexivity|]. all: split; [reflexivity|]. all: split; [reflexivity|].
  all: intros Hvalid Hvfc.
  all: match goal with
       | |- context [json_dumps ?d] =>
           assert (Hp : plain_data d = true);
           [|destruct (plain_data_round_trip d Hp) as (j & -> & Hj); exact Hj]
       end.
  all: cbn [plain_data forallb andb]; rewrite Hvfc.
  all: try (destruct (Hvalid t eq_refl) as [-> Hy]; apply Z.leb_le in Hy; rewrite Hy).
  all: reflexivity.
Qed.

Lemma state_dict_survives_the_wire_witness :
  exists entries,
    returned (state_dict class_MonitorFail) failed_at_noon one_hour_later = Ok (ODict entries)
    /\ getitem "downtime" entries = Ok (OStr "0+00:60:00")
    /\ json_dumps (ODict entries) ≫= json_loads = Ok (ODict entries).
Proof.
  destruct (state_dict_survives_the_wire class_MonitorFail failed_at_noon one_hour_later)
    as (entries & E & _ & _ & _ & _ & _ & R).
  exists entries. split; [exact E|]. split.
  - assert (Hd : returned (state_dict class_MonitorFail) failed_at_noon one_hour_later
                 ≫= (fun d => match d with
                              | ODict entries => getitem "downtime" entries
                              | _ => Ok ONone
                              end)
                 = Ok (OStr "0+00:60:00")) by reflexivity.
    rewrite E in Hd. exact Hd.
  - apply R.
    + intros d [= <-]. split; [reflexivity | cbn; lia].
    + apply small_int_is_written. reflexivity.
Defined.

(** ** Availability *)

(** Rounding never gives a NaN. *)

Lemma shr_1_nonneg (mrs : shr_record) : 0 <= shr_m mrs -> 0 <= shr_m (shr_1 mrs).
Proof. destruct mrs as [[|[p|p|]|p] r s]; cbn; lia. Qed.

Lemma iter_pos_shr_1_nonneg (p : positive) (mrs : shr_record) :
  0 <= shr_m mrs -> 0 <= shr_m (SpecFloat.iter_pos shr_1 p mrs).
Proof.
  revert mrs. induction p as [p IH|p IH|]; intros mrs H; cbn.
  - apply IH, IH, shr_1_nonneg, H.
  - apply IH, IH, H.
  - apply shr_1_nonneg, H.
Qed.

Lemma shr_fexp_nonneg (m e : Z) (l : location) :
  0 <= m -> 0 <= shr_m (fst (shr_fexp Py.prec Py.emax m e l)).
Proof.
  intros H. unfold shr_fexp, shr.
  assert (H0 : 0 <= shr_m (shr_record_of_loc m l)) by (destruct l as [|[]]; exact H).
  destruct (_ - e) as [|p|p]; cbn [fst]; [exact H0 | | exact H0].
  apply iter_pos_shr_1_nonneg, H0.
Qed.

(** Rounding a mantissa that is not negative never gives a NaN. *)
Lemma binary_round_aux_not_nan (sx : bool) (mx ex : Z) (lx : location) :
  0 <= mx -> binary_round_aux Py.prec Py.emax sx mx ex lx <> S754_nan.
Proof.
  intros H. unfold binary_round_aux.
  pose proof (shr_fexp_nonneg mx ex lx H) as H1.
  destruct (shr_fexp Py.prec Py.emax mx ex lx) as [mrs' e']. cbn [fst] in H1.
  assert (H2 : 0 <= round_nearest_even (shr_m mrs') (loc_of_shr_record mrs')).
  { unfold round_nearest_even.
    destruct (loc_of_shr_record mrs') as [|[]]; try lia.
    destruct (Z.even (shr_m mrs')); lia. }
  pose proof (shr_fexp_nonneg _ e' loc_Exact H2) as H3.
  destruct (shr_fexp Py.prec Py.emax _ e' loc_Exact) as [mrs'' e'']. cbn [fst] in H3.
  destruct (shr_m mrs'') as [|p|p]; [done | | lia].
  destruct (e'' <=? _); done.
Qed.

(** [total_seconds] gives a finite float or a zero, when it gives one. *)
Lemma total_seconds_float (td : timedelta) (x : spec_float) :
  total_seconds td = FloatOk x ->
  (exists s, x = S754_zero s) \/ (exists s m e, x = S754_finite s m e).
Proof.
  unfold total_seconds, Py.float_of_decimal.
  set (us := (td_days td * 86400 + td_seconds td) * 10 ^ 6 + td_microseconds td).
  destruct (Z.abs us =? 0); [intros [= <-]; eauto|].
  cbn [Z.leb Z.compare].
  unfold SFdiv_core_binary.
  set (m' := match _ - _ with Z.pos _ => _ | 0 => Z.abs us | Z.neg _ => 0 end).
  assert (Hm' : 0 <= m').
  { unfold m'. destruct (_ - _); [lia | apply Z.shiftl_nonneg; lia | lia]. }
  pose proof (Z.div_pos m' (10 ^ (- (-6))) Hm' ltac:(done)) as Hq.
  unfold Z.div in Hq. destruct (Z.div_eucl m' (10 ^ (- (-6)))) as [q r].
  pose proof (binary_round_aux_not_nan (us <? 0) q
                (Z.min (fexp Py.prec Py.emax
                          (Zdigits2 (Z.abs us) + 0 - (Zdigits2 (10 ^ (- (-6))) + 0))) (0 - 0))
                (new_location (10 ^ (- (-6))) r) Hq) as Hnan.
  destruct (binary_round_aux _ _ _ _ _ _) as [s|s| |s m e]; intros [= <-]; eauto.
  done.
Qed.


(** X28: [availability] at its edges.  Until two tests were run it is
    [0.0], and the clock is not read.  After that, on a monitor that knows
    when it was loaded: if the clock still reads that time it does not
    return but raises, [ZeroDivisionError] unless the unavailable seconds
    are too many for a float; and if no unavailable second was counted it
    is exactly [1.0], unless it raises.  A monitor a program can hold always
    knows when it was loaded. *)
Theorem availability_edges (m : Monitor) (w : World) :
  (tests_run m <= 1 -> availability m w = (FloatOk (S754_zero false), w))
  /\ (1 < tests_run m ->
      _first_load m = Some (utcnow_at w (clock_reads w)) ->
      availability m w
      = (match float_of_int (unavailable_seconds m) with
         | FloatOk _ => ZeroDivisionError
         | e => e
         end, tick w))
  /\ (forall first_load,
        1 < tests_run m -> _first_load m = Some first_load ->
        unavailable_seconds m = 0 ->
        snd (availability m w) = tick w
        /\ (fst (availability m w) = FloatOk (S754_finite false 4503599627370496 (-52))
            \/ fst (availability m w) = ZeroDivisionError
            \/ fst (availability m w) = OverflowError))
  /\ (reachable m -> is_Some (_first_load m)).
Proof.
  unfold availability. split; [|split; [|split]].
  - intros H. destruct (Z.leb_spec (tests_run m) 1); [reflexivity | lia].
  - intros H E. destruct (Z.leb_spec (tests_run m) 1); [lia|]. rewrite E.
    assert (Hzero : forall d, datetime_sub d d = Timedelta 0 0 0).
    { intros d. unfold datetime_sub. rewrite !Z.sub_diag. reflexivity. }
    rewrite Hzero. unfold int_truediv_float.
    destruct (float_of_int (unavailable_seconds m)); reflexivity.
  - intros first_load H E Hnone.
    destruct (Z.leb_spec (tests_run m) 1); [lia|]. rewrite E, Hnone. cbn [fst snd].
    split; [reflexivity|].
    destruct (total_seconds _) as [total| |] eqn:Et; auto.
    apply total_seconds_float in Et as [[s ->]|(s & mt & e & ->)]; [auto|].
    left. reflexivity.
  - induction 1 as [name config_options w0 m w' Hinit | c m w0 Hm IH].
    + apply Monitor_init_Ok in Hinit as (_ & Hinit).
      destruct Hinit as (? & ? & ? & ? & ? & ? & ? & ? & ? & ? & _ & ->). cbn. eauto.
    + clear -IH. revert IH.
      destruct c; unfold_methods; run_M; branches; done.
Qed.

(** A monitor that has run five tests and counted 30 unavailable seconds,
    asked three seconds after it was loaded, and asked at once. *)
Example availability_of_a_sample :
  (FloatOk <$> Py.float_of_str "-9")
  = Some (fst (availability (set_tests_run 5 (set_unavailable_seconds 30 sample_monitor))
                 sample_world_later))
  /\ fst (availability (set_tests_run 5 (set_unavailable_seconds 30 sample_monitor))
            sample_world)
     = ZeroDivisionError.
Proof. split; vm_compute; reflexivity. Qed.
